(** * Logseq MCP tools: a shallow embedding of [src/index.ts]

    The development follows the layout of the source file: the helper
    functions ([formatJournalDate], [processBlocks], [parseDateRange],
    [buildDatalogQuery]), the API client ([callLogseqApi]) and the tool
    handlers ([logseq_query], [logseq_write], the page and block targets
    of [logseq_read], the orphan_pages analysis of [logseq_analyze]).

    Conventions of the embedding.
    - A JavaScript string is a [string]; one character stands for one
      code unit, the character of code [n] for the code unit [n].  The
      strings of the model are therefore the strings of code units below
      256 (Basic Latin and Latin-1 Supplement, U+0000 to U+00FF); a
      character from U+0080 on is written by its code with [ascii_of_nat],
      never in a literal (a literal of the source text would hold the
      bytes of its UTF-8 encoding): the no-break space U+00A0 is
      [ascii_of_nat 160].  On these strings [toLowerCase], [trim], [split],
      [substring] and [length] are the functions of ECMAScript:
      [toLowerCase] maps A-Z and the capitals U+00C0 to U+00DE (but the
      multiplication sign U+00D7) to the letter 32 places on, [trim]
      strips TAB, LF, VT, FF, CR, SPACE and the no-break space U+00A0.
    - A JavaScript number that the code uses as a count, a day number or
      a time value is an integer of [Z].  The numbers of JSON values
      ([JNum]) are the integral ones; [String(n)] is their decimal
      numeral, as it is in JavaScript for magnitudes below 1e21.
    - A [Date] is represented by its time value (milliseconds since the
      epoch, UTC).  The host time zone is the function [LocalTZA] of
      ECMAScript, a parameter: the getters read the fields of
      [LocalTime(t)], the setters compute a local time value from them and
      convert it back with [UTC], which moves a local time that the zone
      skips forward.  The clipping of time values to +-8.64e15 ms is not
      represented.
    - A JavaScript exception is the [Throw] outcome of the result type. *)

From Stdlib Require Import ZArith List String Ascii Bool Lia DecimalString.
Import ListNotations.

#[local] Open Scope string_scope.
#[local] Open Scope Z_scope.

(* ================================================================== *)
(** ** Strings *)
(* ================================================================== *)

Module Str.

(** The line feed, the double quote and the no-break space U+00A0,
    written by code. *)
Definition nl : string := String "010"%char "".
Definition dq : string := String "034"%char "".
Definition nbsp : string := String (ascii_of_nat 160) "".

(** [String(n)] for an integral number. *)
Definition ofZ (n : Z) : string := NilZero.string_of_int (Z.to_int n).

(** The characters that [toLowerCase] changes: A-Z, and in the Latin-1
    Supplement the capitals U+00C0 to U+00DE without the multiplication
    sign U+00D7.  Each has its small letter 32 places on. *)
Definition is_upper (c : ascii) : bool :=
  let n := nat_of_ascii c in
  ((Nat.leb 65 n && Nat.leb n 90)
   || (Nat.leb 192 n && Nat.leb n 222 && negb (Nat.eqb n 215)))%bool.

Definition lower_char (c : ascii) : ascii :=
  if is_upper c then ascii_of_nat (nat_of_ascii c + 32) else c.

(** [s.toLowerCase()] *)
Fixpoint toLowerCase (s : string) : string :=
  match s with
  | EmptyString => EmptyString
  | String c r => String (lower_char c) (toLowerCase r)
  end.

(** Does [s] hold a capital letter? *)
Fixpoint has_upper (s : string) : bool :=
  match s with
  | EmptyString => false
  | String c r => (is_upper c || has_upper r)%bool
  end.

(** White space and line terminators below U+0100: TAB, LF, VT, FF,
    CR, SPACE and the no-break space U+00A0. *)
Definition is_space (c : ascii) : bool :=
  let n := nat_of_ascii c in
  (Nat.leb 9 n && Nat.leb n 13 || Nat.eqb n 32 || Nat.eqb n 160)%bool.

Fixpoint trimStart (s : string) : string :=
  match s with
  | EmptyString => EmptyString
  | String c r => if is_space c then trimStart r else s
  end.

Fixpoint trimEnd (s : string) : string :=
  match s with
  | EmptyString => EmptyString
  | String c r =>
      match trimEnd r with
      | EmptyString => if is_space c then EmptyString else String c EmptyString
      | r' => String c r'
      end
  end.

(** [s.trim()] *)
Definition trim (s : string) : string := trimEnd (trimStart s).

(** [s.repeat(n)] *)
Fixpoint repeat (s : string) (n : nat) : string :=
  match n with
  | O => ""
  | S k => s ++ repeat s k
  end.

(** The truth value of a string: every string but the empty one. *)
Definition truthy (s : string) : bool := negb (s =? "")%string.

(** [s.split('\n')], over the line feed. *)
Fixpoint split_lines (s : string) : list string :=
  match s with
  | EmptyString => [""]
  | String c r =>
      if Ascii.eqb c "010"%char then "" :: split_lines r
      else match split_lines r with
           | [] => [String c ""]
           | l :: ls => String c l :: ls
           end
  end.

(** [a.join(sep)] for an array of strings. *)
Fixpoint join (sep : string) (l : list string) : string :=
  match l with
  | [] => ""
  | [x] => x
  | x :: r => x ++ sep ++ join sep r
  end.

Definition concat_all (l : list string) : string :=
  fold_right String.append "" l.

(** Does [s] hold a line feed? *)
Fixpoint has_nl (s : string) : bool :=
  match s with
  | EmptyString => false
  | String c r => (Ascii.eqb c "010"%char || has_nl r)%bool
  end.

(** [s.includes(t)] *)
Fixpoint includes (s t : string) : bool :=
  (prefix t s ||
     match s with
     | EmptyString => false
     | String _ r => includes r t
     end)%bool.

End Str.

(* ================================================================== *)
(** ** Outcomes of a JavaScript evaluation *)
(* ================================================================== *)

(** What a [throw] carries.  Everything thrown in this program is an
    [Error] object (or one of its subclasses raised by the engine), so it
    has a [message]; the wording of engine-raised errors is that of V8. *)
Inductive Thrown : Type :=
| Error (message : string)
| TypeError (message : string)
| SyntaxError (message : string).

Definition message_of (e : Thrown) : string :=
  match e with
  | Error m | TypeError m | SyntaxError m => m
  end.

Inductive Outcome (A : Type) : Type :=
| Ok (a : A)
| Throw (e : Thrown).

Arguments Ok {A} a.
Arguments Throw {A} e.

Definition obind {A B} (o : Outcome A) (k : A -> Outcome B) : Outcome B :=
  match o with
  | Ok a => k a
  | Throw e => Throw e
  end.

Definition returns {A} (o : Outcome A) : bool :=
  match o with Ok _ => true | Throw _ => false end.

(* ================================================================== *)
(** ** Objects used as string-keyed tables *)
(* ================================================================== *)

(** [parseDateRange] and [buildDatalogQuery] keep their tables in object
    literals and read them with [table[key]].  An object literal inherits
    from [Object.prototype], and a property read walks the prototype
    chain, so a key that names a member of [Object.prototype] is found
    there when the literal has no such key of its own. *)
Module Obj.

Inductive ProtoMember : Type :=
| constructor_
| proto_
| hasOwnProperty
| isPrototypeOf
| propertyIsEnumerable
| toLocaleString
| toString
| valueOf
| defineGetter
| defineSetter
| lookupGetter
| lookupSetter.

(** The properties of [Object.prototype]. *)
Definition Object_prototype (k : string) : option ProtoMember :=
  if (k =? "constructor")%string then Some constructor_
  else if (k =? "__proto__")%string then Some proto_
  else if (k =? "hasOwnProperty")%string then Some hasOwnProperty
  else if (k =? "isPrototypeOf")%string then Some isPrototypeOf
  else if (k =? "propertyIsEnumerable")%string then Some propertyIsEnumerable
  else if (k =? "toLocaleString")%string then Some toLocaleString
  else if (k =? "toString")%string then Some toString
  else if (k =? "valueOf")%string then Some valueOf
  else if (k =? "__defineGetter__")%string then Some defineGetter
  else if (k =? "__defineSetter__")%string then Some defineSetter
  else if (k =? "__lookupGetter__")%string then Some lookupGetter
  else if (k =? "__lookupSetter__")%string then Some lookupSetter
  else None.

(** The result of [table[key]]. *)
Inductive Lookup (A : Type) : Type :=
| Own (a : A)
| Inherited (m : ProtoMember)
| Undefined.

Arguments Own {A} a.
Arguments Inherited {A} m.
Arguments Undefined {A}.

Definition get {A} (own : string -> option A) (k : string) : Lookup A :=
  match own k with
  | Some a => Own a
  | None =>
      match Object_prototype k with
      | Some m => Inherited m
      | None => Undefined
      end
  end.

(** [table[key]()] for an inherited member, with no argument and the
    table as [this]: [__proto__] reads as the prototype object, which
    is not callable; [__defineGetter__] and [__defineSetter__] reject a
    missing accessor function; the other members return a value, which
    the caller drops. *)
Definition call_inherited (site : string) (m : ProtoMember) : option Thrown :=
  match m with
  | proto_ => Some (TypeError (site ++ " is not a function"))
  | defineGetter =>
      Some (TypeError "Object.prototype.__defineGetter__: Expecting function")
  | defineSetter =>
      Some (TypeError "Object.prototype.__defineSetter__: Expecting function")
  | _ => None
  end.

End Obj.

(* ================================================================== *)
(** ** Dates *)
(* ================================================================== *)

(** The day and time arithmetic of ECMAScript (section "Date Objects")
    and the methods of [Date] that the program calls. *)
Module JsDate.

Definition msPerDay : Z := 86400000.

Definition Day (t : Z) : Z := t / msPerDay.
Definition TimeWithinDay (t : Z) : Z := t mod msPerDay.

Definition DaysInYear (y : Z) : Z :=
  if negb (y mod 4 =? 0) then 365
  else if negb (y mod 100 =? 0) then 366
  else if negb (y mod 400 =? 0) then 365
  else 366.

Definition DayFromYear (y : Z) : Z :=
  365 * (y - 1970) + (y - 1969) / 4 - (y - 1901) / 100 + (y - 1601) / 400.

(** The year of a day number: the largest [y] with [DayFromYear y <= d].
    The quotient by the mean year length is off by at most one year. *)
Definition YearFromDay (d : Z) : Z :=
  let y0 := 1970 + (400 * d) / 146097 in
  if d <? DayFromYear y0 then y0 - 1
  else if DayFromYear (y0 + 1) <=? d then y0 + 1
  else y0.

Definition YearFromTime (t : Z) : Z := YearFromDay (Day t).

Definition InLeapYear (y : Z) : Z := if DaysInYear y =? 366 then 1 else 0.

Definition DayWithinYear (t : Z) : Z := Day t - DayFromYear (YearFromTime t).

(** The month of a day within its year; [leap] is 0 or 1. *)
Definition month_of_yday (leap dwy : Z) : Z :=
  if dwy <? 31 then 0
  else if dwy <? 59 + leap then 1
  else if dwy <? 90 + leap then 2
  else if dwy <? 120 + leap then 3
  else if dwy <? 151 + leap then 4
  else if dwy <? 181 + leap then 5
  else if dwy <? 212 + leap then 6
  else if dwy <? 243 + leap then 7
  else if dwy <? 273 + leap then 8
  else if dwy <? 304 + leap then 9
  else if dwy <? 334 + leap then 10
  else 11.

(** The day within the year on which month [m] begins. *)
Definition month_start (leap m : Z) : Z :=
  if m =? 0 then 0
  else if m =? 1 then 31
  else if m =? 2 then 59 + leap
  else if m =? 3 then 90 + leap
  else if m =? 4 then 120 + leap
  else if m =? 5 then 151 + leap
  else if m =? 6 then 181 + leap
  else if m =? 7 then 212 + leap
  else if m =? 8 then 243 + leap
  else if m =? 9 then 273 + leap
  else if m =? 10 then 304 + leap
  else 334 + leap.

Definition MonthFromTime (t : Z) : Z :=
  month_of_yday (InLeapYear (YearFromTime t)) (DayWithinYear t).

Definition DateFromTime (t : Z) : Z :=
  DayWithinYear t
  - month_start (InLeapYear (YearFromTime t)) (MonthFromTime t) + 1.

Definition WeekDay (t : Z) : Z := (Day t + 4) mod 7.

Definition MakeTime (h m s ms : Z) : Z :=
  h * 3600000 + m * 60000 + s * 1000 + ms.

(** [MakeDay]: the month may lie outside 0..11 and carries into the
    year; the date may lie outside the month and is counted from its
    first day. *)
Definition MakeDay (year month date : Z) : Z :=
  let ym := year + month / 12 in
  let mn := month mod 12 in
  DayFromYear ym + month_start (InLeapYear ym) mn + date - 1.

Definition MakeDate (day time : Z) : Z := day * msPerDay + time.

(** The host time zone, [LocalTZA(t, isUTC)]: the offset of local time
    from UTC, in milliseconds.  With [isUTC] true, [t] is a time value
    (UTC); with [isUTC] false, [t] is a local time value, and a local
    time that is skipped or repeated at a transition of the zone is read
    with the offset before the transition. *)
Definition Zone : Type := Z -> bool -> Z.

Definition LocalTime (tz : Zone) (t : Z) : Z := t + tz t true.
Definition UTC (tz : Zone) (t : Z) : Z := t - tz t false.

(** Getters: the fields of the local time. *)
Definition getFullYear (tz : Zone) (t : Z) : Z := YearFromTime (LocalTime tz t).
Definition getMonth (tz : Zone) (t : Z) : Z := MonthFromTime (LocalTime tz t).
Definition getDate (tz : Zone) (t : Z) : Z := DateFromTime (LocalTime tz t).
Definition getDay (tz : Zone) (t : Z) : Z := WeekDay (LocalTime tz t).

(** The local time value that each setter computes from the local time
    [t] of the date. *)
Definition with_hours (t h m s ms : Z) : Z :=
  MakeDate (Day t) (MakeTime h m s ms).

Definition with_date (t dt : Z) : Z :=
  MakeDate (MakeDay (YearFromTime t) (MonthFromTime t) dt) (TimeWithinDay t).

Definition with_month (t m dt : Z) : Z :=
  MakeDate (MakeDay (YearFromTime t) m dt) (TimeWithinDay t).

(** Setters; each returns the new time value of the date:
    [UTC(newDate)] for the [newDate] computed from [LocalTime(t)]. *)
Definition setHours (tz : Zone) (t h m s ms : Z) : Z :=
  UTC tz (with_hours (LocalTime tz t) h m s ms).

Definition setDate (tz : Zone) (t dt : Z) : Z :=
  UTC tz (with_date (LocalTime tz t) dt).

Definition setMonth (tz : Zone) (t m dt : Z) : Z :=
  UTC tz (with_month (LocalTime tz t) m dt).

(** [new Date(year, month, day)], the fields being those of a local
    time: a year in 0..99 counts from 1900. *)
Definition newDate (tz : Zone) (year month day : Z) : Z :=
  let yr := if (0 <=? year) && (year <=? 99) then 1900 + year else year in
  UTC tz (MakeDate (MakeDay yr month day) 0).

(** [toLocaleString('en-US', {month: 'long'})] *)
Definition month_long (m : Z) : string :=
  nth (Z.to_nat m)
    ["January"; "February"; "March"; "April"; "May"; "June"; "July";
     "August"; "September"; "October"; "November"; "December"] "".

(** [toLocaleString('en-US', {month: 'short'})] *)
Definition month_short (m : Z) : string :=
  nth (Z.to_nat m)
    ["Jan"; "Feb"; "Mar"; "Apr"; "May"; "Jun"; "Jul";
     "Aug"; "Sep"; "Oct"; "Nov"; "Dec"] "".

(** The time value of a civil date and time, for examples: a local
    time value, or a time value when the date and time are those of
    UTC. *)
Definition civil (y m d hh mm ss ms : Z) : Z :=
  MakeDate (MakeDay y (m - 1) d) (MakeTime hh mm ss ms).

End JsDate.

(** Time zones. *)
Module Zones.

Import JsDate.

(** A zone whose offset never changes. *)
Definition fixed (offset : Z) : Zone := fun _ _ => offset.

Definition utc : Zone := fixed 0.

(** A zone that moves its clocks forward once: the offset is [before]
    up to the instant [T] and [after], the larger one, from then on.
    The local times from [T + before] to [T + after] are skipped; they
    are read with the offset [before]. *)
Definition spring_forward (T before after : Z) : Zone :=
  fun t isUTC =>
    if isUTC then (if t <? T then before else after)
    else (if t <? T + after then before else after).

(** Africa/Cairo in the spring of 2024: two hours ahead of UTC until
    25 April, 22:00 UTC, which is midnight on the local clock, and three
    hours ahead from then on; the clocks go from 00:00 to 01:00. *)
Definition cairo_2024 : Zone :=
  spring_forward (civil 2024 4 25 22 0 0 0) 7200000 10800000.

(** The offset of the zone is [offset] throughout the local days [a] to
    [b]: at every local time of these days, and at the instant it
    stands for. *)
Definition steady (tz : Zone) (offset a b : Z) : Prop :=
  forall t, a <= Day t <= b ->
            tz (t - offset) true = offset /\ tz t false = offset.

End Zones.

(* ================================================================== *)
(** ** formatJournalDate *)
(* ================================================================== *)

(** The table [['th','st','nd','rd','th','th','th','th','th','th']]. *)
Definition suffix_table : list string :=
  ["th"; "st"; "nd"; "rd"; "th"; "th"; "th"; "th"; "th"; "th"].

Definition formatJournalDate (tz : JsDate.Zone) (date : Z) : string :=
  let month := Str.toLowerCase (JsDate.month_short (JsDate.getMonth tz date)) in
  let day := JsDate.getDate tz date in
  let year := JsDate.getFullYear tz date in
  let suffix :=
    if (11 <=? day) && (day <=? 13) then "th"
    else nth (Z.to_nat (Z.rem day 10)) suffix_table "undefined" in
  month ++ " " ++ Str.ofZ day ++ suffix ++ ", " ++ Str.ofZ year.

(* ================================================================== *)
(** ** parseDateRange *)
(* ================================================================== *)

(** The three variables that the closures of [ranges] assign. *)
Record DateRange : Type := mkRange {
  start : Z;
  end_ : Z;
  title : string
}.

Module Ranges.

Import JsDate.

Definition set_start (f : Z -> Z) (r : DateRange) : DateRange :=
  mkRange (f (start r)) (end_ r) (title r).
Definition set_end (f : Z -> Z) (r : DateRange) : DateRange :=
  mkRange (start r) (f (end_ r)) (title r).
Definition set_title (s : string) (r : DateRange) : DateRange :=
  mkRange (start r) (end_ r) s.

Definition midnight (tz : Zone) (t : Z) : Z := setHours tz t 0 0 0 0.
Definition last_ms (tz : Zone) (t : Z) : Z := setHours tz t 23 59 59 999.

(** The variables as they stand before the table is consulted:
    [start] is a copy of [today], [end] is the last millisecond of
    today, [title] is empty. *)
Definition init (tz : Zone) (today : Z) : DateRange :=
  mkRange today (last_ms tz today) "".

(** The closures of the object literal [ranges], each as a transformer
    of the variables; [today] is captured and never assigned. *)
Definition r_today (tz : Zone) (today : Z) (r : DateRange) : DateRange :=
  set_title "Today's Journal" (set_start (midnight tz) r).

Definition r_yesterday (tz : Zone) (today : Z) (r : DateRange) : DateRange :=
  let r := set_start (fun s => setDate tz s (getDate tz today - 1)) r in
  let r := set_start (midnight tz) r in
  let r := set_end (fun e => setDate tz e (getDate tz today - 1)) r in
  set_title "Yesterday's Journal" r.

Definition r_this_week (tz : Zone) (today : Z) (r : DateRange) : DateRange :=
  let r := set_start (fun s => setDate tz s (getDate tz today - getDay tz today)) r in
  let r := set_start (midnight tz) r in
  set_title "This Week's Journal" r.

Definition r_last_week (tz : Zone) (today : Z) (r : DateRange) : DateRange :=
  let r :=
    set_start (fun s => setDate tz s (getDate tz today - getDay tz today - 7)) r in
  let r := set_start (midnight tz) r in
  let r :=
    set_end (fun e => setDate tz e (getDate tz today - getDay tz today - 1)) r in
  let r := set_end (last_ms tz) r in
  set_title "Last Week's Journal" r.

Definition r_this_month (tz : Zone) (today : Z) (r : DateRange) : DateRange :=
  let r := set_start (fun s => setDate tz s 1) r in
  let r := set_start (midnight tz) r in
  set_title ("Journal for " ++ month_long (getMonth tz today) ++ " "
             ++ Str.ofZ (getFullYear tz today)) r.

Definition r_last_month (tz : Zone) (today : Z) (r : DateRange) : DateRange :=
  let r := set_start (fun s => setMonth tz s (getMonth tz today - 1) 1) r in
  let r := set_start (midnight tz) r in
  let r := set_end (fun e => setDate tz e 0) r in
  set_title ("Journal for " ++ month_long (getMonth tz (start r)) ++ " "
             ++ Str.ofZ (getFullYear tz (start r))) r.

Definition r_last_7_days (tz : Zone) (today : Z) (r : DateRange) : DateRange :=
  let r := set_start (fun s => setDate tz s (getDate tz today - 7)) r in
  let r := set_start (midnight tz) r in
  set_title "Last 7 Days Journal" r.

Definition r_last_30_days (tz : Zone) (today : Z) (r : DateRange) : DateRange :=
  let r := set_start (fun s => setDate tz s (getDate tz today - 30)) r in
  let r := set_start (midnight tz) r in
  set_title "Last 30 Days Journal" r.

(** The own properties of [ranges]. *)
Definition ranges (k : string)
  : option (Zone -> Z -> DateRange -> DateRange) :=
  if (k =? "today")%string then Some r_today
  else if (k =? "yesterday")%string then Some r_yesterday
  else if (k =? "this week")%string then Some r_this_week
  else if (k =? "last week")%string then Some r_last_week
  else if (k =? "this month")%string then Some r_this_month
  else if (k =? "last month")%string then Some r_last_month
  else if (k =? "last 7 days")%string then Some r_last_7_days
  else if (k =? "last 30 days")%string then Some r_last_30_days
  else None.

(** The [else] branch: "Default to this week". *)
Definition r_default (tz : Zone) (today : Z) (r : DateRange) : DateRange :=
  let r := set_start (fun s => setDate tz s (getDate tz today - getDay tz today)) r in
  let r := set_start (midnight tz) r in
  set_title "Weekly Journal" r.

End Ranges.

(** [parseDateRange(dateRange)], with [now] the time value of
    [new Date()] and [tz] the host time zone.
    The test [if (ranges[normalizedRange])] succeeds for an own closure
    and for every inherited member (functions and the prototype object
    are all truthy); the call then runs whatever was found. *)
Definition parseDateRange (tz : JsDate.Zone) (now : Z) (dateRange : string)
  : Outcome DateRange :=
  let today := now in
  let init := Ranges.init tz today in
  let normalizedRange := Str.trim (Str.toLowerCase dateRange) in
  match Obj.get Ranges.ranges normalizedRange with
  | Obj.Own f => Ok (f tz today init)
  | Obj.Inherited m =>
      match Obj.call_inherited "ranges[normalizedRange]" m with
      | Some e => Throw e
      | None => Ok init
      end
  | Obj.Undefined => Ok (Ranges.r_default tz today init)
  end.


(* ================================================================== *)
(** ** processBlocks *)
(* ================================================================== *)

#[local] Set Warnings "-register-all".

(** A node of a block tree: its text and its ordered children.  A block
    without a [content] field reads as the empty text, one without
    [children] as the empty sequence. *)
Inductive Block : Type :=
| mkBlock (content : string) (children : list Block).

(** Induction over block trees: a property holds of a block when it
    holds of all of its children. *)
Fixpoint Block_forall_ind (P : Block -> Prop)
  (step : forall c ch, Forall P ch -> P (mkBlock c ch)) (b : Block) : P b :=
  match b with
  | mkBlock c ch =>
      step c ch
        ((fix all (l : list Block) : Forall P l :=
            match l with
            | [] => Forall_nil P
            | x :: rest => Forall_cons x (Block_forall_ind P step x) (all rest)
            end) ch)
  end.

(** The bullet line of a block at a depth. *)
Definition bullet (indent : nat) (c : string) : string :=
  Str.repeat "  " indent ++ "- " ++ c ++ Str.nl.

(** One turn of the [for] loop of [processBlocks]: what the block adds
    to [text].  The inner loop is the recursive call on the children. *)
Fixpoint processBlock (indent : nat) (block : Block) : string :=
  match block with
  | mkBlock c ch =>
      if Str.truthy c then
        bullet indent c ++
        (if (0 <? Z.of_nat (List.length ch)) then
           (fix loop (bs : list Block) (text : string) : string :=
              match bs with
              | [] => text
              | b :: rest => loop rest (text ++ processBlock (S indent) b)
              end) ch ""
         else "")
      else ""
  end.

(** [processBlocks(blocks, indent)]: [text] starts empty and every block
    appends its part. *)
Definition processBlocks (blocks : list Block) (indent : nat) : string :=
  fold_left (fun text block => text ++ processBlock indent block) blocks "".

(** The rendering that the specification describes, written from its
    words: one bullet per node with non-empty content, at two spaces per
    level, parents before children before later siblings; a node with
    empty content gives no line, and its children are still rendered (one
    level deeper, as their depth in the tree says). *)
Fixpoint specRenderBlock (indent : nat) (block : Block) : string :=
  match block with
  | mkBlock c ch =>
      (if Str.truthy c then bullet indent c else "") ++
      Str.concat_all (map (specRenderBlock (S indent)) ch)
  end.

Definition specRender (blocks : list Block) (indent : nat) : string :=
  Str.concat_all (map (specRenderBlock indent) blocks).

(** The nodes of a forest in depth-first pre-order, each with its depth
    and with a flag telling whether all of its ancestors have non-empty
    content. *)
Fixpoint walkBlock (live : bool) (depth : nat) (block : Block)
  : list (bool * nat * string) :=
  match block with
  | mkBlock c ch =>
      (live, depth, c) ::
      flat_map (walkBlock (live && Str.truthy c) (S depth)) ch
  end.

Definition walk (blocks : list Block) (depth : nat) : list (bool * nat * string) :=
  flat_map (walkBlock true depth) blocks.

Definition bullet_of (x : bool * nat * string) : string :=
  bullet (snd (fst x)) (snd x).

(** A node has text. *)
Definition has_text (x : bool * nat * string) : bool := Str.truthy (snd x).

(** A node has text, and so has every ancestor of it. *)
Definition reached (x : bool * nat * string) : bool :=
  fst (fst x) && Str.truthy (snd x).

(** Every node of the forest has text. *)
Fixpoint all_text (block : Block) : bool :=
  match block with
  | mkBlock c ch =>
      Str.truthy c &&
      (fix every (l : list Block) : bool :=
         match l with
         | [] => true
         | b :: rest => all_text b && every rest
         end) ch
  end.

(** A page whose first block is empty and has one child. *)
Definition empty_parent : list Block :=
  [mkBlock "" [mkBlock "child" []]; mkBlock "sibling" []].

(** A tree of three levels. *)
Definition three_levels : list Block :=
  [mkBlock "a" [mkBlock "b" [mkBlock "c" []]; mkBlock "d" []]; mkBlock "e" []].

(* ================================================================== *)
(** ** buildDatalogQuery *)
(* ================================================================== *)

(** The parameter bag, with the entries that the templates read.  An
    entry that is absent reads as [undefined]. *)
Record Params : Type := mkParams {
  p_property : option string;
  p_value : option string;
  p_text : option string;
  p_tag : option string;
  p_page : option string;
  p_days : option Z;
  p_custom : option string
}.

Definition no_params : Params :=
  mkParams None None None None None None None.

(** What the function hands back: a query text, or, when the key names
    a member of [Object.prototype], that member (a function or the
    prototype object, not a string); [QUndefined] is the value of an
    operand that is absent. *)
Inductive QueryValue : Type :=
| QText (s : string)
| QMember (m : Obj.ProtoMember)
| QUndefined.

Module Queries.

(** An interpolated [${x}] of a string that may be undefined. *)
Definition interp (x : option string) : string :=
  match x with Some s => s | None => "undefined" end.

(** An interpolated [${x?.toLowerCase()}]. *)
Definition interp_lower (x : option string) : string :=
  match x with Some s => Str.toLowerCase s | None => "undefined" end.

(** [params.days || 7] *)
Definition days_or_7 (d : option Z) : Z :=
  match d with
  | Some n => if n =? 0 then 7 else n
  | None => 7
  end.

Definition q_pages : string :=
  "[:find (pull ?p [*]) :where [?p :block/name]]".

Definition q_pages_with_property (params : Params) : string :=
  "[:find (pull ?p [*]) :where [?p :block/properties ?props] [(get ?props :"
  ++ interp (p_property params) ++ ") ?v] [(= ?v " ++ Str.dq
  ++ interp (p_value params) ++ Str.dq ++ ")]]".

Definition q_todos : string :=
  "[:find (pull ?b [*]) :where [?b :block/marker ?m] [(contains? #{"
  ++ Str.dq ++ "TODO" ++ Str.dq ++ " " ++ Str.dq ++ "DOING" ++ Str.dq ++ " "
  ++ Str.dq ++ "NOW" ++ Str.dq ++ " " ++ Str.dq ++ "LATER" ++ Str.dq ++ " "
  ++ Str.dq ++ "WAITING" ++ Str.dq ++ "} ?m)]]".

Definition q_blocks_with_text (params : Params) : string :=
  "[:find (pull ?b [*]) :where [?b :block/content ?c] [(clojure.string/includes? ?c "
  ++ Str.dq ++ interp (p_text params) ++ Str.dq ++ ")]]".

Definition q_pages_with_tag (params : Params) : string :=
  "[:find (pull ?p [*]) :where [?p :block/tags ?t] [?t :block/name "
  ++ Str.dq ++ interp_lower (p_tag params) ++ Str.dq ++ "]]".

Definition q_blocks_with_tag (params : Params) : string :=
  "[:find (pull ?b [*]) :where [?b :block/refs ?r] [?r :block/name "
  ++ Str.dq ++ interp_lower (p_tag params) ++ Str.dq ++ "]]".

Definition q_journals : string :=
  "[:find (pull ?p [*]) :where [?p :block/journal? true]]".

Definition q_recent_pages (nowMs : Z) (params : Params) : string :=
  "[:find (pull ?p [*]) :where [?p :block/updated-at ?t] [(> ?t "
  ++ Str.ofZ (nowMs - days_or_7 (p_days params) * 86400000) ++ ")]]".

Definition q_orphan_pages : string :=
  "[:find (pull ?p [*]) :where [?p :block/name] (not [?b :block/refs ?p])]".

Definition q_backlinks (params : Params) : string :=
  "[:find (pull ?p [*]) :where [?b :block/refs ?target] [?target :block/name "
  ++ Str.dq ++ interp_lower (p_page params) ++ Str.dq ++ "] [?b :block/page ?p]]".

(** The ten catalog keys. *)
Definition catalog : list string :=
  ["pages"; "pages_with_property"; "todos"; "blocks_with_text";
   "pages_with_tag"; "blocks_with_tag"; "journals"; "recent_pages";
   "orphan_pages"; "backlinks"].

(** The own properties of the object literal [queries]; [nowMs] is the
    value of [Date.now()]. *)
Definition queries (nowMs : Z) (params : Params) (k : string) : option string :=
  if (k =? "pages")%string then Some q_pages
  else if (k =? "pages_with_property")%string then Some (q_pages_with_property params)
  else if (k =? "todos")%string then Some q_todos
  else if (k =? "blocks_with_text")%string then Some (q_blocks_with_text params)
  else if (k =? "pages_with_tag")%string then Some (q_pages_with_tag params)
  else if (k =? "blocks_with_tag")%string then Some (q_blocks_with_tag params)
  else if (k =? "journals")%string then Some q_journals
  else if (k =? "recent_pages")%string then Some (q_recent_pages nowMs params)
  else if (k =? "orphan_pages")%string then Some q_orphan_pages
  else if (k =? "backlinks")%string then Some (q_backlinks params)
  else None.

(** The value of [queries[key]]. *)
Definition read (l : Obj.Lookup string) : QueryValue :=
  match l with
  | Obj.Own s => QText s
  | Obj.Inherited m => QMember m
  | Obj.Undefined => QUndefined
  end.

(** The value of [params.custom]. *)
Definition custom_value (params : Params) : QueryValue :=
  match p_custom params with
  | Some c => QText c
  | None => QUndefined
  end.

Definition truthy (v : QueryValue) : bool :=
  match v with
  | QText s => Str.truthy s
  | QMember _ => true
  | QUndefined => false
  end.

(** [a || b] *)
Definition or_else (a b : QueryValue) : QueryValue :=
  if truthy a then a else b.

End Queries.

(** [buildDatalogQuery(queryType, params)]:
    [queries[queryType] || params.custom || queries['pages']]. *)
Definition buildDatalogQuery (nowMs : Z) (queryType : string) (params : Params)
  : QueryValue :=
  let queries := Queries.queries nowMs params in
  Queries.or_else
    (Queries.or_else (Queries.read (Obj.get queries queryType))
                     (Queries.custom_value params))
    (Queries.read (Obj.get queries "pages")).

(* ================================================================== *)
(** ** JSON values *)
(* ================================================================== *)

(** The values that the handlers see behind the type [any]: what
    [response.json()] yields, and [undefined] for what is absent. *)
Inductive JSValue : Type :=
| JUndefined
| JNull
| JBool (b : bool)
| JNum (n : Z)
| JStr (s : string)
| JArr (elems : list JSValue)
| JObj (fields : list (string * JSValue)).

(** Induction over JSON values: a property holds of an array when it
    holds of its elements, and of an object when it holds of the values
    of its fields. *)
Fixpoint JSValue_forall_ind (P : JSValue -> Prop)
  (Hu : P JUndefined) (Hn : P JNull) (Hb : forall b, P (JBool b))
  (Hz : forall n, P (JNum n)) (Hs : forall s, P (JStr s))
  (Ha : forall l, Forall P l -> P (JArr l))
  (Ho : forall fields, Forall (fun kv => P (snd kv)) fields -> P (JObj fields))
  (v : JSValue) : P v :=
  match v with
  | JUndefined => Hu
  | JNull => Hn
  | JBool b => Hb b
  | JNum n => Hz n
  | JStr s => Hs s
  | JArr l =>
      Ha l
        ((fix all (l : list JSValue) : Forall P l :=
            match l with
            | [] => Forall_nil P
            | x :: rest =>
                Forall_cons x (JSValue_forall_ind P Hu Hn Hb Hz Hs Ha Ho x)
                  (all rest)
            end) l)
  | JObj fields =>
      Ho fields
        ((fix all (fs : list (string * JSValue))
            : Forall (fun kv => P (snd kv)) fs :=
            match fs with
            | [] => Forall_nil _
            | (k, x) :: rest =>
                Forall_cons (k, x) (JSValue_forall_ind P Hu Hn Hb Hz Hs Ha Ho x)
                  (all rest)
            end) fields)
  end.

Module JS.

Definition truthy (v : JSValue) : bool :=
  match v with
  | JUndefined | JNull => false
  | JBool b => b
  | JNum n => negb (n =? 0)
  | JStr s => Str.truthy s
  | JArr _ | JObj _ => true
  end.

Definition nullish (v : JSValue) : bool :=
  match v with
  | JUndefined | JNull => true
  | _ => false
  end.

(** [a || b] *)
Definition or_ (a b : JSValue) : JSValue := if truthy a then a else b.

(** The own property [k] of an object with the given fields. *)
Fixpoint assoc (k : string) (fields : list (string * JSValue)) : JSValue :=
  match fields with
  | [] => JUndefined
  | (k', v) :: rest => if (k =? k')%string then v else assoc k rest
  end.

Definition cannot_read (v : JSValue) (k : string) : Thrown :=
  TypeError ("Cannot read properties of "
             ++ (match v with JNull => "null" | _ => "undefined" end)
             ++ " (reading '" ++ k ++ "')").

(** [v[k]] for the field names that the source reads ([block/name],
    [name], [content], [journal?] and the like): none of them is a
    property of the prototype of an array, a string, a number, a boolean
    or an object, so only an own field of an object answers. *)
Definition get (v : JSValue) (k : string) : Outcome JSValue :=
  match v with
  | JUndefined | JNull => Throw (cannot_read v k)
  | JObj fields => Ok (assoc k fields)
  | _ => Ok JUndefined
  end.

(** [v[0]] *)
Definition get0 (v : JSValue) : Outcome JSValue :=
  match v with
  | JUndefined | JNull => Throw (cannot_read v "0")
  | JArr (x :: _) => Ok x
  | JArr [] => Ok JUndefined
  | JStr (String c _) => Ok (JStr (String c ""))
  | JStr EmptyString => Ok JUndefined
  | JObj fields => Ok (assoc "0" fields)
  | _ => Ok JUndefined
  end.

(** [String(v)], as a template literal applies it. *)
Fixpoint toStr (v : JSValue) : string :=
  match v with
  | JUndefined => "undefined"
  | JNull => "null"
  | JBool true => "true"
  | JBool false => "false"
  | JNum n => Str.ofZ n
  | JStr s => s
  | JArr l =>
      Str.join ","
        ((fix elems (l : list JSValue) : list string :=
            match l with
            | [] => []
            | x :: rest =>
                (match x with
                 | JUndefined | JNull => ""
                 | _ => toStr x
                 end) :: elems rest
            end) l)
  | JObj _ => "[object Object]"
  end.

(** One element of [a.join(sep)]. *)
Definition elem_str (v : JSValue) : string :=
  match v with
  | JUndefined | JNull => ""
  | _ => toStr v
  end.

(** [a.join(sep)] *)
Definition join (sep : string) (a : list JSValue) : string :=
  Str.join sep (map elem_str a).

(** [v?.substring(0, n)] at the place [site] of the source. *)
Definition opt_substring (site : string) (v : JSValue) (n : nat) : Outcome JSValue :=
  match v with
  | JUndefined | JNull => Ok JUndefined
  | JStr s => Ok (JStr (substring 0 n s))
  | _ => Throw (TypeError (site ++ ".substring is not a function"))
  end.

(** [v.substring(0, n)] *)
Definition substring_of (site : string) (v : JSValue) (n : nat) : Outcome string :=
  match v with
  | JUndefined | JNull => Throw (cannot_read v "substring")
  | JStr s => Ok (substring 0 n s)
  | _ => Throw (TypeError (site ++ ".substring is not a function"))
  end.

(** [a.slice(0, n)] on an array or a string of the given length: a
    negative [n] counts from the end. *)
Definition slice_count (len : nat) (n : Z) : nat :=
  if n <? 0 then Z.to_nat (Z.max (Z.of_nat len + n) 0)
  else Z.to_nat (Z.min n (Z.of_nat len)).

Definition slice0 {A} (l : list A) (n : Z) : list A :=
  firstn (slice_count (List.length l) n) l.

End JS.

(** What the platform provides and the program only calls. *)
Record Platform : Type := mkPlatform {
  (** [JSON.stringify(v, null, 2)] *)
  JSON_stringify : JSValue -> string;
  (** [new Date(s)] in a host zone: the time value, or [None] for an
      invalid date *)
  Date_parse : JsDate.Zone -> string -> option Z;
  (** [Number(v)] for a string, an array or an object; [None] is [NaN] *)
  ToNumber : JSValue -> option Z
}.

(** [Number(v)]; [None] is [NaN]. *)
Definition to_number (P : Platform) (v : JSValue) : option Z :=
  match v with
  | JUndefined => None
  | JNull => Some 0
  | JBool true => Some 1
  | JBool false => Some 0
  | JNum n => Some n
  | _ => ToNumber P v
  end.

(* ================================================================== *)
(** ** Configuration *)
(* ================================================================== *)

(** The four variables read from [process.env]. *)
Record Env : Type := mkEnv {
  env_LOGSEQ_TOKEN : option string;
  env_LOGSEQ_HOST : option string;
  env_LOGSEQ_PORT : option string;
  env_LOGSEQ_API_URL : option string
}.

(** [a ?? b] *)
Definition nullish_or (a : option string) (b : string) : string :=
  match a with Some s => s | None => b end.

Definition LOGSEQ_HOST (env : Env) : string :=
  nullish_or (env_LOGSEQ_HOST env) "127.0.0.1".

Definition LOGSEQ_PORT (env : Env) : string :=
  nullish_or (env_LOGSEQ_PORT env) "12315".

Definition LOGSEQ_API_URL (env : Env) : string :=
  nullish_or (env_LOGSEQ_API_URL env)
    ("http://" ++ LOGSEQ_HOST env ++ ":" ++ LOGSEQ_PORT env ++ "/api").

(** The clock of the host: [Date.now()] and the host time zone. *)
Record Clock : Type := mkClock {
  Date_now : Z;
  LocalTZA : JsDate.Zone
}.

(** The time value of [new Date()]. *)
Definition new_Date (clock : Clock) : Z := Date_now clock.

(* ================================================================== *)
(** ** Remote calls *)
(* ================================================================== *)

(** The POST request of [callLogseqApi]; the body is
    [JSON.stringify({method, args})]. *)
Record Request : Type := mkRequest {
  url : string;
  authorization : string;
  method : string;
  args : list JSValue
}.

(** How [fetch] settles: it rejects, or it resolves to a response with a
    status and a status text.  The body of a response is JSON, [Some v],
    or is empty, [None], or is some other text that is not JSON,
    [Unparsed]: then [response.json()] rejects with a [SyntaxError] whose
    message names what the parser met in that text, and the message is
    part of the response here. *)
Inductive FetchResult : Type :=
| Rejected (e : Thrown)
| Responded (status : Z) (statusText : string) (body : option JSValue)
| Unparsed (status : Z) (statusText : string) (message : string).

(** Asynchronous code: a tree of requests, ending in a value or in a
    throw.  Each [await] of a [fetch] is a [Fetch] node. *)
Inductive Api (A : Type) : Type :=
| Ret (a : A)
| Raise (e : Thrown)
| Fetch (r : Request) (k : FetchResult -> Api A).

Arguments Ret {A} a.
Arguments Raise {A} e.
Arguments Fetch {A} r k.

Fixpoint bind {A B} (m : Api A) (f : A -> Api B) : Api B :=
  match m with
  | Ret a => f a
  | Raise e => Raise e
  | Fetch r k => Fetch r (fun x => bind (k x) f)
  end.

(** [try { m } catch (e) { h e }] *)
Fixpoint catch {A} (m : Api A) (h : Thrown -> Api A) : Api A :=
  match m with
  | Ret a => Ret a
  | Raise e => h e
  | Fetch r k => Fetch r (fun x => catch (k x) h)
  end.

Definition lift {A} (o : Outcome A) : Api A :=
  match o with
  | Ok a => Ret a
  | Throw e => Raise e
  end.

Declare Scope api_scope.
Delimit Scope api_scope with api.
Notation "x <- m ;; k" := (bind m (fun x => k))
  (at level 61, m at next level, right associativity) : api_scope.
Notation "m ;;; k" := (bind m (fun _ => k))
  (at level 61, right associativity) : api_scope.
Notation "'let?' x := o 'in' k" := (obind o (fun x => k))
  (at level 10, x name, o at level 100, k at level 200).

(** [for (const x of l) { await f(x) }] *)
Fixpoint for_each {X} (l : list X) (f : X -> Api unit) : Api unit :=
  match l with
  | [] => Ret tt
  | x :: rest => bind (f x) (fun _ => for_each rest f)
  end.

(** Running a computation against a remote: the remote answers each
    request from its state.  The result is the sequence of requests
    made, the final state of the remote and the outcome. *)
Fixpoint run {S A} (respond : S -> Request -> S * FetchResult)
  (m : Api A) (s : S) : list Request * S * Outcome A :=
  match m with
  | Ret a => ([], s, Ok a)
  | Raise e => ([], s, Throw e)
  | Fetch r k =>
      let (s1, res) := respond s r in
      let '(trace, s2, out) := run respond (k res) s1 in
      (r :: trace, s2, out)
  end.

Definition trace_of {S A} (x : list Request * S * Outcome A) : list Request :=
  fst (fst x).
Definition outcome_of {S A} (x : list Request * S * Outcome A) : Outcome A :=
  snd x.
Definition state_of {S A} (x : list Request * S * Outcome A) : S :=
  snd (fst x).

(** The message of the error thrown on a 401. *)
Definition auth_failed_message (env : Env) : string :=
  "Logseq API authentication failed (401 Unauthorized). "
  ++ "Please verify:" ++ Str.nl
  ++ "1. The HTTP API is enabled in Logseq (Settings > Features > HTTP APIs Server)"
  ++ Str.nl
  ++ "2. Your token matches the one in Logseq's " ++ Str.dq
  ++ "Authorization token" ++ Str.dq ++ " setting" ++ Str.nl
  ++ "3. Logseq is running and accessible at " ++ LOGSEQ_API_URL env.

(** The request that [callLogseqApi(method, args)] sends. *)
Definition request (env : Env) (method : string) (args : list JSValue) : Request :=
  mkRequest (LOGSEQ_API_URL env)
    ("Bearer " ++ nullish_or (env_LOGSEQ_TOKEN env) "undefined")
    method args.

(** [response.ok] *)
Definition response_ok (status : Z) : bool := (200 <=? status) && (status <=? 299).

(** [callLogseqApi(method, args)] *)
Definition callLogseqApi (env : Env) (method : string) (args : list JSValue)
  : Api JSValue :=
  Fetch (request env method args)
    (fun response =>
       match response with
       | Rejected e => Raise e
       | Responded status statusText body =>
           if negb (response_ok status) then
             if status =? 401 then Raise (Error (auth_failed_message env))
             else Raise (Error ("Logseq API error: " ++ Str.ofZ status
                                ++ " " ++ statusText))
           else
             match body with
             | Some v => Ret v
             | None => Raise (SyntaxError "Unexpected end of JSON input")
             end
       | Unparsed status statusText message =>
           if negb (response_ok status) then
             if status =? 401 then Raise (Error (auth_failed_message env))
             else Raise (Error ("Logseq API error: " ++ Str.ofZ status
                                ++ " " ++ statusText))
           else Raise (SyntaxError message)
       end).

(** The boundary of a tool handler:
    [try { body } catch (error) { return text(prefix + error.message) }].
    The value of a handler is the text of its one content item. *)
Definition tool (prefix : string) (body : Api string) : Api string :=
  catch body (fun error => Ret (prefix ++ message_of error)).

(* ================================================================== *)
(** ** Tool 1: logseq_query *)
(* ================================================================== *)

Module Mode.
Inductive t : Type :=
| pages | blocks | datalog | search | todos | journals | backlinks | recent.
End Mode.

Module Output.
Inductive t : Type := full | summary | names.
End Output.

Record Filters : Type := mkFilters {
  f_tag : option string;
  f_property : option string;
  f_propertyValue : option string;
  f_dateRange : option string;
  f_journalOnly : option bool;
  f_limit : option Z
}.

Definition no_filters : Filters := mkFilters None None None None None None.

(** The arguments of the tool, after validation by the schema. *)
Record QueryArgs : Type := mkQueryArgs {
  q_mode : Mode.t;
  q_query : option string;
  q_filters : option Filters;
  q_output : option Output.t
}.

Module Query.

#[local] Open Scope api_scope.

(** The truth value of an optional string ([query], [filters?.tag]). *)
Definition given (x : option string) : bool :=
  match x with Some s => Str.truthy s | None => false end.

Definition text_of (x : option string) : string :=
  match x with Some s => s | None => "" end.

(** [filters?.f] *)
Definition filter_field {X} (f : Filters -> option X) (filters : option Filters)
  : option X :=
  match filters with Some fl => f fl | None => None end.

(** A query value as the argument of a request: after
    [JSON.stringify], a function is [null] and the prototype object is
    an empty object. *)
Definition query_arg (q : QueryValue) : JSValue :=
  match q with
  | QText s => JStr s
  | QMember Obj.proto_ => JObj []
  | QMember _ => JNull
  | QUndefined => JNull
  end.

Definition datascriptQuery (env : Env) (q : QueryValue) : Api JSValue :=
  callLogseqApi env "logseq.DB.datascriptQuery" [query_arg q].

(** [v.filter(pred)], with [site] the text of the receiver. *)
Fixpoint filter_list (pred : JSValue -> Outcome bool) (l : list JSValue)
  : Outcome (list JSValue) :=
  match l with
  | [] => Ok []
  | x :: rest =>
      let? keep := pred x in
      let? rest' := filter_list pred rest in
      Ok (if keep then x :: rest' else rest')
  end.

Definition js_filter (site : string) (pred : JSValue -> Outcome bool) (v : JSValue)
  : Outcome JSValue :=
  match v with
  | JArr l => let? l' := filter_list pred l in Ok (JArr l')
  | JUndefined | JNull => Throw (JS.cannot_read v "filter")
  | _ => Throw (TypeError (site ++ ".filter is not a function"))
  end.

(** [(p) => p.name?.toLowerCase().includes(query.toLowerCase())] *)
Definition name_includes (query : string) (p : JSValue) : Outcome bool :=
  let? name := JS.get p "name" in
  match name with
  | JUndefined | JNull => Ok false
  | JStr s => Ok (Str.includes (Str.toLowerCase s) (Str.toLowerCase query))
  | _ => Throw (TypeError "p.name?.toLowerCase is not a function")
  end.

(** [(p) => p['journal?'] === true || p[0]?.['block/journal?']] *)
Definition is_journal (p : JSValue) : Outcome bool :=
  let? flag := JS.get p "journal?" in
  match flag with
  | JBool true => Ok true
  | _ =>
      let? p0 := JS.get0 p in
      if JS.nullish p0 then Ok false
      else let? v := JS.get p0 "block/journal?" in Ok (JS.truthy v)
  end.

(** The filter of the [journals] mode: the page of a row, its journal
    day as YYYYMMDD, and the test that the day lies in the range. *)
Definition in_range (P : Platform) (tz : JsDate.Zone) (start end_ : Z) (j : JSValue)
  : Outcome bool :=
  let? j0 := JS.get0 j in
  let page := JS.or_ j0 j in
  let? a := JS.get page "block/journal-day" in
  let? b := JS.get page "journalDay" in
  let journalDay := JS.or_ a b in
  if negb (JS.truthy journalDay) then Ok false
  else
    match to_number P journalDay with
    | None => Ok false
    | Some n =>
        let year := n / 10000 in
        let month := Z.rem n 10000 / 100 - 1 in
        let day := Z.rem n 100 in
        let pageDate := JsDate.newDate tz year month day in
        Ok ((start <=? pageDate) && (pageDate <=? end_))
    end.

(** The [switch]: either an early [return] of a text, or the value of
    [results] after it. *)
Definition gather (P : Platform) (env : Env) (clock : Clock) (a : QueryArgs)
  : Api (string + JSValue) :=
  let query := q_query a in
  let filters := q_filters a in
  let build := buildDatalogQuery (Date_now clock) in
  match q_mode a with
  | Mode.pages =>
      results <-
        (if given (filter_field f_tag filters) then
           datascriptQuery env
             (build "pages_with_tag"
                (mkParams None None None (filter_field f_tag filters) None None None))
         else if given (filter_field f_property filters)
                 && given (filter_field f_propertyValue filters) then
           datascriptQuery env
             (build "pages_with_property"
                (mkParams (filter_field f_property filters)
                   (filter_field f_propertyValue filters) None None None None None))
         else
           allPages <- callLogseqApi env "logseq.Editor.getAllPages" [] ;;
           if given query then
             lift (js_filter "allPages" (name_includes (text_of query)) allPages)
           else Ret allPages) ;;
      match filter_field f_journalOnly filters with
      | Some true =>
          r <- lift (js_filter "results" is_journal results) ;; Ret (inr r)
      | _ => Ret (inr results)
      end
  | Mode.blocks =>
      if given query then
        r <- datascriptQuery env
               (build "blocks_with_text"
                  (mkParams None None query None None None None)) ;;
        Ret (inr r)
      else if given (filter_field f_tag filters) then
        r <- datascriptQuery env
               (build "blocks_with_tag"
                  (mkParams None None None (filter_field f_tag filters) None None None)) ;;
        Ret (inr r)
      else Ret (inr (JArr []))
  | Mode.todos =>
      r <- datascriptQuery env (build "todos" no_params) ;; Ret (inr r)
  | Mode.journals =>
      let dateRange :=
        if given (filter_field f_dateRange filters)
        then text_of (filter_field f_dateRange filters) else "this week" in
      range <- lift (parseDateRange (LocalTZA clock) (new_Date clock) dateRange) ;;
      allJournals <- datascriptQuery env (build "journals" no_params) ;;
      r <- lift (js_filter "allJournals"
                   (in_range P (LocalTZA clock) (start range) (end_ range))
                   allJournals) ;;
      Ret (inr r)
  | Mode.backlinks =>
      if negb (given query) then
        Ret (inl "Error: backlinks mode requires a page name in the query parameter")
      else
        r <- catch
               (linkedRefs <- callLogseqApi env
                                "logseq.Editor.getPageLinkedReferences"
                                [JStr (text_of query)] ;;
                Ret (JS.or_ linkedRefs (JArr [])))
               (fun _ =>
                  datascriptQuery env
                    (build "backlinks"
                       (mkParams None None None None query None None))) ;;
        Ret (inr r)
  | Mode.recent =>
      r <- datascriptQuery env
             (build "recent_pages"
                (mkParams None None None None None (Some 7) None)) ;;
      Ret (inr r)
  | Mode.search =>
      if negb (given query) then
        Ret (inl "Error: search mode requires a query")
      else
        r <- datascriptQuery env
               (build "blocks_with_text"
                  (mkParams None None query None None None None)) ;;
        Ret (inr r)
  | Mode.datalog =>
      if negb (given query) then
        Ret (inl "Error: datalog mode requires a Datalog query string")
      else
        r <- callLogseqApi env "logseq.DB.datascriptQuery" [JStr (text_of query)] ;;
        Ret (inr r)
  end.

(** [filters?.limit], read as a condition and as a bound: zero is
    falsy. *)
Definition limit_of (filters : option Filters) : option Z :=
  match filter_field f_limit filters with
  | Some n => if n =? 0 then None else Some n
  | None => None
  end.

(** [results.length] *)
Definition length_of (results : JSValue) : Outcome JSValue :=
  match results with
  | JUndefined | JNull => Throw (JS.cannot_read results "length")
  | JArr l => Ok (JNum (Z.of_nat (List.length l)))
  | JStr s => Ok (JNum (Z.of_nat (String.length s)))
  | JObj fields => Ok (JS.assoc "length" fields)
  | _ => Ok JUndefined
  end.

(** [a > n] for a number [n] *)
Definition greater (P : Platform) (a : JSValue) (n : Z) : bool :=
  match to_number P a with
  | Some x => n <? x
  | None => false
  end.

(** "Apply limit":
    [if (filters?.limit && results.length > filters.limit)
       results = results.slice(0, filters.limit)]. *)
Definition apply_limit (P : Platform) (filters : option Filters) (results : JSValue)
  : Outcome JSValue :=
  match limit_of filters with
  | None => Ok results
  | Some limit =>
      let? len := length_of results in
      if greater P len limit then
        match results with
        | JArr l => Ok (JArr (JS.slice0 l limit))
        | JStr s =>
            Ok (JStr (substring 0 (JS.slice_count (String.length s) limit) s))
        | _ => Throw (TypeError "results.slice is not a function")
        end
      else Ok results
  end.

(** The unwrapping [r[0] || r] of a row. *)
Definition unwrap (r : JSValue) : Outcome JSValue :=
  let? r0 := JS.get0 r in Ok (JS.or_ r0 r).

(** The callback of [results.map] in the [names] output. *)
Definition name_of (r : JSValue) : Outcome JSValue :=
  let? item := unwrap r in
  let? a := JS.get item "block/name" in
  if JS.truthy a then Ok a else
  let? b := JS.get item "block/original-name" in
  if JS.truthy b then Ok b else
  let? c := JS.get item "name" in
  if JS.truthy c then Ok c else
  let? d := JS.get item "originalName" in
  if JS.truthy d then Ok d else
  let? content := JS.get item "content" in
  let? e := JS.opt_substring "item.content?" content 50 in
  Ok (JS.or_ e (JStr "Unknown")).

(** [l.map(f)], stopping at the first throw. *)
Fixpoint map_outcome {X Y} (f : X -> Outcome Y) (l : list X) : Outcome (list Y) :=
  match l with
  | [] => Ok []
  | x :: rest =>
      let? y := f x in
      let? ys := map_outcome f rest in
      Ok (y :: ys)
  end.

Definition format_names (results : JSValue) : Outcome string :=
  match results with
  | JArr l => let? names := map_outcome name_of l in Ok (JS.join Str.nl names)
  | JUndefined | JNull => Throw (JS.cannot_read results "map")
  | _ => Throw (TypeError "results.map is not a function")
  end.

(** The callback of [forEach] in the [summary] output: the text that row
    [r] at index [i] appends to [outputText]. *)
Definition summary_item (i : nat) (r : JSValue) : Outcome string :=
  let? item := unwrap r in
  let? n1 := JS.get item "block/name" in
  let? n2 := JS.get item "block/original-name" in
  let? n3 := JS.get item "name" in
  let? n4 := JS.get item "originalName" in
  let name := JS.or_ (JS.or_ (JS.or_ (JS.or_ n1 n2) n3) n4) (JStr "") in
  let? c1 := JS.get item "block/content" in
  let? c2 := JS.get item "content" in
  let content := JS.or_ (JS.or_ c1 c2) (JStr "") in
  let? m1 := JS.get item "block/marker" in
  let? m2 := JS.get item "marker" in
  let marker := JS.or_ (JS.or_ m1 m2) (JStr "") in
  let index := Str.ofZ (Z.of_nat i + 1) in
  let part1 := if JS.truthy name then index ++ ". [[" ++ JS.toStr name ++ "]]" else "" in
  let part2 := if JS.truthy marker then " [" ++ JS.toStr marker ++ "]" else "" in
  let? part3 :=
    (if JS.truthy content && negb (JS.truthy name) then
       let? excerpt := JS.substring_of "content" content 100 in
       Ok (index ++ ". " ++ excerpt ++ "...")
     else Ok "") in
  Ok (part1 ++ part2 ++ part3 ++ Str.nl).

(** [rows.forEach((r, i) => { outputText += ... })], from index [i]. *)
Fixpoint summary_loop (i : nat) (rows : list JSValue) (outputText : string)
  : Outcome string :=
  match rows with
  | [] => Ok outputText
  | r :: rest =>
      let? piece := summary_item i r in
      summary_loop (S i) rest (outputText ++ piece)
  end.

Definition format_summary (results : JSValue) : Outcome string :=
  match results with
  | JArr l =>
      let n := Z.of_nat (List.length l) in
      let outputText := "Found " ++ Str.ofZ n ++ " results:" ++ Str.nl ++ Str.nl in
      let? outputText := summary_loop 0 (JS.slice0 l 20) outputText in
      Ok (if 20 <? n
          then outputText ++ Str.nl ++ "... and " ++ Str.ofZ (n - 20) ++ " more results"
          else outputText)
  | JUndefined | JNull => Throw (JS.cannot_read results "length")
  | JStr _ => Throw (TypeError "results.slice(...).forEach is not a function")
  | _ => Throw (TypeError "results.slice is not a function")
  end.

(** "Format output" *)
Definition format (P : Platform) (output : Output.t) (results : JSValue)
  : Outcome string :=
  match output with
  | Output.names => format_names results
  | Output.summary => format_summary results
  | Output.full => Ok (JSON_stringify P results)
  end.

(** [output = 'summary'] as the default of the parameter. *)
Definition output_of (a : QueryArgs) : Output.t :=
  match q_output a with Some o => o | None => Output.summary end.

(** The body of the [try] block. *)
Definition body (P : Platform) (env : Env) (clock : Clock) (a : QueryArgs)
  : Api string :=
  g <- gather P env clock a ;;
  match g with
  | inl text => Ret text
  | inr results =>
      limited <- lift (apply_limit P (q_filters a) results) ;;
      lift (format P (output_of a) limited)
  end.

End Query.

Definition logseq_query (P : Platform) (env : Env) (clock : Clock) (a : QueryArgs)
  : Api string :=
  tool "Query error: " (Query.body P env clock a).

(* ================================================================== *)
(** ** Tool 3: logseq_write, operation append_to_journal *)
(* ================================================================== *)

Module Write.

#[local] Open Scope api_scope.

(** [content.split('\n').filter(l => l.trim())] *)
Definition lines_of (content : string) : list string :=
  filter (fun l => Str.truthy (Str.trim l)) (Str.split_lines content).

(** "Parse target date" *)
Definition journalPageName (P : Platform) (clock : Clock) (target : string) : string :=
  let tz := LocalTZA clock in
  if (target =? "today")%string then formatJournalDate tz (new_Date clock)
  else if (target =? "yesterday")%string then
    let yesterday := new_Date clock in
    formatJournalDate tz
      (JsDate.setDate tz yesterday (JsDate.getDate tz yesterday - 1))
  else
    match Date_parse P tz target with
    | Some date => formatJournalDate tz date
    | None => target
    end.

(** The [case 'append_to_journal'] block, up to the [return] after the
    [switch]. *)
Definition append_to_journal (P : Platform) (env : Env) (clock : Clock)
  (target : string) (content : option string) : Api string :=
  if negb (Query.given content) then
    Ret "Error: content is required for append_to_journal"
  else
    let name := journalPageName P clock target in
    page <- callLogseqApi env "logseq.Editor.getPage" [JStr name] ;;
    (if negb (JS.truthy page) then
       _ <- callLogseqApi env "logseq.Editor.createPage"
              [JStr name; JObj [("journal?", JBool true)]] ;;
       Ret tt
     else Ret tt) ;;;
    let lines := lines_of (Query.text_of content) in
    for_each lines
      (fun line =>
         _ <- callLogseqApi env "logseq.Editor.appendBlockInPage"
                [JStr name; JStr line] ;;
         Ret tt) ;;;
    Ret ("Added " ++ Str.ofZ (Z.of_nat (List.length lines))
         ++ " block(s) to journal " ++ Str.dq ++ name ++ Str.dq ++ ".").

End Write.

Definition logseq_write_append_to_journal (P : Platform) (env : Env)
  (clock : Clock) (target : string) (content : option string) : Api string :=
  tool "Write error: " (Write.append_to_journal P env clock target content).

(* ================================================================== *)
(** ** A remote for examples: a store of pages *)
(* ================================================================== *)

(** A small store that answers the three methods of the journal
    scenario the way the knowledge base does: [getPage] answers the page
    or [null], [createPage] adds a page with its properties,
    [appendBlockInPage] adds a block at the end of a page. *)
Module Store.

Record Page : Type := mkPage {
  page_name : string;
  page_props : JSValue;
  page_blocks : list string
}.

Definition t : Type := list Page.

Fixpoint find (name : string) (s : t) : option Page :=
  match s with
  | [] => None
  | p :: rest => if (page_name p =? name)%string then Some p else find name rest
  end.

Fixpoint append_block (name line : string) (s : t) : t :=
  match s with
  | [] => []
  | p :: rest =>
      if (page_name p =? name)%string
      then mkPage (page_name p) (page_props p) (page_blocks p ++ [line])%list :: rest
      else p :: append_block name line rest
  end.

Definition respond (s : t) (r : Request) : t * FetchResult :=
  if (method r =? "logseq.Editor.getPage")%string then
    match args r with
    | JStr name :: _ =>
        match find name s with
        | Some p => (s, Responded 200 "OK" (Some (JObj [("name", JStr name)])))
        | None => (s, Responded 200 "OK" (Some JNull))
        end
    | _ => (s, Responded 200 "OK" (Some JNull))
    end
  else if (method r =? "logseq.Editor.createPage")%string then
    match args r with
    | JStr name :: props :: _ =>
        ((s ++ [mkPage name props []])%list,
         Responded 200 "OK" (Some (JObj [("name", JStr name)])))
    | _ => (s, Responded 200 "OK" (Some JNull))
    end
  else if (method r =? "logseq.Editor.appendBlockInPage")%string then
    match args r with
    | JStr name :: JStr line :: _ =>
        (append_block name line s,
         Responded 200 "OK" (Some (JObj [("content", JStr line)])))
    | _ => (s, Responded 200 "OK" (Some JNull))
    end
  else (s, Responded 200 "OK" (Some JNull)).

End Store.

(** A remote that refuses every request with a 401. *)
Definition unauthorized (s : unit) (r : Request) : unit * FetchResult :=
  (s, Responded 401 "Unauthorized" None).

(** A remote that answers every request with the same JSON body. *)
Definition answering (v : JSValue) (s : unit) (r : Request) : unit * FetchResult :=
  (s, Responded 200 "OK" (Some v)).

(** A platform for examples: dates do not parse, nothing converts to a
    number, and the structural dump is left out. *)
Definition bare_platform : Platform :=
  mkPlatform (fun _ => "") (fun _ _ => None) (fun _ => None).

Definition default_env : Env := mkEnv (Some "secret") None None None.

(* ================================================================== *)
(** ** The table of date ranges of the specification *)
(* ================================================================== *)

(** Section 4.2 of the specification, column by column: the day on
    which a range starts, the day on which it ends, and its title, for
    the eight phrases and the current instant [now]. *)
Module Table.

Import JsDate.

Definition recognized : list string :=
  ["today"; "yesterday"; "this week"; "last week"; "this month";
   "last month"; "last 7 days"; "last 30 days"].

(** The day number of the first day of month [m] (0..11) of year [y]. *)
Definition first_of_month (y m : Z) : Z :=
  DayFromYear y + month_start (InLeapYear y) m.

(** The month before the month of [now], and its year. *)
Definition prev_month (now : Z) : Z :=
  if MonthFromTime now =? 0 then 11 else MonthFromTime now - 1.
Definition prev_month_year (now : Z) : Z :=
  if MonthFromTime now =? 0 then YearFromTime now - 1 else YearFromTime now.

Definition start_day (now : Z) (phrase : string) : Z :=
  if (phrase =? "today")%string then Day now
  else if (phrase =? "yesterday")%string then Day now - 1
  else if (phrase =? "this week")%string then Day now - WeekDay now
  else if (phrase =? "last week")%string then Day now - WeekDay now - 7
  else if (phrase =? "this month")%string then
    first_of_month (YearFromTime now) (MonthFromTime now)
  else if (phrase =? "last month")%string then
    first_of_month (prev_month_year now) (prev_month now)
  else if (phrase =? "last 7 days")%string then Day now - 7
  else Day now - 30.

Definition end_day (now : Z) (phrase : string) : Z :=
  if (phrase =? "yesterday")%string then Day now - 1
  else if (phrase =? "last week")%string then Day now - WeekDay now - 1
  else if (phrase =? "last month")%string then
    first_of_month (YearFromTime now) (MonthFromTime now) - 1
  else Day now.

Definition title_of (now : Z) (phrase : string) : string :=
  if (phrase =? "today")%string then "Today's Journal"
  else if (phrase =? "yesterday")%string then "Yesterday's Journal"
  else if (phrase =? "this week")%string then "This Week's Journal"
  else if (phrase =? "last week")%string then "Last Week's Journal"
  else if (phrase =? "this month")%string then
    "Journal for " ++ month_long (MonthFromTime now) ++ " "
    ++ Str.ofZ (YearFromTime now)
  else if (phrase =? "last month")%string then
    "Journal for " ++ month_long (prev_month now) ++ " "
    ++ Str.ofZ (prev_month_year now)
  else if (phrase =? "last 7 days")%string then "Last 7 Days Journal"
  else "Last 30 Days Journal".

(** The first and the last millisecond of a day. *)
Definition day_begin (d : Z) : Z := MakeDate d 0.
Definition day_end (d : Z) : Z := MakeDate d (MakeTime 23 59 59 999).

End Table.

(* ================================================================== *)
(** ** Vocabulary of the statements *)
(* ================================================================== *)

(** The English ordinal suffix of a day of the month. *)
Definition ordinal (day : Z) : string :=
  if (day =? 1) || (day =? 21) || (day =? 31) then "st"
  else if (day =? 2) || (day =? 22) then "nd"
  else if (day =? 3) || (day =? 23) then "rd"
  else "th".

(** The short English names of the months, in lower case. *)
Definition short_months : list string :=
  ["jan"; "feb"; "mar"; "apr"; "may"; "jun"; "jul"; "aug"; "sep"; "oct"; "nov";
   "dec"].

(** The name of the journal page of a day as the specification words
    it: the short month in lower case, the day of the month with its
    ordinal suffix, a comma and the year.  The months count from 0. *)
Definition journal_name (month day year : Z) : string :=
  nth (Z.to_nat month) short_months "" ++ " " ++ Str.ofZ day ++ ordinal day
  ++ ", " ++ Str.ofZ year.

(** A remote that answers every request with status 401. *)
Definition refuses_all {S} (respond : S -> Request -> S * FetchResult) : Prop :=
  forall s r, exists s' statusText body,
    respond s r = (s', Responded 401 statusText body).

(** The JSON value of a successful response. *)
Definition answer (res : FetchResult) : option JSValue :=
  match res with
  | Responded status _ (Some v) => if response_ok status then Some v else None
  | _ => None
  end.

(** A remote on which every call succeeds. *)
Definition answers_all {S} (respond : S -> Request -> S * FetchResult) : Prop :=
  forall s r, answer (snd (respond s r)) <> None.

(** A run that made no request, or that ended in the error of a 401. *)
Definition quiet_or_refused {S A} (env : Env) (s : S)
  (res : list Request * S * Outcome A) : Prop :=
  (trace_of res = [] /\ state_of res = s)
  \/ outcome_of res = Throw (Error (auth_failed_message env)).

(** A run that ended in the error of a 401. *)
Definition refused {S A} (env : Env) (res : list Request * S * Outcome A) : Prop :=
  outcome_of res = Throw (Error (auth_failed_message env)).

(** Computations that, against [respond], make no request or end in the
    error of a 401, and computations that always end in it. *)
Definition fails_closed {S A} (respond : S -> Request -> S * FetchResult)
  (env : Env) (m : Api A) : Prop :=
  forall s, quiet_or_refused env s (run respond m s).

Definition always_refused {S A} (respond : S -> Request -> S * FetchResult)
  (env : Env) (m : Api A) : Prop :=
  forall s, refused env (run respond m s).

(** The value of a tool handler that ran to its end. *)
Definition text_of_outcome (prefix : string) (o : Outcome string) : string :=
  match o with
  | Ok text => text
  | Throw e => prefix ++ message_of e
  end.

Module Rows.

(** A field that holds text or is absent. *)
Definition text_or_absent (v : JSValue) : bool :=
  match v with
  | JUndefined | JNull | JStr _ => true
  | _ => false
  end.

(** A record of the store, as the formatter needs it: its content
    entries, where present, are text. *)
Definition is_record (fields : list (string * JSValue)) : bool :=
  text_or_absent (JS.assoc "content" fields)
  && text_or_absent (JS.assoc "block/content" fields).

(** A row of a result list: a bare record, which has no entry at index
    0, or a tuple whose first element is a record. *)
Definition is_row (r : JSValue) : bool :=
  match r with
  | JObj fields => negb (JS.truthy (JS.assoc "0" fields)) && is_record fields
  | JArr (JObj fields :: _) => is_record fields
  | _ => false
  end.

(** The first truthy value of a list, or a default. *)
Fixpoint first_truthy (l : list JSValue) (default : JSValue) : JSValue :=
  match l with
  | [] => default
  | v :: rest => if JS.truthy v then v else first_truthy rest default
  end.

(** A record without any of the name fields and without content. *)
Definition nameless (fields : list (string * JSValue)) : bool :=
  negb (JS.truthy (JS.assoc "block/name" fields))
  && negb (JS.truthy (JS.assoc "block/original-name" fields))
  && negb (JS.truthy (JS.assoc "name" fields))
  && negb (JS.truthy (JS.assoc "originalName" fields))
  && negb (JS.truthy (JS.assoc "content" fields)).

(** The names output of a list of results has as many lines as there
    are results. *)
Definition one_line_per_result (results : list JSValue) : Prop :=
  exists out,
    Query.format_names (JArr results) = Ok out
    /\ List.length (Str.split_lines out) = List.length results.

(** A block whose content spans two lines. *)
Definition two_line_block : JSValue :=
  JObj [("content", JStr ("first line" ++ Str.nl ++ "second line"))].

(** The text of a field that holds text or is absent. *)
Definition text (v : JSValue) : string :=
  match v with
  | JStr s => s
  | _ => ""
  end.

(** The first text that is not empty among the entries [keys] of a
    record, or the empty text. *)
Fixpoint first_text (keys : list string) (fields : list (string * JSValue))
  : string :=
  match keys with
  | [] => ""
  | k :: rest =>
      if Str.truthy (text (JS.assoc k fields)) then text (JS.assoc k fields)
      else first_text rest fields
  end.

Definition name_keys : list string :=
  ["block/name"; "block/original-name"; "name"; "originalName"].
Definition content_keys : list string := ["block/content"; "content"].
Definition marker_keys : list string := ["block/marker"; "marker"].

(** A record of the store, as the summary needs it: its name, content
    and marker entries, where present, are text. *)
Definition is_text_record (fields : list (string * JSValue)) : bool :=
  forallb (fun k => text_or_absent (JS.assoc k fields))
    (name_keys ++ content_keys ++ marker_keys).

(** A row of such records: a bare record, which has no entry at index
    0, or a tuple whose first element is a record. *)
Definition is_text_row (r : JSValue) : bool :=
  match r with
  | JObj fields => negb (JS.truthy (JS.assoc "0" fields)) && is_text_record fields
  | JArr (JObj fields :: _) => is_text_record fields
  | _ => false
  end.

(** The record of a row. *)
Definition record_of (r : JSValue) : list (string * JSValue) :=
  match r with
  | JObj fields => fields
  | JArr (JObj fields :: _) => fields
  | _ => []
  end.

(** The entry of the summary for the row at position [i], counted from
    0, as the code renders it.  With [n] the number [i + 1]: a row with
    a name gives "n. [[name]]" and then its marker in brackets; a row
    without a name and with content gives its marker in brackets and
    then "n. ", the first hundred characters of the content and three
    dots; a row with neither gives its marker in brackets and no number.
    A row without a marker has no brackets.  Every entry ends in a line
    feed. *)
Definition entry (i : nat) (r : JSValue) : string :=
  let n := Str.ofZ (Z.of_nat i + 1) in
  let name := first_text name_keys (record_of r) in
  let content := first_text content_keys (record_of r) in
  let marker := first_text marker_keys (record_of r) in
  let tag := if Str.truthy marker then " [" ++ marker ++ "]" else "" in
  if Str.truthy name then n ++ ". [[" ++ name ++ "]]" ++ tag ++ Str.nl
  else if Str.truthy content then
    tag ++ n ++ ". " ++ substring 0 100 content ++ "..." ++ Str.nl
  else tag ++ Str.nl.

Fixpoint entries_from (i : nat) (rows : list JSValue) : list string :=
  match rows with
  | [] => []
  | r :: rest => entry i r :: entries_from (S i) rest
  end.

(** The entry of the summary as the specification words it: the number
    of the row, counted from 1, then the name as a bracketed link if
    there is one, then the marker in brackets if there is one, or else
    the first hundred characters of the content. *)
Definition spec_entry (i : nat) (r : JSValue) : string :=
  let n := Str.ofZ (Z.of_nat i + 1) in
  let name := first_text name_keys (record_of r) in
  let content := first_text content_keys (record_of r) in
  let marker := first_text marker_keys (record_of r) in
  n ++ "."
  ++ (if Str.truthy name then " [[" ++ name ++ "]]" else "")
  ++ (if Str.truthy marker then " [" ++ marker ++ "]"
      else if Str.truthy name then "" else " " ++ substring 0 100 content)
  ++ Str.nl.

(** The rendered rows of the summary, from index [i] on. *)
Fixpoint summary_entries (i : nat) (rows : list JSValue) : Outcome (list string) :=
  match rows with
  | [] => Ok []
  | r :: rest =>
      let? e := Query.summary_item i r in
      let? es := summary_entries (S i) rest in
      Ok (e :: es)
  end.

Definition summary_header (n : Z) : string :=
  "Found " ++ Str.ofZ n ++ " results:" ++ Str.nl ++ Str.nl.

Definition summary_trailer (n : Z) : string :=
  if 20 <? n then Str.nl ++ "... and " ++ Str.ofZ (n - 20) ++ " more results"
  else "".

(** No entry of a list of names holds a line feed. *)
Definition single_lines (names : list JSValue) : bool :=
  forallb (fun v => negb (Str.has_nl (JS.elem_str v))) names.

(** Twenty-five rows: a page, a task and a plain block, over and over. *)
Definition page_row (name : string) : JSValue :=
  JArr [JObj [("block/name", JStr name)]].
Definition task_row (marker text : string) : JSValue :=
  JArr [JObj [("block/marker", JStr marker); ("block/content", JStr text)]].
Definition block_row (text : string) : JSValue :=
  JObj [("content", JStr text)].

Definition sample25 : list JSValue :=
  List.repeat (page_row "notes") 10
  ++ List.repeat (task_row "TODO" "TODO write") 10
  ++ List.repeat (block_row "plain text") 5.

(** Nine rows of a raw query. *)
Definition sample9 : list JSValue :=
  map (fun n => JArr [JObj [("block/name", JStr ("p" ++ Str.ofZ n))]])
    [1; 2; 3; 4; 5; 6; 7; 8; 9].

End Rows.

(* ================================================================== *)
(** ** Block references and block ids *)
(* ================================================================== *)

Module Ref.

(** [s.slice(n)] *)
Fixpoint drop (n : nat) (s : string) : string :=
  match n, s with
  | O, _ => s
  | S k, String _ r => drop k r
  | S _, EmptyString => EmptyString
  end.

(** [s.endsWith(suffix)] *)
Definition ends_with (suffix s : string) : bool :=
  Nat.leb (String.length suffix) (String.length s)
  && (drop (String.length s - String.length suffix) s =? suffix)%string.

(** [s.replace(/^\(\(|\)\)$/g, '')]: the global replacement removes a
    leading "((" and, in what comes after it, a trailing "))". *)
Definition strip (s : string) : string :=
  let r := if prefix "((" s then drop 2 s else s in
  if ends_with "))" r then substring 0 (String.length r - 2) r else r.

(** The class [[0-9a-f-]] under the flag [i]. *)
Definition is_id_char (c : ascii) : bool :=
  let n := nat_of_ascii c in
  (Nat.leb 48 n && Nat.leb n 57) || (Nat.leb 97 n && Nat.leb n 102)
  || (Nat.leb 65 n && Nat.leb n 70) || Nat.eqb n 45.

Fixpoint all_id_chars (s : string) : bool :=
  match s with
  | EmptyString => true
  | String c r => is_id_char c && all_id_chars r
  end.

(** [/^[0-9a-f-]{8,}$/i.test(s)] *)
Definition isBlockId (s : string) : bool :=
  Nat.leb 8 (String.length s) && all_id_chars s.

(** [s.substring(0, 8)] *)
Definition short (s : string) : string := substring 0 8 s.

End Ref.

(* ================================================================== *)
(** ** A remote that plays a script *)
(* ================================================================== *)

(** The remote answers the requests with the responses of a list, one
    after the other; when the list is used up, [fetch] rejects. *)
Module Script.

Definition respond (script : list FetchResult) (r : Request)
  : list FetchResult * FetchResult :=
  match script with
  | [] => ([], Rejected (TypeError "fetch failed"))
  | res :: rest => (rest, res)
  end.

Definition ok (v : JSValue) : FetchResult := Responded 200 "OK" (Some v).

End Script.

(** What [callLogseqApi] throws on a response, if it throws. *)
Definition thrown_by (env : Env) (res : FetchResult) : option Thrown :=
  match res with
  | Rejected e => Some e
  | Responded status statusText body =>
      if negb (response_ok status) then
        if status =? 401 then Some (Error (auth_failed_message env))
        else Some (Error ("Logseq API error: " ++ Str.ofZ status ++ " " ++ statusText))
      else
        match body with
        | Some _ => None
        | None => Some (SyntaxError "Unexpected end of JSON input")
        end
  | Unparsed status statusText message =>
      if negb (response_ok status) then
        if status =? 401 then Some (Error (auth_failed_message env))
        else Some (Error ("Logseq API error: " ++ Str.ofZ status ++ " " ++ statusText))
      else Some (SyntaxError message)
  end.

(* ================================================================== *)
(** ** Tool 3: logseq_write, all operations *)
(* ================================================================== *)

Module Op.
Inductive t : Type :=
| create_page | delete_page
| create_block | update_block | delete_block
| append_to_page | append_to_journal
| set_property | remove_property.
End Op.

Module Position.
Inductive t : Type := first | last.
End Position.

Record WriteOptions : Type := mkWriteOptions {
  o_asJournal : option bool;
  o_parentBlockId : option string;
  o_position : option Position.t
}.

(** The arguments of the tool, after validation by the schema.  The
    record [properties] is given by its entries, in the order in which
    [Object.entries] lists them. *)
Record WriteArgs : Type := mkWriteArgs {
  w_operation : Op.t;
  w_target : string;
  w_content : option string;
  w_properties : option (list (string * JSValue));
  w_options : option WriteOptions
}.

Module WriteOps.

#[local] Open Scope api_scope.

(** [options.f], with [options = {}] as the default. *)
Definition option_field {X} (f : WriteOptions -> option X)
  (options : option WriteOptions) : option X :=
  match options with Some o => f o | None => None end.

(** [obj[k] = v] on the entries of an object, for a key that is not an
    array index: an entry with the key is overwritten in place, a new
    one goes to the end. *)
Fixpoint set_entry (k : string) (v : JSValue) (entries : list (string * JSValue))
  : list (string * JSValue) :=
  match entries with
  | [] => [(k, v)]
  | (k', v') :: rest =>
      if (k =? k')%string then (k, v) :: rest
      else (k', v') :: set_entry k v rest
  end.

(** One [await callLogseqApi(...)] whose value is dropped. *)
Definition call_ (env : Env) (method : string) (args : list JSValue) : Api unit :=
  _ <- callLogseqApi env method args ;; Ret tt.

(** The loop that appends the lines of a content to a page. *)
Definition append_lines (env : Env) (page : string) (lines : list string) : Api unit :=
  for_each lines
    (fun line => call_ env "logseq.Editor.appendBlockInPage" [JStr page; JStr line]).

(** [blockRef?.uuid] *)
Definition opt_uuid (blockRef : JSValue) : JSValue :=
  match blockRef with
  | JObj fields => JS.assoc "uuid" fields
  | _ => JUndefined
  end.

(** [blocks?.[0]?.uuid] *)
Definition first_uuid (blocks : JSValue) : JSValue :=
  match JS.get0 blocks with
  | Ok b0 => opt_uuid b0
  | Throw _ => JUndefined
  end.

Definition create_page (env : Env) (a : WriteArgs) : Api string :=
  let target := w_target a in
  let pageProps :=
    match w_properties a with Some entries => entries | None => [] end in
  let pageProps :=
    match option_field o_asJournal (w_options a) with
    | Some true => set_entry "journal?" (JBool true) pageProps
    | _ => pageProps
    end in
  existing <- callLogseqApi env "logseq.Editor.getPage" [JStr target] ;;
  if JS.truthy existing then
    Ret ("Page " ++ Str.dq ++ target ++ Str.dq
         ++ " already exists. Use append_to_page to add content.")
  else
    call_ env "logseq.Editor.createPage" [JStr target; JObj pageProps] ;;;
    (if Query.given (w_content a)
     then append_lines env target (Write.lines_of (Query.text_of (w_content a)))
     else Ret tt) ;;;
    Ret ("Page " ++ Str.dq ++ target ++ Str.dq ++ " created successfully.").

Definition delete_page (env : Env) (a : WriteArgs) : Api string :=
  call_ env "logseq.Editor.deletePage" [JStr (w_target a)] ;;;
  Ret ("Page " ++ Str.dq ++ w_target a ++ Str.dq ++ " deleted.").

(** The loop over [Object.entries(properties)] that sets each property
    on a block. *)
Definition upsert_all (env : Env) (uuid : JSValue)
  (entries : list (string * JSValue)) : Api unit :=
  for_each entries
    (fun kv => call_ env "logseq.Editor.upsertBlockProperty"
                 [uuid; JStr (fst kv); snd kv]).

(** The loop over [Object.keys(properties)] that removes each property
    from a block. *)
Definition remove_all (env : Env) (uuid : JSValue)
  (entries : list (string * JSValue)) : Api unit :=
  for_each entries
    (fun kv => call_ env "logseq.Editor.removeBlockProperty" [uuid; JStr (fst kv)]).

Definition create_block (env : Env) (a : WriteArgs) : Api string :=
  if negb (Query.given (w_content a)) then
    Ret "Error: content is required for create_block"
  else
    let content := Query.text_of (w_content a) in
    blockRef <-
      (if Query.given (option_field o_parentBlockId (w_options a)) then
         let parentId :=
           Ref.strip (Query.text_of (option_field o_parentBlockId (w_options a))) in
         callLogseqApi env "logseq.Editor.insertBlock"
           [JStr parentId; JStr content; JObj [("sibling", JBool false)]]
       else
         callLogseqApi env "logseq.Editor.appendBlockInPage"
           [JStr (w_target a); JStr content]) ;;
    (match w_properties a with
     | Some entries =>
         if JS.truthy (opt_uuid blockRef)
         then upsert_all env (opt_uuid blockRef) entries
         else Ret tt
     | None => Ret tt
     end) ;;;
    if JS.truthy (opt_uuid blockRef) then
      short <- lift (JS.substring_of "blockRef.uuid" (opt_uuid blockRef) 8) ;;
      Ret ("Block created (" ++ short ++ "...).")
    else Ret "Block created.".

Definition update_block (env : Env) (a : WriteArgs) : Api string :=
  let blockId := Ref.strip (w_target a) in
  if negb (Query.given (w_content a)) then
    Ret "Error: content is required for update_block"
  else
    call_ env "logseq.Editor.updateBlock"
      [JStr blockId; JStr (Query.text_of (w_content a))] ;;;
    Ret ("Block " ++ Ref.short blockId ++ "... updated.").

Definition delete_block (env : Env) (a : WriteArgs) : Api string :=
  let blockId := Ref.strip (w_target a) in
  call_ env "logseq.Editor.removeBlock" [JStr blockId] ;;;
  Ret ("Block " ++ Ref.short blockId ++ "... deleted.").

Definition append_to_page (env : Env) (a : WriteArgs) : Api string :=
  if negb (Query.given (w_content a)) then
    Ret "Error: content is required for append_to_page"
  else
    let target := w_target a in
    page <- callLogseqApi env "logseq.Editor.getPage" [JStr target] ;;
    (if negb (JS.truthy page)
     then call_ env "logseq.Editor.createPage" [JStr target; JObj []]
     else Ret tt) ;;;
    let lines := Write.lines_of (Query.text_of (w_content a)) in
    append_lines env target lines ;;;
    Ret ("Added " ++ Str.ofZ (Z.of_nat (List.length lines)) ++ " block(s) to "
         ++ Str.dq ++ target ++ Str.dq ++ ".").

(** [!properties || Object.keys(properties).length === 0] *)
Definition no_properties (properties : option (list (string * JSValue))) : bool :=
  match properties with
  | Some (_ :: _) => false
  | _ => true
  end.

Definition entries_of (properties : option (list (string * JSValue)))
  : list (string * JSValue) :=
  match properties with Some entries => entries | None => [] end.

Definition count_of (properties : option (list (string * JSValue))) : string :=
  Str.ofZ (Z.of_nat (List.length (entries_of properties))).

Definition set_property (env : Env) (a : WriteArgs) : Api string :=
  if no_properties (w_properties a) then
    Ret "Error: properties required for set_property"
  else
    let target := w_target a in
    let entries := entries_of (w_properties a) in
    if Ref.isBlockId (Ref.strip target) then
      upsert_all env (JStr (Ref.strip target)) entries ;;;
      Ret ("Set " ++ count_of (w_properties a) ++ " property(ies) on block.")
    else
      blocks <- callLogseqApi env "logseq.Editor.getPageBlocksTree" [JStr target] ;;
      if JS.truthy (first_uuid blocks) then
        upsert_all env (first_uuid blocks) entries ;;;
        Ret ("Set " ++ count_of (w_properties a) ++ " property(ies) on page "
             ++ Str.dq ++ target ++ Str.dq ++ ".")
      else
        Ret ("Page " ++ Str.dq ++ target ++ Str.dq
             ++ " has no blocks to set properties on.").

Definition remove_property (env : Env) (a : WriteArgs) : Api string :=
  if no_properties (w_properties a) then
    Ret "Error: properties required (specify keys to remove)"
  else
    let target := w_target a in
    let entries := entries_of (w_properties a) in
    if Ref.isBlockId (Ref.strip target) then
      remove_all env (JStr (Ref.strip target)) entries ;;;
      Ret ("Removed " ++ count_of (w_properties a) ++ " property(ies) from block.")
    else
      blocks <- callLogseqApi env "logseq.Editor.getPageBlocksTree" [JStr target] ;;
      if JS.truthy (first_uuid blocks) then
        remove_all env (first_uuid blocks) entries ;;;
        Ret ("Removed " ++ count_of (w_properties a) ++ " property(ies) from page "
             ++ Str.dq ++ target ++ Str.dq ++ ".")
      else
        Ret ("Page " ++ Str.dq ++ target ++ Str.dq ++ " has no blocks.").

(** The [switch] over the operation. *)
Definition body (P : Platform) (env : Env) (clock : Clock) (a : WriteArgs)
  : Api string :=
  match w_operation a with
  | Op.create_page => create_page env a
  | Op.delete_page => delete_page env a
  | Op.create_block => create_block env a
  | Op.update_block => update_block env a
  | Op.delete_block => delete_block env a
  | Op.append_to_page => append_to_page env a
  | Op.append_to_journal =>
      Write.append_to_journal P env clock (w_target a) (w_content a)
  | Op.set_property => set_property env a
  | Op.remove_property => remove_property env a
  end.

End WriteOps.

Definition logseq_write (P : Platform) (env : Env) (clock : Clock) (a : WriteArgs)
  : Api string :=
  tool "Write error: " (WriteOps.body P env clock a).

(* ================================================================== *)
(** ** processBlocks on the JSON of the remote *)
(* ================================================================== *)

(** The handlers hand [processBlocks] what the remote answered.  This
    is the function on such values: a block without [content] is
    skipped, a value that cannot be iterated throws. *)
Module BlocksJ.

(** [v?.length > 0] *)
Definition has_length (P : Platform) (v : JSValue) : bool :=
  match v with
  | JArr l => 0 <? Z.of_nat (List.length l)
  | JStr s => 0 <? Z.of_nat (String.length s)
  | JObj fields => Query.greater P (JS.assoc "length" fields) 0
  | _ => false
  end.

Definition not_iterable : Thrown := TypeError "blocks is not iterable".

(** One turn of the [for] loop: what [block] adds to [text].  The
    children are looked up in the fields of the block; an array of
    children is rendered one level deeper, a string of children is
    iterated character by character and adds nothing, an object of
    positive [length] cannot be iterated. *)
Fixpoint processBlock (P : Platform) (indent : nat) (block : JSValue)
  : Outcome string :=
  match block with
  | JUndefined | JNull => Throw (JS.cannot_read block "content")
  | JObj fields =>
      if JS.truthy (JS.assoc "content" fields) then
        let? sub :=
          (fix find (fs : list (string * JSValue)) : Outcome string :=
             match fs with
             | [] => Ok ""
             | (k, v) :: rest =>
                 if ("children" =? k)%string then
                   match v with
                   | JArr l =>
                       (fix loop (bs : list JSValue) (text : string)
                          : Outcome string :=
                          match bs with
                          | [] => Ok text
                          | b :: more =>
                              let? piece := processBlock P (S indent) b in
                              loop more (text ++ piece)
                          end) l ""
                   | JObj f =>
                       if Query.greater P (JS.assoc "length" f) 0
                       then Throw not_iterable else Ok ""
                   | _ => Ok ""
                   end
                 else find rest
             end) fields in
        Ok (bullet indent (JS.toStr (JS.assoc "content" fields)) ++ sub)
      else Ok ""
  | _ => Ok ""
  end.

(** The loop over an array of blocks. *)
Fixpoint loop (P : Platform) (indent : nat) (bs : list JSValue) (text : string)
  : Outcome string :=
  match bs with
  | [] => Ok text
  | b :: more =>
      let? piece := processBlock P indent b in
      loop P indent more (text ++ piece)
  end.

(** [processBlocks(blocks, indent)] *)
Definition processBlocks (P : Platform) (blocks : JSValue) (indent : nat)
  : Outcome string :=
  match blocks with
  | JArr l => loop P indent l ""
  | JStr _ => Ok ""
  | _ => Throw not_iterable
  end.

(** [if (v?.length > 0) text += processBlocks(v, indent)] *)
Definition guarded (P : Platform) (v : JSValue) (indent : nat) : Outcome string :=
  if has_length P v then processBlocks P v indent else Ok "".

(** A block as the remote sends it: an object whose [content], where
    present, is text and whose [children], where present, are an array
    of such blocks; it may have any other fields ([uuid], [marker],
    [properties] and the like). *)
Fixpoint is_block (v : JSValue) : bool :=
  match v with
  | JObj fields =>
      Rows.text_or_absent (JS.assoc "content" fields)
      && (fix find (fs : list (string * JSValue)) : bool :=
            match fs with
            | [] => true
            | (k, v) :: rest =>
                if ("children" =? k)%string then
                  match v with
                  | JArr l =>
                      (fix all (bs : list JSValue) : bool :=
                         match bs with
                         | [] => true
                         | b :: more => is_block b && all more
                         end) l
                  | JUndefined | JNull => true
                  | _ => false
                  end
                else find rest
            end) fields
  | _ => false
  end.

(** The block tree that such a JSON value stands for: the text of its
    [content] and the trees of its [children]. *)
Fixpoint decode (v : JSValue) : Block :=
  match v with
  | JObj fields =>
      mkBlock (Rows.text (JS.assoc "content" fields))
        ((fix find (fs : list (string * JSValue)) : list Block :=
            match fs with
            | [] => []
            | (k, v) :: rest =>
                if ("children" =? k)%string then
                  match v with
                  | JArr l =>
                      (fix all (bs : list JSValue) : list Block :=
                         match bs with
                         | [] => []
                         | b :: more => decode b :: all more
                         end) l
                  | _ => []
                  end
                else find rest
            end) fields)
  | _ => mkBlock "" []
  end.

(** A page as [getPageBlocksTree] answers it: two blocks with the
    fields of the store, the first with a child. *)
Definition sample_blocks : list JSValue :=
  [JObj [("uuid", JStr "65f2c1aa-0000-4000-8000-000000000001");
         ("content", JStr "TODO plan");
         ("marker", JStr "TODO");
         ("properties", JObj []);
         ("children",
          JArr [JObj [("uuid", JStr "65f2c1aa-0000-4000-8000-000000000002");
                      ("content", JStr "first step");
                      ("children", JArr []);
                      ("level", JNum 2)]]);
         ("level", JNum 1)];
   JObj [("uuid", JStr "65f2c1aa-0000-4000-8000-000000000003");
         ("content", JStr "notes");
         ("children", JArr [])]].

(** The JSON of a block tree. *)
Fixpoint encode (b : Block) : JSValue :=
  match b with
  | mkBlock c ch =>
      JObj [("content", JStr c);
            ("children",
             JArr ((fix all (l : list Block) : list JSValue :=
                      match l with
                      | [] => []
                      | x :: rest => encode x :: all rest
                      end) ch))]
  end.

End BlocksJ.

(* ================================================================== *)
(** ** Tool 2: logseq_read, targets page and block *)
(* ================================================================== *)

Record ReadOptions : Type := mkReadOptions {
  r_includeContent : option bool;
  r_includeBacklinks : option bool;
  r_includeProperties : option bool;
  r_depth : option Z
}.

Definition no_read_options : ReadOptions := mkReadOptions None None None None.

Module Read.

#[local] Open Scope api_scope.

(** A destructured flag with its default. *)
Definition flag (default : bool) (x : option bool) : bool :=
  match x with Some b => b | None => default end.

Definition includeContent (o : ReadOptions) : bool := flag true (r_includeContent o).
Definition includeBacklinks (o : ReadOptions) : bool := flag false (r_includeBacklinks o).
Definition includeProperties (o : ReadOptions) : bool := flag true (r_includeProperties o).

Fixpoint indexed (i : nat) (l : list JSValue) : list (string * JSValue) :=
  match l with
  | [] => []
  | v :: rest => (Str.ofZ (Z.of_nat i), v) :: indexed (S i) rest
  end.

Fixpoint chars (i : nat) (s : string) : list (string * JSValue) :=
  match s with
  | EmptyString => []
  | String c r => (Str.ofZ (Z.of_nat i), JStr (String c "")) :: chars (S i) r
  end.

(** [Object.entries(v)].  The fields of an object are listed in the
    order in which the object enumerates them. *)
Definition entries (v : JSValue) : Outcome (list (string * JSValue)) :=
  match v with
  | JUndefined | JNull =>
      Throw (TypeError "Cannot convert undefined or null to object")
  | JObj fields => Ok fields
  | JArr l => Ok (indexed 0 l)
  | JStr s => Ok (chars 0 s)
  | _ => Ok []
  end.

(** The lines [- key:: value] of a list of entries. *)
Definition property_lines (es : list (string * JSValue)) : string :=
  Str.concat_all
    (map (fun kv => "- " ++ fst kv ++ ":: " ++ JS.toStr (snd kv) ++ Str.nl) es).

(** [try { m } catch { ... }], with the outcome of [m] as a value. *)
Definition attempt {A} (m : Api A) : Api (Outcome A) :=
  catch (bind m (fun a => Ret (Ok a))) (fun e => Ret (Throw e)).

(** [v?.[k]] *)
Definition opt_get (v : JSValue) (k : string) : JSValue :=
  match v with
  | JObj fields => JS.assoc k fields
  | _ => JUndefined
  end.

(** The callback of [forEach] over the references: the line of one
    reference. *)
Definition backlink_line (ref : JSValue) : Outcome string :=
  let? refPage := JS.get0 ref in
  let pageName :=
    JS.or_ (JS.or_ (opt_get refPage "block/original-name")
                   (opt_get refPage "block/name")) (JStr "Unknown") in
  Ok ("- [[" ++ JS.toStr pageName ++ "]]" ++ Str.nl).

(** The loop over the references: [output] as it stands when the loop
    ends or throws, and what was thrown. *)
Fixpoint backlink_loop (refs : list JSValue) (output : string)
  : string * option Thrown :=
  match refs with
  | [] => (output, None)
  | ref :: rest =>
      match backlink_line ref with
      | Ok line => backlink_loop rest (output ++ line)
      | Throw e => (output, Some e)
      end
  end.

Definition could_not_fetch : string :=
  Str.nl ++ "## Backlinks" ++ Str.nl ++ Str.nl ++ "Could not fetch backlinks." ++ Str.nl.

Definition no_backlinks : string :=
  Str.nl ++ "## Backlinks" ++ Str.nl ++ Str.nl ++ "No backlinks found." ++ Str.nl.

(** The [try] block of the backlinks after the call has answered
    [refs]: [output] as it stands at the end or at the throw. *)
Definition backlinks_try (P : Platform) (refs : JSValue) (output : string)
  : string * option Thrown :=
  if BlocksJ.has_length P refs then
    match refs with
    | JArr l =>
        let n := Z.of_nat (List.length l) in
        let output :=
          output ++ Str.nl ++ "## Backlinks (" ++ Str.ofZ n ++ ")" ++ Str.nl ++ Str.nl in
        match backlink_loop (JS.slice0 l 20) output with
        | (output, Some e) => (output, Some e)
        | (output, None) =>
            (if 20 <? n
             then output ++ "- ... and " ++ Str.ofZ (n - 20) ++ " more" ++ Str.nl
             else output, None)
        end
    | JStr s =>
        (output ++ Str.nl ++ "## Backlinks ("
         ++ Str.ofZ (Z.of_nat (String.length s)) ++ ")" ++ Str.nl ++ Str.nl,
         Some (TypeError "refs.slice(...).forEach is not a function"))
    | JObj fields =>
        (output ++ Str.nl ++ "## Backlinks ("
         ++ JS.toStr (JS.assoc "length" fields) ++ ")" ++ Str.nl ++ Str.nl,
         Some (TypeError "refs.slice is not a function"))
    | _ => (output, None)
    end
  else (output ++ no_backlinks, None).

(** The backlinks section: the [try] block and its [catch]. *)
Definition backlinks (P : Platform) (env : Env) (identifier : string)
  (output : string) : Api string :=
  r <- attempt (callLogseqApi env "logseq.Editor.getPageLinkedReferences"
                  [JStr identifier]) ;;
  match r with
  | Throw _ => Ret (output ++ could_not_fetch)
  | Ok refs =>
      match backlinks_try P refs output with
      | (output, Some _) => Ret (output ++ could_not_fetch)
      | (output, None) => Ret output
      end
  end.

Definition page_not_found (identifier : string) : string :=
  "Page " ++ Str.dq ++ identifier ++ Str.dq ++ " not found.".

(** The [case 'page'] block up to the backlinks: an early [return] of
    a text, or [output] as it stands. *)
Definition page_main (P : Platform) (env : Env) (identifier : string)
  (o : ReadOptions) : Api (string + string) :=
  page <- callLogseqApi env "logseq.Editor.getPage" [JStr identifier] ;;
  if negb (JS.truthy page) then Ret (inl (page_not_found identifier))
  else
    originalName <- lift (JS.get page "originalName") ;;
    name <- lift (JS.get page "name") ;;
    let output := "# " ++ JS.toStr (JS.or_ originalName name) ++ Str.nl ++ Str.nl in
    properties <- lift (JS.get page "properties") ;;
    output <-
      (if includeProperties o && JS.truthy properties then
         es <- lift (entries properties) ;;
         Ret (output ++ "## Properties" ++ Str.nl ++ property_lines es ++ Str.nl)
       else Ret output) ;;
    output <-
      (if includeContent o then
         blocks <- callLogseqApi env "logseq.Editor.getPageBlocksTree"
                     [JStr identifier] ;;
         if BlocksJ.has_length P blocks then
           text <- lift (BlocksJ.processBlocks P blocks 0) ;;
           Ret (output ++ "## Content" ++ Str.nl ++ Str.nl ++ text)
         else Ret output
       else Ret output) ;;
    Ret (inr output).

(** The [case 'page'] block. *)
Definition page (P : Platform) (env : Env) (identifier : string) (o : ReadOptions)
  : Api string :=
  r <- page_main P env identifier o ;;
  match r with
  | inl text => Ret text
  | inr output =>
      if includeBacklinks o then backlinks P env identifier output
      else Ret output
  end.

(** The [case 'block'] block. *)
Definition block (P : Platform) (env : Env) (identifier : string) (o : ReadOptions)
  : Api string :=
  let blockId := Ref.strip identifier in
  block <- callLogseqApi env "logseq.Editor.getBlock"
             [JStr blockId; JObj [("includeChildren", JBool true)]] ;;
  if negb (JS.truthy block) then
    Ret ("Block " ++ Str.dq ++ blockId ++ Str.dq ++ " not found.")
  else
    content <- lift (JS.get block "content") ;;
    let output :=
      "## Block: " ++ Ref.short blockId ++ "..." ++ Str.nl ++ Str.nl
      ++ "**Content:** " ++ JS.toStr content ++ Str.nl in
    marker <- lift (JS.get block "marker") ;;
    let output :=
      if JS.truthy marker
      then output ++ "**Status:** " ++ JS.toStr marker ++ Str.nl else output in
    priority <- lift (JS.get block "priority") ;;
    let output :=
      if JS.truthy priority
      then output ++ "**Priority:** " ++ JS.toStr priority ++ Str.nl else output in
    properties <- lift (JS.get block "properties") ;;
    output <-
      (if includeProperties o && JS.truthy properties then
         es <- lift (entries properties) ;;
         Ret (output ++ Str.nl ++ "### Properties" ++ Str.nl ++ property_lines es)
       else Ret output) ;;
    children <- lift (JS.get block "children") ;;
    if includeContent o && BlocksJ.has_length P children then
      text <- lift (BlocksJ.processBlocks P children 0) ;;
      Ret (output ++ Str.nl ++ "### Children" ++ Str.nl ++ Str.nl ++ text)
    else Ret output.

End Read.

Definition logseq_read_page (P : Platform) (env : Env) (identifier : string)
  (o : ReadOptions) : Api string :=
  tool "Read error: " (Read.page P env identifier o).

Definition logseq_read_block (P : Platform) (env : Env) (identifier : string)
  (o : ReadOptions) : Api string :=
  tool "Read error: " (Read.block P env identifier o).

(* ================================================================== *)
(** ** Tool 4: logseq_analyze, analysis orphan_pages *)
(* ================================================================== *)

Module Analyze.

#[local] Open Scope api_scope.

(** [(p) => !p['block/journal?']] *)
Definition not_journal (p : JSValue) : Outcome bool :=
  let? j := JS.get p "block/journal?" in Ok (negb (JS.truthy j)).

(** The callback of [forEach]: the line of one orphan page. *)
Definition orphan_line (p : JSValue) : Outcome string :=
  let? a := JS.get p "block/original-name" in
  let? b := JS.get p "block/name" in
  Ok ("- [[" ++ JS.toStr (JS.or_ a b) ++ "]]" ++ Str.nl).

(** [orphans.map(o => o[0]).filter(p => !p['block/journal?']).slice(0, limit)] *)
Definition orphan_list (limit : Z) (orphans : JSValue) : Outcome (list JSValue) :=
  match orphans with
  | JArr l =>
      let? firsts := Query.map_outcome JS.get0 l in
      let? kept := Query.filter_list not_journal firsts in
      Ok (JS.slice0 kept limit)
  | JUndefined | JNull => Throw (JS.cannot_read orphans "map")
  | _ => Throw (TypeError "orphans.map is not a function")
  end.

Definition orphan_header : string :=
  "# Orphan Pages" ++ Str.nl ++ Str.nl
  ++ "*Pages with no incoming links from other pages*" ++ Str.nl ++ Str.nl.

(** The text of the analysis for a list of orphan pages. *)
Definition orphan_report (orphanList : list JSValue) : Outcome string :=
  match orphanList with
  | [] => Ok (orphan_header ++ "No orphan pages found." ++ Str.nl)
  | _ =>
      let? lines := Query.map_outcome orphan_line orphanList in
      Ok (orphan_header ++ "Found " ++ Str.ofZ (Z.of_nat (List.length orphanList))
          ++ " orphan page(s):" ++ Str.nl ++ Str.nl ++ Str.concat_all lines)
  end.

(** The [case 'orphan_pages'] block; [limit = 20] is the default of the
    destructured option. *)
Definition orphan_pages (env : Env) (clock : Clock) (limit : option Z)
  : Api string :=
  let limit := match limit with Some n => n | None => 20 end in
  let orphanQuery := buildDatalogQuery (Date_now clock) "orphan_pages" no_params in
  orphans <- callLogseqApi env "logseq.DB.datascriptQuery"
               [Query.query_arg orphanQuery] ;;
  orphanList <- lift (orphan_list limit orphans) ;;
  lift (orphan_report orphanList).

End Analyze.

Definition logseq_analyze_orphan_pages (env : Env) (clock : Clock)
  (limit : option Z) : Api string :=
  tool "Analysis error: " (Analyze.orphan_pages env clock limit).

(* ================================================================== *)
(** ** More vocabulary of the statements *)
(* ================================================================== *)

(** The journal day of a local time, as the store writes it: YYYYMMDD. *)
Definition journal_day (t : Z) : Z :=
  JsDate.YearFromTime t * 10000 + (JsDate.MonthFromTime t + 1) * 100
  + JsDate.DateFromTime t.

(** A remote on which every call fails in the same way: what
    [callLogseqApi] throws is [err], whatever the request. *)
Definition fails_all_with {S} (env : Env) (err : Thrown)
  (respond : S -> Request -> S * FetchResult) : Prop :=
  forall s r, thrown_by env (snd (respond s r)) = Some err.

(** A run that made no request, or that ended in the throw of [err]. *)
Definition quiet_or_failed {S A} (err : Thrown) (s : S)
  (res : list Request * S * Outcome A) : Prop :=
  (trace_of res = [] /\ state_of res = s) \/ outcome_of res = Throw err.

(** Computations that, against [respond], make no request or end in
    the throw of [err], and computations that always end in it. *)
Definition closed_under {S A} (err : Thrown)
  (respond : S -> Request -> S * FetchResult) (m : Api A) : Prop :=
  forall s, quiet_or_failed err s (run respond m s).

Definition always_fails {S A} (err : Thrown)
  (respond : S -> Request -> S * FetchResult) (m : Api A) : Prop :=
  forall s, outcome_of (run respond m s) = Throw err.

(** A remote that answers every request with one status and one status
    text, and no body. *)
Definition status_only (status : Z) (statusText : string) (s : unit) (r : Request)
  : unit * FetchResult :=
  (s, Responded status statusText None).

(** A remote that answers every call with status 200 and a body that
    is not JSON, on which [response.json()] rejects with [message]. *)
Definition text_only (message : string) (s : unit) (r : Request)
  : unit * FetchResult :=
  (s, Unparsed 200 "OK" message).

(** The message of V8 on a body that begins with an HTML tag. *)
Definition html_message : string :=
  "Unexpected token '<', " ++ Str.dq ++ "<html><bod" ++ Str.dq
  ++ "... is not valid JSON".

(** A value of the remote that is not an array. *)
Definition not_array (v : JSValue) : bool :=
  match v with
  | JArr _ => false
  | _ => true
  end.

(** The names of the operations of [logseq_write], as the schema of the
    tool lists them. *)
Definition operation_name (op : Op.t) : string :=
  match op with
  | Op.create_page => "create_page"
  | Op.delete_page => "delete_page"
  | Op.create_block => "create_block"
  | Op.update_block => "update_block"
  | Op.delete_block => "delete_block"
  | Op.append_to_page => "append_to_page"
  | Op.append_to_journal => "append_to_journal"
  | Op.set_property => "set_property"
  | Op.remove_property => "remove_property"
  end.

(** A response that [callLogseqApi] returns a value for. *)
Definition answered (res : FetchResult) : Prop := answer res <> None.

(* ################################################################## *)
(** * Properties *)
(* ################################################################## *)

(* ================================================================== *)
(** ** The calendar *)
(* ================================================================== *)

Module DateFacts.

Import JsDate.

Lemma DayFromYear_succ y : DayFromYear (y + 1) = DayFromYear y + DaysInYear y.
Proof.
  unfold DayFromYear, DaysInYear.
  destruct (Z.eqb_spec (y mod 4) 0); destruct (Z.eqb_spec (y mod 100) 0);
    destruct (Z.eqb_spec (y mod 400) 0); cbn [negb];
    Z.to_euclidean_division_equations; lia.
Qed.

Lemma DayFromYear_mono a b : a <= b -> DayFromYear a <= DayFromYear b.
Proof.
  unfold DayFromYear. intros. Z.to_euclidean_division_equations. lia.
Qed.

Lemma YearFromDay_spec d :
  DayFromYear (YearFromDay d) <= d < DayFromYear (YearFromDay d + 1).
Proof.
  unfold YearFromDay.
  set (y0 := 1970 + 400 * d / 146097).
  assert (H1 : DayFromYear (y0 - 1) <= d).
  { unfold DayFromYear, y0. Z.to_euclidean_division_equations. lia. }
  assert (H2 : d < DayFromYear (y0 + 2)).
  { unfold DayFromYear, y0. Z.to_euclidean_division_equations. lia. }
  destruct (Z.ltb_spec d (DayFromYear y0)).
  - replace (y0 - 1 + 1) with y0 by lia. lia.
  - destruct (Z.leb_spec (DayFromYear (y0 + 1)) d).
    + replace (y0 + 1 + 1) with (y0 + 2) by lia. lia.
    + lia.
Qed.

Lemma YearFromDay_unique y d :
  DayFromYear y <= d < DayFromYear (y + 1) -> YearFromDay d = y.
Proof.
  intros H. pose proof (YearFromDay_spec d) as S.
  destruct (Z.lt_trichotomy (YearFromDay d) y) as [L | [E | G]]; auto.
  - pose proof (DayFromYear_mono (YearFromDay d + 1) y ltac:(lia)). lia.
  - pose proof (DayFromYear_mono (y + 1) (YearFromDay d) ltac:(lia)). lia.
Qed.

Lemma InLeapYear_01 y : InLeapYear y = 0 \/ InLeapYear y = 1.
Proof. unfold InLeapYear. destruct (DaysInYear y =? 366); auto. Qed.

Lemma DaysInYear_leap y : DaysInYear y = 365 + InLeapYear y.
Proof.
  unfold InLeapYear, DaysInYear.
  destruct (negb (y mod 4 =? 0)), (negb (y mod 100 =? 0)),
    (negb (y mod 400 =? 0)); reflexivity.
Qed.

Lemma Day_MakeDate d t : 0 <= t < msPerDay -> Day (MakeDate d t) = d.
Proof.
  unfold Day, MakeDate, msPerDay. intros. Z.to_euclidean_division_equations. lia.
Qed.

Lemma TimeWithinDay_MakeDate d t :
  0 <= t < msPerDay -> TimeWithinDay (MakeDate d t) = t.
Proof.
  unfold TimeWithinDay, MakeDate, msPerDay. intros.
  Z.to_euclidean_division_equations. lia.
Qed.

Lemma TimeWithinDay_range t : 0 <= TimeWithinDay t < msPerDay.
Proof. unfold TimeWithinDay, msPerDay. apply Z.mod_pos_bound. lia. Qed.

Lemma Day_decompose t : t = MakeDate (Day t) (TimeWithinDay t).
Proof.
  unfold MakeDate, Day, TimeWithinDay, msPerDay.
  Z.to_euclidean_division_equations. lia.
Qed.

Lemma WeekDay_range t : 0 <= WeekDay t <= 6.
Proof. unfold WeekDay. Z.to_euclidean_division_equations. lia. Qed.

Lemma DayWithinYear_range t :
  0 <= DayWithinYear t < 365 + InLeapYear (YearFromTime t).
Proof.
  unfold DayWithinYear, YearFromTime.
  pose proof (YearFromDay_spec (Day t)) as S.
  rewrite DayFromYear_succ, DaysInYear_leap in S. lia.
Qed.

Lemma month_of_yday_range L d : 0 <= month_of_yday L d <= 11.
Proof.
  unfold month_of_yday.
  repeat match goal with |- context [if ?c then _ else _] => destruct c end; lia.
Qed.

Lemma month_start_le L d :
  0 <= L <= 1 -> 0 <= d -> month_start L (month_of_yday L d) <= d.
Proof.
  intros HL Hd. unfold month_of_yday.
  repeat match goal with
         | |- context [if ?a <? ?b then _ else _] => destruct (Z.ltb_spec a b)
         end; unfold month_start; cbn [Z.eqb Pos.eqb]; lia.
Qed.

Lemma month_of_start L m :
  0 <= L <= 1 -> 0 <= m <= 11 -> month_of_yday L (month_start L m) = m.
Proof.
  intros HL Hm.
  assert (C : m = 0 \/ m = 1 \/ m = 2 \/ m = 3 \/ m = 4 \/ m = 5 \/ m = 6
              \/ m = 7 \/ m = 8 \/ m = 9 \/ m = 10 \/ m = 11) by lia.
  assert (CL : L = 0 \/ L = 1) by lia.
  destruct CL; subst L;
    repeat (destruct C as [C | C]; [subst m; reflexivity |]); subst m; reflexivity.
Qed.

Lemma month_start_range L m : 0 <= L <= 1 -> 0 <= month_start L m <= 334 + L.
Proof.
  intros. unfold month_start.
  repeat match goal with |- context [if ?c then _ else _] => destruct c end; lia.
Qed.

Lemma month_start_step L m :
  0 <= L <= 1 -> 1 <= m <= 11 -> month_start L (m - 1) < month_start L m.
Proof.
  intros HL Hm.
  assert (C : m = 1 \/ m = 2 \/ m = 3 \/ m = 4 \/ m = 5 \/ m = 6
              \/ m = 7 \/ m = 8 \/ m = 9 \/ m = 10 \/ m = 11) by lia.
  assert (CL : L = 0 \/ L = 1) by lia.
  destruct CL; subst L;
    repeat (destruct C as [C | C]; [subst m; reflexivity |]); subst m; reflexivity.
Qed.

Lemma MonthFromTime_range t : 0 <= MonthFromTime t <= 11.
Proof. apply month_of_yday_range. Qed.

Lemma DateFromTime_pos t : 1 <= DateFromTime t.
Proof.
  unfold DateFromTime, MonthFromTime.
  pose proof (InLeapYear_01 (YearFromTime t)).
  pose proof (DayWithinYear_range t).
  pose proof (month_start_le (InLeapYear (YearFromTime t)) (DayWithinYear t)
                ltac:(lia) ltac:(lia)).
  lia.
Qed.

Lemma DateFromTime_le_31 t : DateFromTime t <= 31.
Proof.
  unfold DateFromTime, MonthFromTime.
  pose proof (InLeapYear_01 (YearFromTime t)).
  pose proof (DayWithinYear_range t).
  set (L := InLeapYear (YearFromTime t)) in *.
  set (d := DayWithinYear t) in *.
  unfold month_of_yday.
  repeat match goal with
         | |- context [if ?a <? ?b then _ else _] => destruct (Z.ltb_spec a b)
         end; unfold month_start; cbn [Z.eqb Pos.eqb]; lia.
Qed.

(** A month in 0..11 does not carry into the year. *)
Lemma MakeDay_in_year y m d :
  0 <= m <= 11 -> MakeDay y m d = DayFromYear y + month_start (InLeapYear y) m + d - 1.
Proof.
  intros. unfold MakeDay.
  rewrite (Z.div_small m 12), (Z.mod_small m 12) by lia.
  now rewrite Z.add_0_r.
Qed.

(** Counting the date from the first of the month of [t] lands [k] days
    after the day of [t]. *)
Lemma MakeDay_shift t k :
  MakeDay (YearFromTime t) (MonthFromTime t) (DateFromTime t + k) = Day t + k.
Proof.
  rewrite MakeDay_in_year by apply MonthFromTime_range.
  unfold DateFromTime, DayWithinYear. lia.
Qed.

Lemma YearFromTime_same_day t t' : Day t' = Day t -> YearFromTime t' = YearFromTime t.
Proof. unfold YearFromTime. now intros ->. Qed.

Lemma MonthFromTime_same_day t t' : Day t' = Day t -> MonthFromTime t' = MonthFromTime t.
Proof.
  intros H. unfold MonthFromTime, DayWithinYear.
  now rewrite H, (YearFromTime_same_day _ _ H).
Qed.

Lemma DateFromTime_same_day t t' : Day t' = Day t -> DateFromTime t' = DateFromTime t.
Proof.
  intros H. unfold DateFromTime, DayWithinYear.
  now rewrite H, (YearFromTime_same_day _ _ H), (MonthFromTime_same_day _ _ H).
Qed.

(** The local time of [d.setDate(today.getDate() + k)] when [d] lies on the day of
    [today]. *)
Lemma with_date_shift today d k :
  Day d = Day today ->
  with_date d (DateFromTime today + k) = MakeDate (Day today + k) (TimeWithinDay d).
Proof.
  intros H. unfold with_date.
  rewrite <- (DateFromTime_same_day _ _ H), MakeDay_shift. now rewrite H.
Qed.

Lemma MakeTime_last : MakeTime 23 59 59 999 = msPerDay - 1.
Proof. reflexivity. Qed.

Lemma with_hours_midnight t : with_hours t 0 0 0 0 = MakeDate (Day t) 0.
Proof. reflexivity. Qed.

Lemma Day_with_last_ms t : Day (with_hours t 23 59 59 999) = Day t.
Proof.
  unfold with_hours. apply Day_MakeDate.
  rewrite MakeTime_last. unfold msPerDay. lia.
Qed.

Lemma first_of_month_year y m :
  0 <= m <= 11 -> YearFromDay (Table.first_of_month y m) = y.
Proof.
  intros Hm. apply YearFromDay_unique. unfold Table.first_of_month.
  rewrite DayFromYear_succ, DaysInYear_leap.
  pose proof (InLeapYear_01 y).
  pose proof (month_start_range (InLeapYear y) m ltac:(lia)). lia.
Qed.

(** The day [first_of_month y m] is the first of month [m] of year [y]. *)
Lemma first_of_month_fields y m :
  0 <= m <= 11 ->
  let t := Table.day_begin (Table.first_of_month y m) in
  YearFromTime t = y /\ MonthFromTime t = m /\ DateFromTime t = 1.
Proof.
  intros Hm t.
  assert (D : Day t = Table.first_of_month y m).
  { apply Day_MakeDate. unfold msPerDay. lia. }
  assert (Y : YearFromTime t = y).
  { unfold YearFromTime. rewrite D. now apply first_of_month_year. }
  assert (M : MonthFromTime t = m).
  { unfold MonthFromTime, DayWithinYear. rewrite Y, D.
    unfold Table.first_of_month.
    replace (DayFromYear y + month_start (InLeapYear y) m - DayFromYear y)
      with (month_start (InLeapYear y) m) by lia.
    apply month_of_start; [pose proof (InLeapYear_01 y); lia | assumption]. }
  repeat split; auto.
  unfold DateFromTime, DayWithinYear. rewrite M, Y, D.
  unfold Table.first_of_month. lia.
Qed.

(** The first of the month of [t] is [getDate t - 1] days before [t]. *)
Lemma first_of_month_now t :
  Table.first_of_month (YearFromTime t) (MonthFromTime t) = Day t - (DateFromTime t - 1).
Proof.
  unfold Table.first_of_month, DateFromTime, DayWithinYear. lia.
Qed.

(** The first of the previous month, as [setMonth(getMonth() - 1, 1)]
    computes it. *)
Lemma MakeDay_prev_month t :
  MakeDay (YearFromTime t) (MonthFromTime t - 1) 1
  = Table.first_of_month (Table.prev_month_year t) (Table.prev_month t).
Proof.
  unfold Table.prev_month_year, Table.prev_month, Table.first_of_month.
  pose proof (MonthFromTime_range t) as R.
  destruct (Z.eqb_spec (MonthFromTime t) 0) as [E | E].
  - rewrite E. unfold MakeDay. cbn [Z.sub Z.add Z.opp Z.pos_sub].
    change (-1 / 12) with (-1). change (-1 mod 12) with 11.
    replace (YearFromTime t + -1) with (YearFromTime t - 1) by lia. lia.
  - rewrite MakeDay_in_year by lia. lia.
Qed.

Lemma prev_month_range t : 0 <= Table.prev_month t <= 11.
Proof.
  unfold Table.prev_month. pose proof (MonthFromTime_range t).
  destruct (Z.eqb_spec (MonthFromTime t) 0); lia.
Qed.

(** The previous month starts before the current one. *)
Lemma prev_month_before t :
  Table.first_of_month (Table.prev_month_year t) (Table.prev_month t)
  < Table.first_of_month (YearFromTime t) (MonthFromTime t).
Proof.
  unfold Table.prev_month_year, Table.prev_month, Table.first_of_month.
  pose proof (MonthFromTime_range t) as R.
  destruct (Z.eqb_spec (MonthFromTime t) 0) as [E | E].
  - rewrite E. set (y := YearFromTime t).
    pose proof (DayFromYear_succ (y - 1)) as S.
    replace (y - 1 + 1) with y in S by lia.
    rewrite DaysInYear_leap in S.
    pose proof (InLeapYear_01 (y - 1)).
    assert (month_start (InLeapYear (y - 1)) 11 = 334 + InLeapYear (y - 1))
      by reflexivity.
    change (month_start (InLeapYear y) 0) with 0. lia.
  - pose proof (InLeapYear_01 (YearFromTime t)).
    pose proof (month_start_step (InLeapYear (YearFromTime t)) (MonthFromTime t)
                  ltac:(lia) ltac:(lia)). lia.
Qed.

End DateFacts.

(* ================================================================== *)
(** ** parseDateRange *)
(* ================================================================== *)

Module RangeFacts.

Import JsDate DateFacts.

Import Ranges.

(** *** Days and their first and last milliseconds *)

Lemma with_hours_first t : with_hours t 0 0 0 0 = Table.day_begin (Day t).
Proof. reflexivity. Qed.

Lemma with_hours_last t : with_hours t 23 59 59 999 = Table.day_end (Day t).
Proof. reflexivity. Qed.

Lemma TimeWithinDay_day_end d : TimeWithinDay (Table.day_end d) = msPerDay - 1.
Proof.
  unfold Table.day_end. rewrite MakeTime_last.
  apply TimeWithinDay_MakeDate. unfold msPerDay. lia.
Qed.

Lemma TimeWithinDay_day_begin d : TimeWithinDay (Table.day_begin d) = 0.
Proof. apply TimeWithinDay_MakeDate. unfold msPerDay. lia. Qed.

Lemma Day_day_end d : Day (Table.day_end d) = d.
Proof.
  apply Day_MakeDate. rewrite MakeTime_last. unfold msPerDay. lia.
Qed.

Lemma Day_day_begin d : Day (Table.day_begin d) = d.
Proof. apply Day_MakeDate. unfold msPerDay. lia. Qed.

Lemma day_order a b : a <= b -> Table.day_begin a <= Table.day_end b.
Proof.
  unfold Table.day_begin, Table.day_end, MakeDate. rewrite MakeTime_last.
  unfold msPerDay. lia.
Qed.

Lemma table_days_ordered now p :
  In p Table.recognized -> Table.start_day now p <= Table.end_day now p.
Proof.
  intros H. pose proof (WeekDay_range now). pose proof (DateFromTime_pos now).
  pose proof (prev_month_before now). pose proof (first_of_month_now now).
  unfold Table.recognized in H. cbn [In] in H.
  repeat (destruct H as [H | H]; [subst p; cbn; lia |]). contradiction.
Qed.

Lemma table_end_today now p :
  In p Table.recognized -> Table.end_day now p <= Day now.
Proof.
  intros H. pose proof (WeekDay_range now). pose proof (DateFromTime_pos now).
  pose proof (first_of_month_now now).
  unfold Table.recognized in H. cbn [In] in H.
  repeat (destruct H as [H | H]; [subst p; cbn; lia |]). contradiction.
Qed.

(** *** A zone whose offset does not change over some days *)

(** The dates are written [L - c], with [L] the local time value and
    [c] the offset. *)
Section Steady.

Context (tz : Zone) (c a b : Z).
Hypothesis steady : Zones.steady tz c a b.

Lemma LocalTime_steady L : a <= Day L <= b -> LocalTime tz (L - c) = L.
Proof. intros H. unfold LocalTime. destruct (steady L H) as [-> _]. lia. Qed.

Lemma UTC_steady L : a <= Day L <= b -> UTC tz L = L - c.
Proof. intros H. unfold UTC. destruct (steady L H) as [_ ->]. reflexivity. Qed.

Lemma midnight_steady L :
  a <= Day L <= b -> midnight tz (L - c) = Table.day_begin (Day L) - c.
Proof.
  intros H. unfold midnight, setHours.
  rewrite (LocalTime_steady L H), with_hours_first.
  apply UTC_steady. now rewrite Day_day_begin.
Qed.

Lemma last_ms_steady L :
  a <= Day L <= b -> last_ms tz (L - c) = Table.day_end (Day L) - c.
Proof.
  intros H. unfold last_ms, setHours.
  rewrite (LocalTime_steady L H), with_hours_last.
  apply UTC_steady. now rewrite Day_day_end.
Qed.

Lemma setDate_steady N d k :
  a <= Day N <= b -> a <= Day N + k <= b -> Day d = Day N ->
  setDate tz (d - c) (DateFromTime N + k)
  = MakeDate (Day N + k) (TimeWithinDay d) - c.
Proof.
  intros HN Hk Hd. unfold setDate.
  rewrite (LocalTime_steady d) by now rewrite Hd.
  rewrite (with_date_shift N d k Hd).
  apply UTC_steady.
  now rewrite Day_MakeDate by apply TimeWithinDay_range.
Qed.

(** [start.setDate(today.getDate() + k); start.setHours(0, 0, 0, 0)] *)
Lemma midnight_setDate N k :
  a <= Day N <= b -> a <= Day N + k <= b ->
  midnight tz (setDate tz (N - c) (getDate tz (N - c) + k))
  = Table.day_begin (Day N + k) - c.
Proof.
  intros HN Hk. unfold getDate. rewrite (LocalTime_steady N HN).
  rewrite (setDate_steady N N k HN Hk eq_refl).
  rewrite midnight_steady;
    now rewrite Day_MakeDate by apply TimeWithinDay_range.
Qed.

(** [end.setDate(today.getDate() + k)], [end] being the last
    millisecond of today. *)
Lemma setDate_last_ms N k :
  a <= Day N <= b -> a <= Day N + k <= b ->
  setDate tz (last_ms tz (N - c)) (getDate tz (N - c) + k)
  = Table.day_end (Day N + k) - c.
Proof.
  intros HN Hk. unfold getDate. rewrite (LocalTime_steady N HN).
  rewrite (last_ms_steady N HN).
  rewrite (setDate_steady N (Table.day_end (Day N)) k HN Hk (Day_day_end _)).
  rewrite TimeWithinDay_day_end. unfold Table.day_end. now rewrite MakeTime_last.
Qed.

Lemma run_today N :
  a <= Day N <= b ->
  r_today tz (N - c) (init tz (N - c))
  = mkRange (Table.day_begin (Day N) - c) (Table.day_end (Day N) - c)
      "Today's Journal".
Proof.
  intros HN. unfold r_today, init, set_start, set_title; cbn [start end_ title].
  now rewrite midnight_steady, last_ms_steady.
Qed.

Lemma run_yesterday N :
  a <= Day N - 1 -> Day N <= b ->
  r_yesterday tz (N - c) (init tz (N - c))
  = mkRange (Table.day_begin (Day N - 1) - c) (Table.day_end (Day N - 1) - c)
      "Yesterday's Journal".
Proof.
  intros Ha Hb.
  unfold r_yesterday, init, set_start, set_end, set_title; cbn [start end_ title].
  replace (getDate tz (N - c) - 1) with (getDate tz (N - c) + -1) by lia.
  rewrite midnight_setDate, setDate_last_ms by lia.
  now replace (Day N + -1) with (Day N - 1) by lia.
Qed.

Lemma run_week (ttl : string) N :
  a <= Day N - WeekDay N -> Day N <= b ->
  mkRange (midnight tz (setDate tz (N - c)
                          (getDate tz (N - c) - getDay tz (N - c))))
    (last_ms tz (N - c)) ttl
  = mkRange (Table.day_begin (Day N - WeekDay N) - c)
      (Table.day_end (Day N) - c) ttl.
Proof.
  intros Ha Hb. pose proof (WeekDay_range N).
  assert (G : getDay tz (N - c) = WeekDay N).
  { unfold getDay. rewrite LocalTime_steady; [reflexivity | lia]. }
  rewrite G.
  replace (getDate tz (N - c) - WeekDay N)
    with (getDate tz (N - c) + - WeekDay N) by lia.
  rewrite midnight_setDate, last_ms_steady by lia.
  now replace (Day N + - WeekDay N) with (Day N - WeekDay N) by lia.
Qed.

Lemma run_this_week N :
  a <= Day N - WeekDay N -> Day N <= b ->
  r_this_week tz (N - c) (init tz (N - c))
  = mkRange (Table.day_begin (Day N - WeekDay N) - c)
      (Table.day_end (Day N) - c) "This Week's Journal".
Proof.
  intros Ha Hb.
  unfold r_this_week, init, set_start, set_title; cbn [start end_ title].
  now apply run_week.
Qed.

Lemma run_default N :
  a <= Day N - WeekDay N -> Day N <= b ->
  r_default tz (N - c) (init tz (N - c))
  = mkRange (Table.day_begin (Day N - WeekDay N) - c)
      (Table.day_end (Day N) - c) "Weekly Journal".
Proof.
  intros Ha Hb.
  unfold r_default, init, set_start, set_title; cbn [start end_ title].
  now apply run_week.
Qed.

Lemma run_last_week N :
  a <= Day N - WeekDay N - 7 -> Day N <= b ->
  r_last_week tz (N - c) (init tz (N - c))
  = mkRange (Table.day_begin (Day N - WeekDay N - 7) - c)
      (Table.day_end (Day N - WeekDay N - 1) - c) "Last Week's Journal".
Proof.
  intros Ha Hb. pose proof (WeekDay_range N).
  assert (G : getDay tz (N - c) = WeekDay N).
  { unfold getDay. rewrite LocalTime_steady; [reflexivity | lia]. }
  unfold r_last_week, init, set_start, set_end, set_title; cbn [start end_ title].
  rewrite G.
  replace (getDate tz (N - c) - WeekDay N - 7)
    with (getDate tz (N - c) + (- WeekDay N - 7)) by lia.
  replace (getDate tz (N - c) - WeekDay N - 1)
    with (getDate tz (N - c) + (- WeekDay N - 1)) by lia.
  rewrite midnight_setDate, setDate_last_ms by lia.
  rewrite last_ms_steady by (rewrite Day_day_end; lia).
  rewrite Day_day_end. f_equal; f_equal; f_equal; lia.
Qed.

Lemma run_this_month N :
  a <= Table.first_of_month (YearFromTime N) (MonthFromTime N) -> Day N <= b ->
  r_this_month tz (N - c) (init tz (N - c))
  = mkRange
      (Table.day_begin (Table.first_of_month (YearFromTime N) (MonthFromTime N)) - c)
      (Table.day_end (Day N) - c)
      ("Journal for " ++ month_long (MonthFromTime N) ++ " "
       ++ Str.ofZ (YearFromTime N)).
Proof.
  intros Ha Hb. pose proof (DateFromTime_pos N) as D.
  rewrite first_of_month_now in *.
  assert (L : LocalTime tz (N - c) = N) by (apply LocalTime_steady; lia).
  unfold r_this_month, init, set_start, set_end, set_title; cbn [start end_ title].
  unfold getMonth, getFullYear. rewrite L.
  replace 1 with (getDate tz (N - c) + (1 - DateFromTime N)) at 1
    by (unfold getDate; rewrite L; lia).
  rewrite midnight_setDate, last_ms_steady by lia.
  f_equal. f_equal. f_equal. lia.
Qed.

Lemma run_last_month N :
  a <= Table.first_of_month (Table.prev_month_year N) (Table.prev_month N) ->
  Day N <= b ->
  r_last_month tz (N - c) (init tz (N - c))
  = mkRange
      (Table.day_begin (Table.first_of_month (Table.prev_month_year N)
                          (Table.prev_month N)) - c)
      (Table.day_end (Table.first_of_month (YearFromTime N) (MonthFromTime N) - 1)
       - c)
      ("Journal for " ++ month_long (Table.prev_month N) ++ " "
       ++ Str.ofZ (Table.prev_month_year N)).
Proof.
  intros Ha Hb. pose proof (DateFromTime_pos N) as D.
  pose proof (prev_month_before N) as B. pose proof (first_of_month_now N) as F.
  set (P := Table.first_of_month (Table.prev_month_year N) (Table.prev_month N))
    in *.
  assert (L : LocalTime tz (N - c) = N) by (apply LocalTime_steady; lia).
  unfold r_last_month, init, set_start, set_end, set_title; cbn [start end_ title].
  assert (S : midnight tz (setMonth tz (N - c) (getMonth tz (N - c) - 1) 1)
              = Table.day_begin P - c).
  { unfold setMonth, getMonth. rewrite L. unfold with_month.
    rewrite MakeDay_prev_month. fold P.
    rewrite UTC_steady
      by (rewrite Day_MakeDate by apply TimeWithinDay_range; lia).
    rewrite midnight_steady;
      rewrite Day_MakeDate by apply TimeWithinDay_range; [reflexivity | lia]. }
  rewrite S.
  destruct (first_of_month_fields (Table.prev_month_year N) (Table.prev_month N)
              (prev_month_range N)) as (Y & M & _).
  fold P in Y, M.
  unfold getMonth, getFullYear.
  rewrite (LocalTime_steady (Table.day_begin P)) by (rewrite Day_day_begin; lia).
  rewrite Y, M.
  replace 0 with (getDate tz (N - c) + (0 - DateFromTime N)) at 1
    by (unfold getDate; rewrite L; lia).
  rewrite setDate_last_ms by lia.
  f_equal. f_equal. f_equal. lia.
Qed.

Lemma run_last_days (k : Z) (ttl : string) N :
  a <= Day N - k -> Day N - k <= b -> a <= Day N <= b ->
  mkRange (midnight tz (setDate tz (N - c) (getDate tz (N - c) - k)))
    (last_ms tz (N - c)) ttl
  = mkRange (Table.day_begin (Day N - k) - c) (Table.day_end (Day N) - c) ttl.
Proof.
  intros Ha Hk HN.
  replace (getDate tz (N - c) - k) with (getDate tz (N - c) + - k) by lia.
  rewrite midnight_setDate, last_ms_steady by lia.
  now replace (Day N + - k) with (Day N - k) by lia.
Qed.

Lemma run_last_7 N :
  a <= Day N - 7 -> Day N <= b ->
  r_last_7_days tz (N - c) (init tz (N - c))
  = mkRange (Table.day_begin (Day N - 7) - c) (Table.day_end (Day N) - c)
      "Last 7 Days Journal".
Proof.
  intros Ha Hb.
  unfold r_last_7_days, init, set_start, set_title; cbn [start end_ title].
  apply (run_last_days 7); lia.
Qed.

Lemma run_last_30 N :
  a <= Day N - 30 -> Day N <= b ->
  r_last_30_days tz (N - c) (init tz (N - c))
  = mkRange (Table.day_begin (Day N - 30) - c) (Table.day_end (Day N) - c)
      "Last 30 Days Journal".
Proof.
  intros Ha Hb.
  unfold r_last_30_days, init, set_start, set_title; cbn [start end_ title].
  apply (run_last_days 30); lia.
Qed.

End Steady.

Lemma steady_fixed c a b : Zones.steady (Zones.fixed c) c a b.
Proof. intros t _. split; reflexivity. Qed.

(** From the spring of 2024 on the offset of [Zones.cairo_2024] is three
    hours. *)
Lemma steady_cairo a b :
  Day (civil 2024 4 26 0 0 0 0) < a -> Zones.steady Zones.cairo_2024 10800000 a b.
Proof.
  intros H t [Ha _]. change (Day (civil 2024 4 26 0 0 0 0)) with 19839 in H.
  unfold Zones.cairo_2024, Zones.spring_forward.
  change (civil 2024 4 25 22 0 0 0) with 1714082400000.
  unfold Day, msPerDay in Ha.
  assert (G : 19840 * 86400000 <= t)
    by (Z.to_euclidean_division_equations; lia).
  split.
  - destruct (Z.ltb_spec (t - 10800000) 1714082400000); [lia | reflexivity].
  - destruct (Z.ltb_spec t (1714082400000 + 10800000)); [lia | reflexivity].
Qed.

(** The range that the table of section 4.2 gives for a phrase, in a
    zone that is [c] ahead of UTC. *)
Lemma recognized_range (tz : Zone) (c now : Z) (dateRange p : string) :
  p = Str.trim (Str.toLowerCase dateRange) ->
  In p Table.recognized ->
  Zones.steady tz c (Table.start_day (now + c) p) (Day (now + c)) ->
  parseDateRange tz now dateRange
  = Ok (mkRange (Table.day_begin (Table.start_day (now + c) p) - c)
          (Table.day_end (Table.end_day (now + c) p) - c)
          (Table.title_of (now + c) p)).
Proof.
  intros Hp Hin. set (N := now + c). replace now with (N - c) by (unfold N; lia).
  pose proof (WeekDay_range N) as W. pose proof (DateFromTime_pos N) as D.
  pose proof (prev_month_before N) as B. pose proof (first_of_month_now N) as F.
  unfold parseDateRange. rewrite <- Hp.
  unfold Table.recognized in Hin. cbn [In] in Hin.
  destruct Hin as [H | [H | [H | [H | [H | [H | [H | [H | []]]]]]]]];
    rewrite <- H;
    cbn [Obj.get Ranges.ranges Table.start_day Table.end_day Table.title_of
           String.eqb Ascii.eqb Bool.eqb]; intros S.
  - now rewrite (run_today _ _ _ _ S) by lia.
  - now rewrite (run_yesterday _ _ _ _ S) by lia.
  - now rewrite (run_this_week _ _ _ _ S) by lia.
  - now rewrite (run_last_week _ _ _ _ S) by lia.
  - now rewrite (run_this_month _ _ _ _ S) by lia.
  - now rewrite (run_last_month _ _ _ _ S) by lia.
  - now rewrite (run_last_7 _ _ _ _ S) by lia.
  - now rewrite (run_last_30 _ _ _ _ S) by lia.
Qed.





(** *** Keys that are not in the table *)

Lemma lower_char_not_upper c : Str.is_upper (Str.lower_char c) = false.
Proof. destruct c as [[] [] [] [] [] [] [] []]; reflexivity. Qed.

Lemma toLowerCase_no_upper s : Str.has_upper (Str.toLowerCase s) = false.
Proof.
  induction s as [| c r IH]; [reflexivity |].
  cbn [Str.toLowerCase Str.has_upper]. now rewrite lower_char_not_upper, IH.
Qed.

Lemma trimStart_no_upper s :
  Str.has_upper s = false -> Str.has_upper (Str.trimStart s) = false.
Proof.
  induction s as [| c r IH]; [reflexivity |]. intros H.
  cbn [Str.trimStart]. destruct (Str.is_space c); [| exact H].
  apply IH. cbn [Str.has_upper] in H. now apply orb_false_iff in H.
Qed.

Lemma trimEnd_no_upper s :
  Str.has_upper s = false -> Str.has_upper (Str.trimEnd s) = false.
Proof.
  induction s as [| c r IH]; [reflexivity |]. intros H.
  cbn [Str.has_upper] in H. apply orb_false_iff in H as [Hc Hr].
  specialize (IH Hr). cbn [Str.trimEnd].
  destruct (Str.trimEnd r) as [| c' r'].
  - destruct (Str.is_space c); [reflexivity |].
    cbn [Str.has_upper]. now rewrite Hc.
  - cbn [Str.has_upper] in *. now rewrite Hc, IH.
Qed.

Lemma normalized_no_upper s :
  Str.has_upper (Str.trim (Str.toLowerCase s)) = false.
Proof.
  unfold Str.trim. apply trimEnd_no_upper, trimStart_no_upper,
    toLowerCase_no_upper.
Qed.

(** Of the members of [Object.prototype], only [constructor] and
    [__proto__] are written without a capital letter. *)
Lemma Object_prototype_lower k :
  Str.has_upper k = false -> k <> "constructor" -> k <> "__proto__" ->
  Obj.Object_prototype k = None.
Proof.
  intros U C1 C2. unfold Obj.Object_prototype.
  repeat match goal with
         | |- context [(k =? ?s)%string] =>
             destruct (String.eqb_spec k s) as [-> | _];
             [first [contradiction | discriminate U] |]
         end.
  reflexivity.
Qed.

Lemma ranges_unrecognized k : ~ In k Table.recognized -> Ranges.ranges k = None.
Proof.
  intros N. unfold Ranges.ranges.
  repeat match goal with
         | |- context [(k =? ?s)%string] =>
             destruct (String.eqb_spec k s) as [-> | _];
             [exfalso; apply N; cbn; tauto |]
         end.
  reflexivity.
Qed.

(** Every unrecognized phrase but [constructor] and [__proto__] takes
    the [else] branch; in a zone whose offset does not change over the
    week that is the range of "this week" under the title
    "Weekly Journal". *)
Lemma parseDateRange_else (tz : Zone) (now : Z) (dateRange : string) :
  ~ In (Str.trim (Str.toLowerCase dateRange)) Table.recognized ->
  Str.trim (Str.toLowerCase dateRange) <> "constructor" ->
  Str.trim (Str.toLowerCase dateRange) <> "__proto__" ->
  parseDateRange tz now dateRange
  = Ok (Ranges.r_default tz now (Ranges.init tz now)).
Proof.
  intros N C1 C2. unfold parseDateRange, Obj.get.
  rewrite (ranges_unrecognized _ N).
  now rewrite (Object_prototype_lower _ (normalized_no_upper dateRange) C1 C2).
Qed.

Lemma parseDateRange_fallback (tz : Zone) (c now : Z) (dateRange : string) :
  ~ In (Str.trim (Str.toLowerCase dateRange)) Table.recognized ->
  Str.trim (Str.toLowerCase dateRange) <> "constructor" ->
  Str.trim (Str.toLowerCase dateRange) <> "__proto__" ->
  Zones.steady tz c (Day (now + c) - WeekDay (now + c)) (Day (now + c)) ->
  parseDateRange tz now dateRange
  = Ok (mkRange (Table.day_begin (Day (now + c) - WeekDay (now + c)) - c)
          (Table.day_end (Day (now + c)) - c) "Weekly Journal").
Proof.
  intros N C1 C2 S. rewrite (parseDateRange_else tz now dateRange N C1 C2).
  replace now with (now + c - c) at 1 2 by lia.
  rewrite (run_default _ _ _ _ S) by lia. reflexivity.
Qed.

(** C1, at the two phrases where it fails.  [__proto__] is not one of
    the eight phrases, and [parseDateRange] throws a [TypeError] on it;
    [constructor] is not one either, and the result is neither the range
    of "this week" nor titled "Weekly Journal": [start] is left at the
    current instant and the title is empty.  That is so in every host
    zone; in a zone that is [c] ahead of UTC the two ranges are written
    out. *)
Theorem parseDateRange_inherited_keys (tz : Zone) (now : Z) :
  parseDateRange tz now "__proto__"
  = Throw (TypeError "ranges[normalizedRange] is not a function")
  /\ parseDateRange tz now "constructor"
     = Ok (mkRange now (setHours tz now 23 59 59 999) "")
  /\ (exists r, parseDateRange tz now "this week" = Ok r
                /\ title r = "This Week's Journal")
  /\ (forall c,
        parseDateRange (Zones.fixed c) now "constructor"
        = Ok (mkRange now (Table.day_end (Day (now + c)) - c) "")
        /\ parseDateRange (Zones.fixed c) now "this week"
           = Ok (mkRange (Table.day_begin (Day (now + c) - WeekDay (now + c)) - c)
                   (Table.day_end (Day (now + c)) - c) "This Week's Journal")).
Proof.
  split; [reflexivity | split; [reflexivity | split]].
  - eexists. split; reflexivity.
  - intros c. split.
    + unfold parseDateRange.
      change (Str.trim (Str.toLowerCase "constructor")) with "constructor".
      cbn [Obj.get Ranges.ranges String.eqb Ascii.eqb Bool.eqb Obj.Object_prototype
             Obj.call_inherited].
      unfold Ranges.init. replace now with (now + c - c) at 2 by lia.
      rewrite (last_ms_steady _ _ _ _ (steady_fixed c (Day (now + c)) (Day (now + c))))
        by lia.
      reflexivity.
    + apply (recognized_range (Zones.fixed c) c now "this week" "this week" eq_refl).
      * cbn. tauto.
      * apply steady_fixed.
Qed.

End RangeFacts.

(* ================================================================== *)
(** ** Strings and loops that append *)
(* ================================================================== *)

Module StrFacts.

Lemma app_nil_r (s : string) : s ++ "" = s.
Proof. induction s as [| c r IH]; cbn; [reflexivity | now rewrite IH]. Qed.

Lemma app_assoc (a b c : string) : (a ++ b) ++ c = a ++ b ++ c.
Proof. induction a as [| x r IH]; cbn; [reflexivity | now rewrite IH]. Qed.

Lemma concat_all_app (l1 l2 : list string) :
  Str.concat_all (l1 ++ l2) = Str.concat_all l1 ++ Str.concat_all l2.
Proof.
  unfold Str.concat_all.
  induction l1 as [| x r IH]; cbn [List.app fold_right String.append];
    [reflexivity |].
  now rewrite IH, app_assoc.
Qed.

(** A loop that appends one piece per element builds the concatenation
    of the pieces after what was there. *)
Lemma fold_left_append {X} (f : X -> string) (l : list X) (acc : string) :
  fold_left (fun text x => text ++ f x) l acc = acc ++ Str.concat_all (map f l).
Proof.
  unfold Str.concat_all.
  revert acc. induction l as [| x r IH]; intros acc; cbn [fold_left map fold_right].
  - now rewrite app_nil_r.
  - now rewrite IH, app_assoc.
Qed.

End StrFacts.

(* ================================================================== *)
(** ** processBlocks *)
(* ================================================================== *)

Module BlockFacts.

Import StrFacts.

Lemma processBlocks_concat blocks indent :
  processBlocks blocks indent = Str.concat_all (map (processBlock indent) blocks).
Proof. unfold processBlocks. now rewrite fold_left_append. Qed.

(** The equation of the loop body: the recursive call is
    [processBlocks] on the children, one level deeper. *)
Lemma processBlock_eq indent c ch :
  processBlock indent (mkBlock c ch)
  = if Str.truthy c then bullet indent c ++ processBlocks ch (S indent) else "".
Proof.
  cbn [processBlock]. destruct (Str.truthy c); [| reflexivity]. f_equal.
  assert (L : forall bs text,
             (fix loop (bs : list Block) (text : string) {struct bs} : string :=
                match bs with
                | [] => text
                | b :: rest => loop rest (text ++ processBlock (S indent) b)
                end) bs text
             = fold_left (fun text block => text ++ processBlock (S indent) block)
                 bs text).
  { induction bs as [| b r IH]; intros text; cbn; [reflexivity | apply IH]. }
  rewrite L. destruct ch as [| b r]; reflexivity.
Qed.

Lemma walk_dead_block b : forall depth,
  filter reached (walkBlock false depth b) = [].
Proof.
  induction b as [c ch IH] using Block_forall_ind. intros depth.
  cbn [walkBlock filter].
  change (reached (false, depth, c)) with false. cbn [andb].
  induction IH as [| b r Hb _ IHr]; cbn [flat_map]; [reflexivity |].
  now rewrite filter_app, Hb, IHr.
Qed.

Lemma flat_map_pieces {X Y} (f : X -> list Y) (g : Y -> string)
  (keep : Y -> bool) (h : X -> string) (l : list X) :
  Forall (fun x => h x = Str.concat_all (map g (filter keep (f x)))) l ->
  Str.concat_all (map h l) = Str.concat_all (map g (filter keep (flat_map f l))).
Proof.
  induction 1 as [| x r Hx _ IH]; cbn [map flat_map Str.concat_all fold_right];
    [reflexivity |].
  rewrite filter_app, map_app, concat_all_app, Hx. f_equal. exact IH.
Qed.

Lemma processBlock_walk b : forall indent,
  processBlock indent b
  = Str.concat_all (map bullet_of (filter reached (walkBlock true indent b))).
Proof.
  induction b as [c ch IH] using Block_forall_ind. intros indent.
  rewrite processBlock_eq. cbn [walkBlock filter].
  change (reached (true, indent, c)) with (Str.truthy c).
  destruct (Str.truthy c) eqn:T.
  - cbn [map Str.concat_all fold_right bullet_of fst snd]. f_equal.
    rewrite processBlocks_concat. apply flat_map_pieces.
    eapply Forall_impl; [| exact IH]. intros b Hb. apply Hb.
  - assert (D : filter reached (flat_map (walkBlock false (S indent)) ch) = []).
    { clear. induction ch as [| b r IHr]; cbn [flat_map]; [reflexivity |].
      now rewrite filter_app, walk_dead_block, IHr. }
    cbn [andb]. now rewrite D.
Qed.

Lemma processBlocks_walk blocks indent :
  processBlocks blocks indent
  = Str.concat_all (map bullet_of (filter reached (walk blocks indent))).
Proof.
  rewrite processBlocks_concat. unfold walk. apply flat_map_pieces.
  apply Forall_forall. intros b _. apply processBlock_walk.
Qed.

(** C3, amended.  [processBlocks] renders, in depth-first pre-order, the
    nodes that have text and whose ancestors all have text, each as a
    bullet line indented by two spaces per level of depth; a node with
    empty content gives no line, and neither does any node below it. *)
Theorem processBlocks_preorder (blocks : list Block) (indent : nat) :
  processBlocks blocks indent
  = Str.concat_all (map bullet_of (filter reached (walk blocks indent))).
Proof. apply processBlocks_walk. Qed.

(** The rendering of the specification keeps every node that has text,
    whatever its ancestors. *)
Lemma specRenderBlock_walk b : forall live indent,
  specRenderBlock indent b
  = Str.concat_all (map bullet_of (filter has_text (walkBlock live indent b))).
Proof.
  induction b as [c ch IH] using Block_forall_ind. intros live indent.
  cbn [specRenderBlock walkBlock filter].
  change (has_text (live, indent, c)) with (Str.truthy c).
  assert (R : Str.concat_all (map (specRenderBlock (S indent)) ch)
              = Str.concat_all
                  (map bullet_of
                     (filter has_text
                        (flat_map (walkBlock (live && Str.truthy c) (S indent)) ch)))).
  { apply flat_map_pieces. eapply Forall_impl; [| exact IH].
    intros b Hb. apply Hb. }
  rewrite R. destruct (Str.truthy c); reflexivity.
Qed.

Lemma specRender_preorder blocks indent :
  specRender blocks indent
  = Str.concat_all (map bullet_of (filter has_text (walk blocks indent))).
Proof.
  unfold specRender, walk. apply flat_map_pieces.
  apply Forall_forall. intros b _. apply specRenderBlock_walk.
Qed.

(** On a forest in which every node has text the two renderings agree. *)
Lemma walk_all_text b : forall depth,
  all_text b = true ->
  filter reached (walkBlock true depth b) = filter has_text (walkBlock true depth b).
Proof.
  induction b as [c ch IH] using Block_forall_ind. intros depth H.
  cbn [all_text] in H. apply andb_true_iff in H as [Hc Hch].
  cbn [walkBlock filter].
  change (reached (true, depth, c)) with (Str.truthy c).
  change (has_text (true, depth, c)) with (Str.truthy c).
  rewrite Hc. cbn [andb]. f_equal.
  induction IH as [| b r Hb _ IHr]; cbn [flat_map]; [reflexivity |].
  apply andb_true_iff in Hch as [Hb1 Hr].
  rewrite !filter_app, (Hb _ Hb1), (IHr Hr). reflexivity.
Qed.

Lemma processBlocks_all_text blocks indent :
  forallb all_text blocks = true ->
  processBlocks blocks indent = specRender blocks indent.
Proof.
  intros H. rewrite processBlocks_walk, specRender_preorder.
  f_equal. f_equal. unfold walk.
  induction blocks as [| b r IH]; cbn [flat_map]; [reflexivity |].
  cbn [forallb] in H. apply andb_true_iff in H as [Hb Hr].
  now rewrite !filter_app, (walk_all_text _ _ Hb), (IH Hr).
Qed.

(** C3 fails as stated: under a block with empty content the child is
    not rendered, while the specification renders it. *)
Lemma processBlocks_drops_children :
  processBlocks empty_parent 0 = "- sibling" ++ Str.nl
  /\ specRender empty_parent 0 = "  - child" ++ Str.nl ++ "- sibling" ++ Str.nl
  /\ processBlocks empty_parent 0 <> specRender empty_parent 0.
Proof. repeat split. discriminate. Qed.

Example processBlocks_three_levels :
  processBlocks three_levels 0
  = "- a" ++ Str.nl ++ "  - b" ++ Str.nl ++ "    - c" ++ Str.nl
    ++ "  - d" ++ Str.nl ++ "- e" ++ Str.nl.
Proof. reflexivity. Qed.

End BlockFacts.

(* ================================================================== *)
(** ** buildDatalogQuery *)
(* ================================================================== *)

Module QueryFacts.

Lemma queries_outside_catalog nowMs params k :
  ~ In k Queries.catalog -> Queries.queries nowMs params k = None.
Proof.
  intros N. unfold Queries.queries.
  repeat match goal with
         | |- context [(k =? ?s)%string] =>
             destruct (String.eqb_spec k s) as [-> | _];
             [exfalso; apply N; cbn; tauto |]
         end.
  reflexivity.
Qed.

Lemma buildDatalogQuery_pages nowMs params :
  buildDatalogQuery nowMs "pages" params = QText Queries.q_pages.
Proof. reflexivity. Qed.

(** A key outside the catalog that names no member of
    [Object.prototype] falls back to the template of all pages when no
    [custom] text is given. *)
Lemma buildDatalogQuery_fallback nowMs queryType params :
  ~ In queryType Queries.catalog ->
  Obj.Object_prototype queryType = None ->
  p_custom params = None ->
  buildDatalogQuery nowMs queryType params
  = buildDatalogQuery nowMs "pages" no_params.
Proof.
  intros N O C. unfold buildDatalogQuery at 1. unfold Obj.get at 1.
  rewrite (queries_outside_catalog _ _ _ N), O.
  unfold Queries.custom_value. rewrite C. reflexivity.
Qed.

(** A key outside the catalog that names a member of
    [Object.prototype] gives that member, whatever the bag holds. *)
Lemma buildDatalogQuery_member nowMs queryType params m :
  ~ In queryType Queries.catalog ->
  Obj.Object_prototype queryType = Some m ->
  buildDatalogQuery nowMs queryType params = QMember m.
Proof.
  intros N O. unfold buildDatalogQuery at 1. unfold Obj.get at 1.
  now rewrite (queries_outside_catalog _ _ _ N), O.
Qed.

(** Whatever the key and the bag, the function returns a value that
    is not [undefined]. *)
Lemma buildDatalogQuery_defined nowMs queryType params :
  buildDatalogQuery nowMs queryType params <> QUndefined.
Proof.
  unfold buildDatalogQuery, Queries.or_else.
  destruct (Queries.truthy (Queries.read (Obj.get _ queryType))) eqn:T1.
  - cbn [Queries.truthy]. rewrite T1. intros E. rewrite E in T1. discriminate.
  - destruct (Queries.truthy (Queries.custom_value params)) eqn:T2.
    + intros E. rewrite E in T2. discriminate.
    + discriminate.
Qed.

(** C4, amended.  For a key that is not one of the ten catalog keys
    and does not name a member of [Object.prototype], and a bag without
    a [custom] entry, the function returns the text that it returns for
    the key [pages] and an empty bag, the template of all pages.  It
    raises no error on any key: it returns a value on every key and
    every bag. *)
Theorem buildDatalogQuery_unknown_key (nowMs : Z) (queryType : string)
  (params : Params) :
  ~ In queryType Queries.catalog ->
  Obj.Object_prototype queryType = None ->
  p_custom params = None ->
  buildDatalogQuery nowMs queryType params
  = buildDatalogQuery nowMs "pages" no_params
  /\ buildDatalogQuery nowMs "pages" no_params
     = QText "[:find (pull ?p [*]) :where [?p :block/name]]"
  /\ (forall k p, buildDatalogQuery nowMs k p <> QUndefined).
Proof.
  intros N O C. split; [now apply buildDatalogQuery_fallback |].
  split; [reflexivity |]. intros k p. apply buildDatalogQuery_defined.
Qed.

Lemma buildDatalogQuery_unknown_key_witness :
  buildDatalogQuery 0 "all_the_pages" (mkParams None None None (Some "x") None None None)
  = QText "[:find (pull ?p [*]) :where [?p :block/name]]".
Proof.
  destruct (buildDatalogQuery_unknown_key 0 "all_the_pages"
              (mkParams None None None (Some "x") None None None)) as (E & P & _).
  - cbn. intros H. repeat (destruct H as [H | H]; [discriminate H |]). exact H.
  - reflexivity.
  - reflexivity.
  - rewrite E. exact P.
Defined.

(** C4 fails as stated.  [constructor] is not a catalog key and the
    bag has no [custom] entry, yet the value handed back is the
    inherited member [Object.prototype.constructor], not the template
    that [build('pages', {})] returns. *)
Lemma buildDatalogQuery_inherited_key :
  ~ In "constructor" Queries.catalog
  /\ p_custom no_params = None
  /\ buildDatalogQuery 0 "constructor" no_params = QMember Obj.constructor_
  /\ buildDatalogQuery 0 "pages" no_params = QText Queries.q_pages
  /\ buildDatalogQuery 0 "constructor" no_params
     <> buildDatalogQuery 0 "pages" no_params.
Proof.
  repeat split; try discriminate.
  cbn. intros H. repeat (destruct H as [H | H]; [discriminate H |]). exact H.
Qed.

End QueryFacts.

(* ================================================================== *)
(** ** Remote calls and tool handlers *)
(* ================================================================== *)

Module ApiFacts.

Section Running.

Context {S : Type} (respond : S -> Request -> S * FetchResult).

(** Running [m] and then [f]: the traces follow each other, and a throw
    of [m] skips [f]. *)
Lemma run_bind {A B} (m : Api A) (f : A -> Api B) (s : S) :
  run respond (bind m f) s
  = match run respond m s with
    | (t1, s1, Ok a) =>
        let '(t2, s2, o) := run respond (f a) s1 in ((t1 ++ t2)%list, s2, o)
    | (t1, s1, Throw e) => (t1, s1, Throw e)
    end.
Proof.
  revert s. induction m as [a | e | r k IH]; intros s; cbn [bind run].
  - destruct (run respond (f a) s) as [[t2 s2] o]. reflexivity.
  - reflexivity.
  - destruct (respond s r) as [s1 res]. rewrite IH.
    destruct (run respond (k res) s1) as [[t1 s2] [a | e]].
    + destruct (run respond (f a) s2) as [[t2 s3] o]. reflexivity.
    + reflexivity.
Qed.

(** Running [try { m } catch (e) { h e }]. *)
Lemma run_catch {A} (m : Api A) (h : Thrown -> Api A) (s : S) :
  run respond (catch m h) s
  = match run respond m s with
    | (t1, s1, Ok a) => (t1, s1, Ok a)
    | (t1, s1, Throw e) =>
        let '(t2, s2, o) := run respond (h e) s1 in ((t1 ++ t2)%list, s2, o)
    end.
Proof.
  revert s. induction m as [a | e | r k IH]; intros s; cbn [catch run].
  - reflexivity.
  - destruct (run respond (h e) s) as [[t2 s2] o]. reflexivity.
  - destruct (respond s r) as [s1 res]. rewrite IH.
    destruct (run respond (k res) s1) as [[t1 s2] [a | e]].
    + reflexivity.
    + destruct (run respond (h e) s2) as [[t2 s3] o]. reflexivity.
Qed.

(** A tool handler makes the requests of its body and ends in a text. *)
Lemma run_tool (prefix : string) (body : Api string) (s : S) :
  run respond (tool prefix body) s
  = (trace_of (run respond body s), state_of (run respond body s),
     Ok (text_of_outcome prefix (outcome_of (run respond body s)))).
Proof.
  unfold tool. rewrite run_catch.
  destruct (run respond body s) as [[t1 s1] [a | e]]; cbn; [reflexivity |].
  now rewrite app_nil_r.
Qed.

Lemma tool_returns (prefix : string) (body : Api string) (s : S) :
  returns (outcome_of (run respond (tool prefix body) s)) = true.
Proof. now rewrite run_tool. Qed.

(** One call that the remote answers. *)
Lemma run_call_answered env method args s s1 res v :
  respond s (request env method args) = (s1, res) ->
  answer res = Some v ->
  run respond (callLogseqApi env method args) s
  = ([request env method args], s1, Ok v).
Proof.
  intros R A. unfold callLogseqApi. cbn [run].
  rewrite R.
  destruct res as [e | status statusText [b |] | status statusText message];
    cbn in A; try discriminate.
  destruct (response_ok status); [| discriminate].
  injection A as ->. reflexivity.
Qed.

(** One call that the remote refuses with a 401. *)
Lemma run_call_refused env method args s s1 statusText body :
  respond s (request env method args) = (s1, Responded 401 statusText body) ->
  run respond (callLogseqApi env method args) s
  = ([request env method args], s1, Throw (Error (auth_failed_message env))).
Proof.
  intros R. unfold callLogseqApi. cbn [run].
  rewrite R. reflexivity.
Qed.

End Running.

(** *** A remote that refuses every request *)

Section Refused.

Context {S : Type} (respond : S -> Request -> S * FetchResult).
Context (env : Env).
Hypothesis all_401 : refuses_all respond.

Lemma refused_call method args :
  always_refused respond env (callLogseqApi env method args).
Proof.
  intros s. destruct (all_401 s (request env method args)) as (s1 & txt & b & R).
  unfold refused. now rewrite (run_call_refused _ _ _ _ _ _ _ _ R).
Qed.

Lemma refused_bind {A B} (m : Api A) (f : A -> Api B) :
  always_refused respond env m -> always_refused respond env (bind m f).
Proof.
  intros H s. specialize (H s). unfold refused in *. rewrite run_bind.
  destruct (run respond m s) as [[t1 s1] [a | e]];
    cbn [outcome_of trace_of state_of fst snd] in *; [discriminate |].
  now injection H as ->.
Qed.

Lemma closed_of_refused {A} (m : Api A) :
  always_refused respond env m -> fails_closed respond env m.
Proof. intros H s. right. apply H. Qed.

Lemma closed_ret {A} (a : A) : fails_closed respond env (Ret a).
Proof. intros s. left. split; reflexivity. Qed.

Lemma closed_raise {A} (e : Thrown) : fails_closed respond env (@Raise A e).
Proof. intros s. left. split; reflexivity. Qed.

Lemma closed_lift {A} (o : Outcome A) : fails_closed respond env (lift o).
Proof. destruct o; [apply closed_ret | apply closed_raise]. Qed.

Lemma closed_bind {A B} (m : Api A) (f : A -> Api B) :
  fails_closed respond env m ->
  (forall a, fails_closed respond env (f a)) ->
  fails_closed respond env (bind m f).
Proof.
  intros Hm Hf s. specialize (Hm s). unfold quiet_or_refused in *.
  rewrite run_bind.
  destruct (run respond m s) as [[t1 s1] [a | e]];
    cbn [outcome_of trace_of state_of fst snd] in *.
  - destruct Hm as [[-> ->] | Hm]; [| discriminate].
    specialize (Hf a s).
    destruct (run respond (f a) s) as [[t2 s2] o]. exact Hf.
  - destruct Hm as [[-> ->] | Hm]; [left; split; reflexivity |].
    right. now injection Hm as ->.
Qed.

Lemma closed_catch {A} (m : Api A) (h : Thrown -> Api A) :
  fails_closed respond env m ->
  (forall e, always_refused respond env (h e)) ->
  fails_closed respond env (catch m h).
Proof.
  intros Hm Hh s. specialize (Hm s). unfold quiet_or_refused in *.
  rewrite run_catch.
  destruct (run respond m s) as [[t1 s1] [a | e]];
    cbn [outcome_of trace_of state_of fst snd] in *.
  - destruct Hm as [Hm | Hm]; [left; exact Hm | discriminate].
  - right. specialize (Hh e s1). unfold refused in Hh.
    destruct (run respond (h e) s1) as [[t2 s2] o]. exact Hh.
Qed.

Lemma closed_gather (pf : Platform) (clock : Clock) (a : QueryArgs) :
  fails_closed respond env (Query.gather pf env clock a).
Proof.
  unfold Query.gather, Query.datascriptQuery.
  destruct (q_mode a);
    repeat first
      [ apply closed_ret
      | apply closed_lift
      | apply closed_of_refused, refused_bind, refused_call
      | apply closed_of_refused, refused_call
      | apply closed_catch; [| intros; apply refused_call]
      | apply closed_bind; [| intros]
      | match goal with
        | |- fails_closed respond env (if ?c then _ else _) => destruct c
        | |- fails_closed respond env (match ?x with _ => _ end) => destruct x
        end ].
Qed.

Lemma closed_body (pf : Platform) (clock : Clock) (a : QueryArgs) :
  fails_closed respond env (Query.body pf env clock a).
Proof.
  unfold Query.body. apply closed_bind; [apply closed_gather |].
  intros [text | results]; [apply closed_ret |].
  apply closed_bind; [apply closed_lift | intros; apply closed_lift].
Qed.

End Refused.

Lemma prefix_refl s : prefix s s = true.
Proof.
  induction s as [| c r IH]; cbn; [reflexivity |].
  destruct (ascii_dec c c); [exact IH | congruence].
Qed.

Lemma includes_self s : Str.includes s s = true.
Proof. destruct s; cbn [Str.includes]; now rewrite prefix_refl. Qed.

Lemma includes_app_r a b : Str.includes (a ++ b) b = true.
Proof.
  induction a as [| c r IH]; cbn [String.append].
  - apply includes_self.
  - cbn [Str.includes]. rewrite IH. apply orb_true_r.
Qed.

Lemma includes_app_l a b t :
  Str.includes b t = true -> Str.includes (a ++ b) t = true.
Proof.
  intros H. induction a as [| c r IH]; cbn [String.append]; [exact H |].
  cbn [Str.includes]. rewrite IH. apply orb_true_r.
Qed.

(** The message of a 401 names the token setting and ends with the URL
    of the API, which is made of the host and the port unless it is
    set as a whole. *)
Lemma auth_message_guidance env :
  Str.includes (auth_failed_message env) "Authorization token" = true
  /\ Str.includes (auth_failed_message env) (LOGSEQ_API_URL env) = true
  /\ (env_LOGSEQ_API_URL env = None ->
      LOGSEQ_API_URL env
      = "http://" ++ LOGSEQ_HOST env ++ ":" ++ LOGSEQ_PORT env ++ "/api").
Proof.
  split; [| split].
  - unfold auth_failed_message. vm_compute. reflexivity.
  - unfold auth_failed_message.
    rewrite <- !StrFacts.app_assoc. apply includes_app_r.
  - intros E. unfold LOGSEQ_API_URL. now rewrite E.
Qed.



(** *** The limit filter *)

Lemma run_lift {S A} (respond : S -> Request -> S * FetchResult) (o : Outcome A) s :
  run respond (lift o) s = ([], s, o).
Proof. destruct o; reflexivity. Qed.

(** A positive limit below the number of rows keeps the first [limit]
    rows, in their order. *)
Lemma apply_limit_truncates pf (fl : Filters) (rows : list JSValue) (limit : Z) :
  f_limit fl = Some limit ->
  0 < limit < Z.of_nat (List.length rows) ->
  Query.apply_limit pf (Some fl) (JArr rows)
  = Ok (JArr (firstn (Z.to_nat limit) rows)).
Proof.
  intros L B. unfold Query.apply_limit, Query.limit_of, Query.filter_field.
  rewrite L. destruct (Z.eqb_spec limit 0) as [E | _]; [lia |].
  cbn [Query.length_of obind]. unfold Query.greater. cbn [to_number].
  destruct (Z.ltb_spec limit (Z.of_nat (List.length rows))) as [_ | N]; [| lia].
  unfold JS.slice0, JS.slice_count.
  destruct (Z.ltb_spec limit 0) as [N | _]; [lia |].
  now rewrite Z.min_l by lia.
Qed.

(** A limit that is absent, zero, or not below the number of rows
    leaves the rows as they are. *)
Lemma apply_limit_keeps pf (filters : option Filters) (rows : list JSValue) :
  match Query.limit_of filters with
  | Some limit => Z.of_nat (List.length rows) <= limit
  | None => True
  end ->
  Query.apply_limit pf filters (JArr rows) = Ok (JArr rows).
Proof.
  unfold Query.apply_limit. destruct (Query.limit_of filters) as [limit |];
    [| reflexivity].
  intros B. cbn [Query.length_of obind]. unfold Query.greater. cbn [to_number].
  destruct (Z.ltb_spec limit (Z.of_nat (List.length rows))); [lia | reflexivity].
Qed.

(** C9.  In datalog mode, when the raw query answers with more rows
    than a positive [filters.limit], the handler makes that one request
    and formats exactly the first [limit] rows, in their original order;
    with a limit of 5 and 9 rows those are the first 5. *)
Theorem query_limit_truncates {S : Type}
  (respond : S -> Request -> S * FetchResult) (pf : Platform) (env : Env)
  (clock : Clock) (q : string) (fl : Filters) (out : option Output.t)
  (rows : list JSValue) (limit : Z) (s s1 : S) (res : FetchResult) :
  Str.truthy q = true ->
  f_limit fl = Some limit ->
  respond s (request env "logseq.DB.datascriptQuery" [JStr q]) = (s1, res) ->
  answer res = Some (JArr rows) ->
  0 < limit < Z.of_nat (List.length rows) ->
  let a := mkQueryArgs Mode.datalog (Some q) (Some fl) out in
  let kept := firstn (Z.to_nat limit) rows in
  run respond (logseq_query pf env clock a) s
  = ([request env "logseq.DB.datascriptQuery" [JStr q]], s1,
     Ok (text_of_outcome "Query error: "
           (Query.format pf (Query.output_of a) (JArr kept))))
  /\ Z.of_nat (List.length kept) = limit
  /\ (exists dropped, rows = (kept ++ dropped)%list).
Proof.
  intros Hq Hl Hr Ha Hb a kept.
  split; [| split].
  - unfold logseq_query. rewrite run_tool. unfold Query.body.
    rewrite run_bind. unfold Query.gather. cbn [q_mode q_query a].
    unfold Query.given. rewrite Hq. cbn [negb Query.text_of].
    rewrite run_bind, (run_call_answered _ _ _ _ _ _ _ _ Hr Ha). cbn [run app].
    rewrite run_bind, run_lift. cbn [q_filters a].
    rewrite (apply_limit_truncates pf fl rows limit Hl Hb).
    rewrite run_lift. cbn [app trace_of state_of outcome_of fst snd].
    reflexivity.
  - unfold kept. rewrite length_firstn. lia.
  - exists (skipn (Z.to_nat limit) rows). unfold kept.
    now rewrite firstn_skipn.
Qed.

Lemma query_limit_truncates_witness :
  outcome_of
    (run (answering (JArr Rows.sample9))
       (logseq_query bare_platform default_env (mkClock 0 Zones.utc)
          (mkQueryArgs Mode.datalog (Some "[:find (pull ?p [*])]")
             (Some (mkFilters None None None None None (Some 5)))
             (Some Output.names))) tt)
  = Ok ("p1" ++ Str.nl ++ "p2" ++ Str.nl ++ "p3" ++ Str.nl ++ "p4" ++ Str.nl ++ "p5").
Proof.
  destruct (query_limit_truncates (answering (JArr Rows.sample9)) bare_platform
              default_env (mkClock 0 Zones.utc) "[:find (pull ?p [*])]"
              (mkFilters None None None None None (Some 5)) (Some Output.names)
              Rows.sample9 5 tt tt (Responded 200 "OK" (Some (JArr Rows.sample9)))
              eq_refl eq_refl eq_refl eq_refl (conj eq_refl eq_refl))
    as (E & _).
  rewrite E. vm_compute. reflexivity.
Defined.

(** *** Appending to the journal *)

Section Journal.

Context {S : Type} (respond : S -> Request -> S * FetchResult).
Context (env : Env).
Hypothesis all_ok : answers_all respond.

(** A call followed by the rest of the handler, on a remote that
    answers every call. *)
Lemma run_call_then {A} method args (k : JSValue -> Api A) (s : S) :
  exists s1 v,
    answer (snd (respond s (request env method args))) = Some v
    /\ fst (respond s (request env method args)) = s1
    /\ run respond (bind (callLogseqApi env method args) k) s
       = (request env method args :: trace_of (run respond (k v) s1),
          state_of (run respond (k v) s1), outcome_of (run respond (k v) s1)).
Proof.
  pose proof (all_ok s (request env method args)) as A0.
  destruct (respond s (request env method args)) as [s1 res] eqn:R.
  cbn [snd fst] in *.
  destruct (answer res) as [v |] eqn:Av; [| contradiction].
  exists s1, v. repeat split.
  rewrite run_bind, (run_call_answered _ _ _ _ _ _ _ _ R Av).
  destruct (run respond (k v) s1) as [[t2 s2] o]. reflexivity.
Qed.

End Journal.

(** The name of a journal page: the short month in lower case, the day
    with its ordinal suffix, and the year, all read on the local
    clock. *)
Lemma formatJournalDate_shape (tz : JsDate.Zone) (date : Z) :
  formatJournalDate tz date
  = journal_name (JsDate.getMonth tz date) (JsDate.getDate tz date)
      (JsDate.getFullYear tz date).
Proof.
  unfold formatJournalDate, journal_name, JsDate.getMonth, JsDate.getDate,
    JsDate.getFullYear.
  set (t := JsDate.LocalTime tz date).
  pose proof (DateFacts.DateFromTime_pos t) as L.
  pose proof (DateFacts.DateFromTime_le_31 t) as U.
  pose proof (DateFacts.MonthFromTime_range t) as M.
  set (d := JsDate.DateFromTime t) in *. set (m := JsDate.MonthFromTime t) in *.
  f_equal.
  - assert (C : m = 0 \/ m = 1 \/ m = 2 \/ m = 3 \/ m = 4 \/ m = 5 \/ m = 6
                \/ m = 7 \/ m = 8 \/ m = 9 \/ m = 10 \/ m = 11) by lia.
    clearbody m.
    repeat (destruct C as [C | C]; [subst m; reflexivity |]). subst m. reflexivity.
  - do 3 f_equal.
    assert (C : d = 1 \/ d = 2 \/ d = 3 \/ d = 4 \/ d = 5 \/ d = 6 \/ d = 7
                \/ d = 8 \/ d = 9 \/ d = 10 \/ d = 11 \/ d = 12 \/ d = 13
                \/ d = 14 \/ d = 15 \/ d = 16 \/ d = 17 \/ d = 18 \/ d = 19
                \/ d = 20 \/ d = 21 \/ d = 22 \/ d = 23 \/ d = 24 \/ d = 25
                \/ d = 26 \/ d = 27 \/ d = 28 \/ d = 29 \/ d = 30 \/ d = 31)
      by lia.
    clearbody d.
    repeat (destruct C as [C | C]; [subst d; reflexivity |]). subst d. reflexivity.
Qed.

Example formatJournalDate_docstring :
  formatJournalDate Zones.utc (JsDate.civil 2025 3 14 9 0 0 0) = "mar 14th, 2025".
Proof. reflexivity. Qed.

(** The scenario on the store of pages: the page of today is absent,
    and afterwards it exists, flagged as a journal, with the two blocks
    in order. *)
Example append_to_journal_on_store :
  run Store.respond
    (logseq_write_append_to_journal bare_platform default_env
       (mkClock (JsDate.civil 2025 3 14 9 0 0 0) Zones.utc) "today"
       (Some ("buy milk" ++ Str.nl ++ "call mom"))) []
  = ([request default_env "logseq.Editor.getPage" [JStr "mar 14th, 2025"];
      request default_env "logseq.Editor.createPage"
        [JStr "mar 14th, 2025"; JObj [("journal?", JBool true)]];
      request default_env "logseq.Editor.appendBlockInPage"
        [JStr "mar 14th, 2025"; JStr "buy milk"];
      request default_env "logseq.Editor.appendBlockInPage"
        [JStr "mar 14th, 2025"; JStr "call mom"]],
     [Store.mkPage "mar 14th, 2025" (JObj [("journal?", JBool true)])
        ["buy milk"; "call mom"]],
     Ok ("Added 2 block(s) to journal " ++ Str.dq ++ "mar 14th, 2025" ++ Str.dq
         ++ ".")).
Proof. vm_compute. reflexivity. Qed.

(** C5.  [write(append_to_journal, "today", "buy milk\ncall mom")]
    against a remote on which every call succeeds and which has no page
    named for today: the handler asks for the page, creates it with the
    journal flag, appends the two lines in order with one call each, and
    reports two blocks added to the journal of today's name.  The name
    is made of the fields of today's date on the local clock: the short
    English month in lower case (jan to dec), a space, the day of the
    month (1 to 31) with its ordinal suffix (st, nd, rd or th), a comma,
    a space and the year. *)
Theorem append_to_journal_today {S : Type}
  (respond : S -> Request -> S * FetchResult) (pf : Platform) (env : Env)
  (clock : Clock) (s0 : S) (page : JSValue) :
  let today := JsDate.LocalTime (LocalTZA clock) (Date_now clock) in
  let month := JsDate.MonthFromTime today in
  let day := JsDate.DateFromTime today in
  let year := JsDate.YearFromTime today in
  let name := nth (Z.to_nat month) short_months "" ++ " " ++ Str.ofZ day
              ++ ordinal day ++ ", " ++ Str.ofZ year in
  answers_all respond ->
  answer (snd (respond s0 (request env "logseq.Editor.getPage" [JStr name])))
  = Some page ->
  JS.truthy page = false ->
  let res := run respond
               (logseq_write_append_to_journal pf env clock "today"
                  (Some ("buy milk" ++ Str.nl ++ "call mom"))) s0 in
  trace_of res
  = [request env "logseq.Editor.getPage" [JStr name];
     request env "logseq.Editor.createPage"
       [JStr name; JObj [("journal?", JBool true)]];
     request env "logseq.Editor.appendBlockInPage" [JStr name; JStr "buy milk"];
     request env "logseq.Editor.appendBlockInPage" [JStr name; JStr "call mom"]]
  /\ outcome_of res
     = Ok ("Added 2 block(s) to journal " ++ Str.dq ++ name ++ Str.dq ++ ".")
  /\ 0 <= month <= 11
  /\ 1 <= day <= 31.
Proof.
  intros today month day year name Hok Habs Hfalsy res. subst res.
  assert (Hname : Write.journalPageName pf clock "today" = name).
  { unfold Write.journalPageName. cbn [String.eqb Ascii.eqb Bool.eqb].
    now rewrite formatJournalDate_shape. }
  assert (B : 0 <= month <= 11 /\ 1 <= day <= 31).
  { split; [apply DateFacts.MonthFromTime_range |].
    split; [apply DateFacts.DateFromTime_pos | apply DateFacts.DateFromTime_le_31]. }
  clearbody month day year. clear today.
  unfold logseq_write_append_to_journal. rewrite run_tool.
  unfold Write.append_to_journal.
  change (Query.given (Some ("buy milk" ++ Str.nl ++ "call mom"))) with true.
  cbn [negb]. rewrite Hname. clearbody name.
  change (Write.lines_of (Query.text_of (Some ("buy milk" ++ Str.nl ++ "call mom"))))
    with ["buy milk"; "call mom"].
  cbn [for_each List.length].
  match goal with
  | |- context [run respond (bind (callLogseqApi env ?m ?a) ?k) s0] =>
      destruct (run_call_then respond env Hok m a k s0) as (s1 & v & A1 & _ & ->)
  end.
  rewrite Habs in A1. injection A1 as <-.
  rewrite Hfalsy. cbn [negb].
  set (t := trace_of _). set (o := outcome_of _).
  assert (T : t = [request env "logseq.Editor.getPage" [JStr name];
     request env "logseq.Editor.createPage"
       [JStr name; JObj [("journal?", JBool true)]];
     request env "logseq.Editor.appendBlockInPage" [JStr name; JStr "buy milk"];
     request env "logseq.Editor.appendBlockInPage" [JStr name; JStr "call mom"]]
     /\ o = Ok ("Added 2 block(s) to journal " ++ Str.dq ++ name ++ Str.dq ++ ".")).
  { subst t o. cbn [trace_of outcome_of state_of fst snd].
    rewrite !run_bind.
    repeat match goal with
    | |- context [run respond (callLogseqApi env ?m ?a) ?s] =>
        let A0 := fresh "A" in
        let R := fresh "R" in
        pose proof (Hok s (request env m a)) as A0;
        destruct (respond s (request env m a)) as [? ?] eqn:R; cbn [snd] in A0;
        match type of A0 with
        | answer ?r <> None =>
            let Av := fresh "Av" in
            destruct (answer r) eqn:Av; [| contradiction];
            rewrite (run_call_answered _ _ _ _ _ _ _ _ R Av)
        end;
        cbn [run bind app fst snd]; rewrite ?run_bind
    end.
    cbn [run app fst snd]. split; reflexivity. }
  destruct T as [-> ->]. split; [reflexivity | split; [reflexivity | exact B]].
Qed.

Lemma append_to_journal_today_witness :
  outcome_of
    (run (answering JNull)
       (logseq_write_append_to_journal bare_platform default_env
          (mkClock (JsDate.civil 2025 3 14 9 0 0 0) Zones.utc) "today"
          (Some ("buy milk" ++ Str.nl ++ "call mom"))) tt)
  = Ok ("Added 2 block(s) to journal " ++ Str.dq ++ "mar 14th, 2025" ++ Str.dq ++ ".").
Proof.
  assert (A : answers_all (answering JNull)).
  { intros s r. cbn. discriminate. }
  destruct (append_to_journal_today (answering JNull) bare_platform default_env
              (mkClock (JsDate.civil 2025 3 14 9 0 0 0) Zones.utc) tt JNull
              A eq_refl eq_refl) as (_ & O & _).
  rewrite O. vm_compute. reflexivity.
Defined.

End ApiFacts.

(* ================================================================== *)
(** ** The output formats of logseq_query *)
(* ================================================================== *)

Module FormatFacts.

Import StrFacts.

(** *** Rows and their records *)

Lemma unwrap_tuple fields rest :
  Query.unwrap (JArr (JObj fields :: rest)) = Ok (JObj fields).
Proof. reflexivity. Qed.

Lemma unwrap_bare fields :
  JS.truthy (JS.assoc "0" fields) = false ->
  Query.unwrap (JObj fields) = Ok (JObj fields).
Proof.
  intros H. unfold Query.unwrap. cbn [JS.get0 obind]. unfold JS.or_. now rewrite H.
Qed.

Lemma unwrap_row r :
  Rows.is_row r = true ->
  exists fields, Query.unwrap r = Ok (JObj fields) /\ Rows.is_record fields = true.
Proof.
  destruct r as [| | b | n | s | [| [| | b | n | s | l | fields] rest] | fields];
    cbn [Rows.is_row]; try discriminate; intros H.
  - exists fields. split; [apply unwrap_tuple | exact H].
  - apply andb_true_iff in H as [H0 HR]. exists fields. split; [| exact HR].
    apply unwrap_bare. now apply negb_true_iff in H0.
Qed.

Lemma text_cases v :
  Rows.text_or_absent v = true ->
  v = JUndefined \/ v = JNull \/ exists s, v = JStr s.
Proof. destruct v; cbn; try discriminate; eauto. Qed.

(** The callback of the names output returns on every row. *)
Lemma name_of_row r :
  Rows.is_row r = true -> exists v, Query.name_of r = Ok v.
Proof.
  intros H. destruct (unwrap_row r H) as (fields & U & R).
  unfold Query.name_of. rewrite U. cbn [obind JS.get].
  repeat match goal with
         | |- context [if ?c then _ else _] => destruct c; [eexists; reflexivity |]
         end.
  unfold Rows.is_record in R. apply andb_true_iff in R as [R _].
  destruct (text_cases _ R) as [-> | [-> | [s ->]]]; eexists; reflexivity.
Qed.

(** The content that the summary reads is a text. *)
Lemma content_text c1 c2 :
  Rows.text_or_absent c1 = true -> Rows.text_or_absent c2 = true ->
  exists t, JS.or_ (JS.or_ c1 c2) (JStr "") = JStr t.
Proof.
  intros H1 H2.
  destruct (text_cases _ H1) as [-> | [-> | [s1 ->]]];
    destruct (text_cases _ H2) as [-> | [-> | [s2 ->]]];
    unfold JS.or_;
    repeat (cbn [JS.truthy];
            match goal with
            | |- context [Str.truthy ?s] =>
                lazymatch goal with
                | H : Str.truthy s = _ |- _ => rewrite H
                | _ => destruct (Str.truthy s) eqn:?
                end
            end);
    eexists; reflexivity.
Qed.

(** The callback of the summary output returns on every row. *)
Lemma summary_item_row i r :
  Rows.is_row r = true -> exists e, Query.summary_item i r = Ok e.
Proof.
  intros H. destruct (unwrap_row r H) as (fields & U & R).
  unfold Query.summary_item. rewrite U. cbn [obind JS.get].
  unfold Rows.is_record in R. apply andb_true_iff in R as [R1 R2].
  destruct (content_text _ _ R2 R1) as (t & ->).
  cbn [JS.substring_of obind].
  match goal with
  | |- context [if ?c then (Ok ?a) else (Ok ?b)] => destruct c
  end; eexists; reflexivity.
Qed.

Lemma summary_entries_total rows : forall i,
  forallb Rows.is_row rows = true ->
  exists entries,
    Rows.summary_entries i rows = Ok entries
    /\ List.length entries = List.length rows.
Proof.
  induction rows as [| r rest IH]; intros i H; cbn [Rows.summary_entries].
  - exists []. split; reflexivity.
  - cbn [forallb] in H. apply andb_true_iff in H as [Hr Hrest].
    destruct (summary_item_row i r Hr) as (e & ->).
    destruct (IH (S i) Hrest) as (es & -> & L).
    exists (e :: es). split; [reflexivity |]. cbn [List.length]. now rewrite L.
Qed.

(** The loop of the summary appends the entries one after the other. *)
Lemma summary_loop_entries rows : forall i acc entries,
  Rows.summary_entries i rows = Ok entries ->
  Query.summary_loop i rows acc = Ok (acc ++ Str.concat_all entries).
Proof.
  induction rows as [| r rest IH]; intros i acc entries H;
    cbn [Rows.summary_entries Query.summary_loop] in *.
  - injection H as <-. cbn. now rewrite app_nil_r.
  - destruct (Query.summary_item i r) as [e | x]; cbn [obind] in *; [| discriminate].
    destruct (Rows.summary_entries (S i) rest) as [es | x] eqn:E; cbn [obind] in *;
      [| discriminate].
    injection H as <-. rewrite (IH _ _ _ E).
    unfold Str.concat_all. cbn [fold_right]. now rewrite app_assoc.
Qed.

Lemma slice0_20 {A} (l : list A) : JS.slice0 l 20 = firstn 20 l.
Proof.
  unfold JS.slice0, JS.slice_count. cbn [Z.ltb Z.compare].
  destruct (Z.le_ge_cases 20 (Z.of_nat (List.length l))) as [G | G].
  - now rewrite Z.min_l by lia.
  - rewrite Z.min_r by lia. rewrite Nat2Z.id.
    rewrite firstn_all. symmetry. apply firstn_all2. lia.
Qed.

Lemma forallb_firstn {A} (f : A -> bool) (l : list A) n :
  forallb f l = true -> forallb f (firstn n l) = true.
Proof.
  revert n. induction l as [| x r IH]; intros [| n] H; cbn in *; auto.
  apply andb_true_iff in H as [-> Hr]. now apply IH.
Qed.

(** *** The entries of the summary *)

Lemma text_truthy v :
  Rows.text_or_absent v = true -> JS.truthy v = Str.truthy (Rows.text v).
Proof. destruct v; cbn; try discriminate; reflexivity. Qed.

Lemma absent_or a b :
  Rows.text_or_absent a = true -> Rows.text_or_absent b = true ->
  Rows.text_or_absent (JS.or_ a b) = true.
Proof. intros Ha Hb. unfold JS.or_. now destruct (JS.truthy a). Qed.

Lemma text_or a b :
  Rows.text_or_absent a = true ->
  Rows.text (JS.or_ a b)
  = if Str.truthy (Rows.text a) then Rows.text a else Rows.text b.
Proof.
  intros Ha. unfold JS.or_. rewrite (text_truthy a Ha).
  now destruct (Str.truthy (Rows.text a)).
Qed.

Lemma or_default a :
  Rows.text_or_absent a = true -> JS.or_ a (JStr "") = JStr (Rows.text a).
Proof.
  intros Ha. unfold JS.or_. rewrite (text_truthy a Ha).
  destruct a; cbn in *; try discriminate; try reflexivity.
  destruct (Str.truthy s) eqn:T; [reflexivity |].
  unfold Str.truthy in T. apply negb_false_iff, String.eqb_eq in T. now subst s.
Qed.

Lemma text_if (s : string) : (if Str.truthy s then s else "") = s.
Proof. now destruct s. Qed.

Lemma unwrap_text_row r :
  Rows.is_text_row r = true ->
  Query.unwrap r = Ok (JObj (Rows.record_of r))
  /\ Rows.is_text_record (Rows.record_of r) = true.
Proof.
  destruct r as [| | b | n | s | [| [| | b | n | s | l | fields] rest] | fields];
    cbn [Rows.is_text_row]; try discriminate; intros H.
  - split; [apply unwrap_tuple | exact H].
  - apply andb_true_iff in H as [H0 HR]. split; [| exact HR].
    apply unwrap_bare. now apply negb_true_iff in H0.
Qed.

(** On a row of text the callback of the summary renders the entry. *)
Lemma summary_item_entry i r :
  Rows.is_text_row r = true -> Query.summary_item i r = Ok (Rows.entry i r).
Proof.
  intros H. destruct (unwrap_text_row r H) as (U & R).
  unfold Query.summary_item, Rows.entry. rewrite U. cbn [obind JS.get].
  set (fields := Rows.record_of r) in *.
  unfold Rows.is_text_record in R.
  cbn [Rows.name_keys Rows.content_keys Rows.marker_keys List.app forallb] in R.
  repeat (apply andb_true_iff in R as [? R]).
  assert (Hn : JS.or_ (JS.or_ (JS.or_ (JS.or_ (JS.assoc "block/name" fields)
                                          (JS.assoc "block/original-name" fields))
                                   (JS.assoc "name" fields))
                            (JS.assoc "originalName" fields)) (JStr "")
               = JStr (Rows.first_text Rows.name_keys fields)).
  { rewrite or_default by auto using absent_or.
    rewrite !text_or by auto using absent_or.
    cbn [Rows.first_text Rows.name_keys]. rewrite text_if. f_equal.
    destruct (Str.truthy (Rows.text (JS.assoc "block/name" fields))) eqn:E1;
      cbn iota; rewrite ?E1; [reflexivity |].
    destruct (Str.truthy (Rows.text (JS.assoc "block/original-name" fields))) eqn:E2;
      cbn iota; rewrite ?E2; [reflexivity |].
    destruct (Str.truthy (Rows.text (JS.assoc "name" fields))) eqn:E3;
      cbn iota; rewrite ?E3; reflexivity. }
  assert (Hc : JS.or_ (JS.or_ (JS.assoc "block/content" fields)
                         (JS.assoc "content" fields)) (JStr "")
               = JStr (Rows.first_text Rows.content_keys fields)).
  { rewrite or_default by auto using absent_or.
    rewrite !text_or by auto using absent_or.
    cbn [Rows.first_text Rows.content_keys]. now rewrite text_if. }
  assert (Hm : JS.or_ (JS.or_ (JS.assoc "block/marker" fields)
                         (JS.assoc "marker" fields)) (JStr "")
               = JStr (Rows.first_text Rows.marker_keys fields)).
  { rewrite or_default by auto using absent_or.
    rewrite !text_or by auto using absent_or.
    cbn [Rows.first_text Rows.marker_keys]. now rewrite text_if. }
  rewrite Hn, Hc, Hm. cbn [JS.truthy JS.toStr].
  destruct (Str.truthy (Rows.first_text Rows.name_keys fields));
    destruct (Str.truthy (Rows.first_text Rows.marker_keys fields));
    destruct (Str.truthy (Rows.first_text Rows.content_keys fields));
    cbn [andb negb obind JS.substring_of String.append];
    repeat first [rewrite app_assoc | progress cbn [String.append]];
    rewrite ?app_nil_r; reflexivity.
Qed.

Lemma summary_entries_text rows : forall i,
  forallb Rows.is_text_row rows = true ->
  Rows.summary_entries i rows = Ok (Rows.entries_from i rows).
Proof.
  induction rows as [| r rest IH]; intros i H;
    cbn [Rows.summary_entries Rows.entries_from]; [reflexivity |].
  cbn [forallb] in H. apply andb_true_iff in H as [Hr Hrest].
  now rewrite (summary_item_entry i r Hr), (IH (S i) Hrest).
Qed.

Lemma entries_from_length rows : forall i,
  List.length (Rows.entries_from i rows) = List.length rows.
Proof.
  induction rows as [| r rest IH]; intros i; cbn [Rows.entries_from List.length];
    [reflexivity | now rewrite IH].
Qed.

(** C6, amended.  On a list of rows whose names, markers and contents
    are text, the summary is the header "Found N results:", one entry
    for each of the first twenty rows, and a trailer: "... and N more
    results" for the N rows beyond twenty, and nothing for twenty rows
    or fewer.  For 25 rows that is 20 entries and "... and 5 more
    results".  The entry of the row at place n, counted from 1, is
    [Rows.entry]: "n. [[name]]" and then the marker in brackets for a
    row with a name; the marker in brackets and then "n. ", the first
    hundred characters of the content and three dots for a row without
    a name and with content; the marker in brackets alone for a row
    with neither. *)
Theorem format_summary_caps (rows : list JSValue) :
  forallb Rows.is_text_row rows = true ->
  let n := Z.of_nat (List.length rows) in
  let entries := Rows.entries_from 0 (firstn 20 rows) in
  Query.format_summary (JArr rows)
  = Ok ("Found " ++ Str.ofZ n ++ " results:" ++ Str.nl ++ Str.nl
        ++ Str.concat_all entries
        ++ (if 20 <? n then Str.nl ++ "... and " ++ Str.ofZ (n - 20) ++ " more results"
            else ""))
  /\ List.length entries = Nat.min 20 (List.length rows)
  /\ (List.length rows = 25%nat ->
      List.length entries = 20%nat
      /\ (if 20 <? n then Str.nl ++ "... and " ++ Str.ofZ (n - 20) ++ " more results"
          else "")
         = Str.nl ++ "... and 5 more results")
  /\ ((List.length rows <= 20)%nat -> (20 <? n) = false).
Proof.
  intros H n entries.
  assert (L : List.length entries = Nat.min 20 (List.length rows)).
  { unfold entries. now rewrite entries_from_length, length_firstn. }
  split; [| split; [exact L | split]].
  - unfold Query.format_summary. rewrite slice0_20.
    rewrite (summary_loop_entries _ _ _ _
               (summary_entries_text _ 0 (forallb_firstn _ _ 20 H))).
    cbn [obind]. fold n. fold entries.
    destruct (20 <? n).
    + now rewrite !app_assoc.
    + now rewrite !app_assoc, app_nil_r.
  - intros L25. subst n. rewrite L25 in *. split; [exact L | reflexivity].
  - intros L20. apply Z.ltb_ge. lia.
Qed.

Lemma format_summary_caps_witness :
  exists text,
    Query.format_summary (JArr Rows.sample25) = Ok text
    /\ Str.includes text ("10. [[notes]]" ++ Str.nl ++ " [TODO]11. TODO write..."
                          ++ Str.nl) = true
    /\ Str.includes text (" [TODO]20. TODO write..." ++ Str.nl ++ Str.nl
                          ++ "... and 5 more results") = true
    /\ Str.includes text "21. " = false.
Proof.
  destruct (format_summary_caps Rows.sample25 eq_refl) as (F & _).
  eexists. split; [exact F |].
  vm_compute. repeat split.
Defined.

(** C6 fails as stated: the entry of a task, a row with a marker and a
    content and without a name, does not begin with its number; the
    marker comes first.  A row that has only a marker gets no number at
    all. *)
Lemma summary_marker_before_index :
  Query.format_summary (JArr [Rows.task_row "TODO" "TODO write"])
  = Ok ("Found 1 results:" ++ Str.nl ++ Str.nl
        ++ " [TODO]1. TODO write..." ++ Str.nl)
  /\ Rows.spec_entry 0 (Rows.task_row "TODO" "TODO write") = "1. [TODO]" ++ Str.nl
  /\ prefix "1." (" [TODO]1. TODO write..." ++ Str.nl) = false
  /\ Query.format_summary (JArr [JObj [("marker", JStr "DONE")]])
     = Ok ("Found 1 results:" ++ Str.nl ++ Str.nl ++ " [DONE]" ++ Str.nl)
  /\ Rows.spec_entry 0 (JObj [("marker", JStr "DONE")]) = "1. [DONE]" ++ Str.nl
  /\ Str.includes (" [DONE]" ++ Str.nl) "1" = false.
Proof. repeat split. Qed.

(** The callback of the summary on the three usual shapes of a row. *)
Example summary_item_shapes :
  Query.summary_item 0 (Rows.page_row "notes") = Ok ("1. [[notes]]" ++ Str.nl)
  /\ Query.summary_item 1 (Rows.task_row "TODO" "TODO write")
     = Ok (" [TODO]2. TODO write..." ++ Str.nl)
  /\ Query.summary_item 2 (Rows.block_row "plain text")
     = Ok ("3. plain text..." ++ Str.nl)
  /\ Query.summary_item 3
       (JObj [("name", JStr "n"); ("marker", JStr "DONE"); ("content", JStr "c")])
     = Ok ("4. [[n]] [DONE]" ++ Str.nl).
Proof. repeat split. Qed.

(** An unnamed row with content is rendered by its first hundred
    characters. *)
Lemma summary_item_excerpt i (t : string) :
  Str.truthy t = true ->
  Query.summary_item i (Rows.block_row t)
  = Ok (Str.ofZ (Z.of_nat i + 1) ++ ". " ++ substring 0 100 t ++ "..." ++ Str.nl).
Proof.
  intros T. unfold Query.summary_item, Rows.block_row, Query.unwrap.
  cbn [JS.get0 JS.assoc obind String.eqb Ascii.eqb Bool.eqb JS.get JS.or_ JS.truthy].
  unfold JS.or_. cbn [JS.truthy Str.truthy String.eqb negb]. rewrite T.
  cbn [JS.truthy]. rewrite T. cbn [andb negb JS.substring_of obind JS.truthy
    Str.truthy String.eqb].
  now rewrite !app_assoc.
Qed.

(** *** The names output *)

(** C7.  In the names output a record with a [name] field and the tuple
    that wraps it render to the same line: the tuple is unwrapped by one
    level, and the line is the first present one of [block/name],
    [block/original-name] and [name], which come before [originalName]
    and the content prefix in the order of priority. *)
Theorem names_tuple_and_bare (fields : list (string * JSValue)) :
  JS.truthy (JS.assoc "0" fields) = false ->
  JS.truthy (JS.assoc "name" fields) = true ->
  Query.name_of (JArr [JObj fields]) = Query.name_of (JObj fields)
  /\ Query.name_of (JObj fields)
     = Ok (Rows.first_truthy
             [JS.assoc "block/name" fields;
              JS.assoc "block/original-name" fields;
              JS.assoc "name" fields] JUndefined)
  /\ Query.format_names (JArr [JArr [JObj fields]; JObj fields])
     = Ok (JS.elem_str
             (Rows.first_truthy
                [JS.assoc "block/name" fields;
                 JS.assoc "block/original-name" fields;
                 JS.assoc "name" fields] JUndefined)
           ++ Str.nl
           ++ JS.elem_str
                (Rows.first_truthy
                   [JS.assoc "block/name" fields;
                    JS.assoc "block/original-name" fields;
                    JS.assoc "name" fields] JUndefined)).
Proof.
  intros H0 Hn.
  assert (E : forall r, Query.unwrap r = Ok (JObj fields) ->
                Query.name_of r
                = Ok (Rows.first_truthy
                        [JS.assoc "block/name" fields;
                         JS.assoc "block/original-name" fields;
                         JS.assoc "name" fields] JUndefined)).
  { intros r U. unfold Query.name_of. rewrite U.
    cbn [obind JS.get Rows.first_truthy].
    destruct (JS.truthy (JS.assoc "block/name" fields)); [reflexivity |].
    destruct (JS.truthy (JS.assoc "block/original-name" fields)); [reflexivity |].
    now rewrite Hn. }
  pose proof (E _ (unwrap_tuple fields [])) as E1.
  pose proof (E _ (unwrap_bare fields H0)) as E2.
  split; [now rewrite E1, E2 |]. split; [exact E2 |].
  unfold Query.format_names. cbn [Query.map_outcome].
  rewrite E1, E2. reflexivity.
Qed.

Lemma names_tuple_and_bare_witness :
  Query.format_names
    (JArr [JArr [JObj [("name", JStr "reading list"); ("journal?", JBool false)]];
           JObj [("name", JStr "reading list"); ("journal?", JBool false)]])
  = Ok ("reading list" ++ Str.nl ++ "reading list").
Proof.
  destruct (names_tuple_and_bare
              [("name", JStr "reading list"); ("journal?", JBool false)]
              eq_refl eq_refl) as (_ & _ & F).
  exact F.
Defined.

(** The order of priority in full, on a record: the four name fields,
    then the first fifty characters of the content, then "Unknown". *)
Lemma name_of_priority (fields : list (string * JSValue)) (r : JSValue) :
  Query.unwrap r = Ok (JObj fields) ->
  Rows.text_or_absent (JS.assoc "content" fields) = true ->
  Query.name_of r
  = Ok (Rows.first_truthy
          [JS.assoc "block/name" fields;
           JS.assoc "block/original-name" fields;
           JS.assoc "name" fields;
           JS.assoc "originalName" fields;
           match JS.assoc "content" fields with
           | JStr s => JStr (substring 0 50 s)
           | _ => JUndefined
           end] (JStr "Unknown")).
Proof.
  intros U T. unfold Query.name_of. rewrite U.
  cbn [obind JS.get Rows.first_truthy].
  repeat match goal with
         | |- context [if JS.truthy (JS.assoc ?k fields) then _ else _] =>
             destruct (JS.truthy (JS.assoc k fields)); [reflexivity |]
         end.
  destruct (text_cases _ T) as [-> | [-> | [s ->]]]; reflexivity.
Qed.

Lemma map_names_total rows :
  forallb Rows.is_row rows = true ->
  exists names,
    Query.map_outcome Query.name_of rows = Ok names
    /\ List.length names = List.length rows.
Proof.
  induction rows as [| r rest IH]; intros H; cbn [Query.map_outcome].
  - exists []. split; reflexivity.
  - cbn [forallb] in H. apply andb_true_iff in H as [Hr Hrest].
    destruct (name_of_row r Hr) as (v & ->).
    destruct (IH Hrest) as (vs & -> & L).
    exists (v :: vs). split; [reflexivity |]. cbn [List.length]. now rewrite L.
Qed.

Lemma split_lines_single s : Str.has_nl s = false -> Str.split_lines s = [s].
Proof.
  induction s as [| c r IH]; [reflexivity |]. cbn [Str.has_nl Str.split_lines].
  intros H. apply orb_false_iff in H as [Hc Hr]. rewrite Hc, (IH Hr). reflexivity.
Qed.

Lemma split_lines_app s t :
  Str.has_nl s = false ->
  Str.split_lines (s ++ Str.nl ++ t) = s :: Str.split_lines t.
Proof.
  induction s as [| c r IH]; [reflexivity |].
  cbn [Str.has_nl String.append Str.split_lines].
  intros H. apply orb_false_iff in H as [Hc Hr]. rewrite Hc, (IH Hr). reflexivity.
Qed.

(** Joining lines that hold no line feed and splitting again gives the
    lines back. *)
Lemma split_join (l : list string) :
  l <> [] -> forallb (fun s => negb (Str.has_nl s)) l = true ->
  Str.split_lines (Str.join Str.nl l) = l.
Proof.
  induction l as [| x r IH]; [congruence |]. intros _ H.
  cbn [forallb] in H. apply andb_true_iff in H as [Hx Hr].
  apply negb_true_iff in Hx.
  destruct r as [| y r'].
  - cbn [Str.join]. now apply split_lines_single.
  - change (Str.join Str.nl (x :: y :: r'))
      with (x ++ Str.nl ++ Str.join Str.nl (y :: r')).
    rewrite (split_lines_app _ _ Hx), IH; [reflexivity | discriminate | exact Hr].
Qed.

(** C10 fails as stated: one result whose content spans two lines gives
    two lines of names output. *)
Lemma names_two_lines_for_one_result :
  Query.format_names (JArr [Rows.two_line_block])
  = Ok ("first line" ++ Str.nl ++ "second line")
  /\ ~ Rows.one_line_per_result [Rows.two_line_block].
Proof.
  split; [reflexivity |]. intros (out & E & L).
  vm_compute in E. injection E as <-. vm_compute in L. discriminate L.
Qed.

(** C10, amended.  On a list of rows the names output has exactly one
    entry per result, joined by line feeds, and drops none: entry [i] is
    what the callback returns for row [i], and a row whose record has
    none of the name fields and no content gives the entry "Unknown".
    The entries are the lines of the output when none of them holds a
    line feed; an entry taken from content may hold one. *)
Theorem format_names_one_entry_per_result (rows : list JSValue) :
  forallb Rows.is_row rows = true ->
  exists names,
    Query.map_outcome Query.name_of rows = Ok names
    /\ List.length names = List.length rows
    /\ Query.format_names (JArr rows) = Ok (JS.join Str.nl names)
    /\ (forall r fields,
          In r rows -> Query.unwrap r = Ok (JObj fields) ->
          Rows.nameless fields = true ->
          Query.name_of r = Ok (JStr "Unknown"))
    /\ (rows <> [] -> Rows.single_lines names = true ->
        List.length (Str.split_lines (JS.join Str.nl names)) = List.length rows).
Proof.
  intros H. destruct (map_names_total rows H) as (names & M & L).
  exists names. split; [exact M |]. split; [exact L |]. split; [| split].
  - unfold Query.format_names. now rewrite M.
  - intros r fields I U N.
    assert (T : Rows.text_or_absent (JS.assoc "content" fields) = true).
    { rewrite forallb_forall in H.
      destruct (unwrap_row r (H r I)) as (fields' & U' & R).
      rewrite U in U'. injection U' as <-.
      unfold Rows.is_record in R. now apply andb_true_iff in R as [R _]. }
    rewrite (name_of_priority fields r U T). unfold Rows.nameless in N.
    repeat (apply andb_true_iff in N as [N ?]).
    repeat match goal with
           | X : negb _ = true |- _ => apply negb_true_iff in X
           end.
    cbn [Rows.first_truthy].
    repeat match goal with
           | X : JS.truthy ?v = false |- context [JS.truthy ?v] => rewrite X
           end.
    destruct (text_cases _ T) as [E | [E | [s E]]]; rewrite E in *;
      [reflexivity | reflexivity |].
    cbn [JS.truthy] in *.
    assert (s = "") as -> by (destruct s; [reflexivity | discriminate]).
    reflexivity.
  - intros NE SL. unfold JS.join. rewrite split_join.
    + now rewrite length_map.
    + destruct names; [| discriminate]. destruct rows; [congruence | discriminate].
    + unfold Rows.single_lines in SL. clear - SL.
      induction names as [| v vs IH]; [reflexivity |].
      cbn [forallb map] in *. apply andb_true_iff in SL as [-> SL].
      now apply IH.
Qed.

Lemma format_names_one_entry_per_result_witness :
  Query.format_names
    (JArr [Rows.page_row "notes"; Rows.block_row "plain text"; JObj []])
  = Ok ("notes" ++ Str.nl ++ "plain text" ++ Str.nl ++ "Unknown").
Proof.
  destruct (format_names_one_entry_per_result
              [Rows.page_row "notes"; Rows.block_row "plain text"; JObj []]
              eq_refl) as (names & M & _ & F & _).
  rewrite F. vm_compute in M. injection M as <-. reflexivity.
Defined.

End FormatFacts.

(* ================================================================== *)
(** ** parseDateRange on every phrase *)
(* ================================================================== *)

Module MoreRangeFacts.

Import JsDate DateFacts RangeFacts.

(** *** Normalizing a phrase twice *)

Lemma lower_char_idem c : Str.lower_char (Str.lower_char c) = Str.lower_char c.
Proof. destruct c as [[] [] [] [] [] [] [] []]; reflexivity. Qed.

Lemma is_space_lower c : Str.is_space (Str.lower_char c) = Str.is_space c.
Proof. destruct c as [[] [] [] [] [] [] [] []]; reflexivity. Qed.

Lemma toLowerCase_idem s : Str.toLowerCase (Str.toLowerCase s) = Str.toLowerCase s.
Proof.
  induction s as [| c r IH]; [reflexivity |].
  cbn [Str.toLowerCase]. now rewrite lower_char_idem, IH.
Qed.

Lemma toLowerCase_trimStart s :
  Str.toLowerCase (Str.trimStart s) = Str.trimStart (Str.toLowerCase s).
Proof.
  induction s as [| c r IH]; [reflexivity |].
  cbn [Str.trimStart Str.toLowerCase]. rewrite is_space_lower.
  destruct (Str.is_space c); [exact IH | reflexivity].
Qed.

Lemma toLowerCase_trimEnd s :
  Str.toLowerCase (Str.trimEnd s) = Str.trimEnd (Str.toLowerCase s).
Proof.
  induction s as [| c r IH]; [reflexivity |].
  cbn [Str.trimEnd Str.toLowerCase]. rewrite <- IH, is_space_lower.
  destruct (Str.trimEnd r) as [| c' r']; cbn [Str.toLowerCase].
  - destruct (Str.is_space c); reflexivity.
  - reflexivity.
Qed.

Lemma trimEnd_cons c r :
  Str.trimEnd (String c r)
  = match Str.trimEnd r with
    | EmptyString => if Str.is_space c then EmptyString else String c EmptyString
    | String c' r' => String c (String c' r')
    end.
Proof. reflexivity. Qed.

Lemma trimEnd_idem s : Str.trimEnd (Str.trimEnd s) = Str.trimEnd s.
Proof.
  induction s as [| c r IH]; [reflexivity |].
  rewrite trimEnd_cons. destruct (Str.trimEnd r) as [| c' r'] eqn:T.
  - destruct (Str.is_space c) eqn:Sp; [reflexivity |].
    rewrite trimEnd_cons. cbn [Str.trimEnd]. now rewrite Sp.
  - rewrite trimEnd_cons, IH. reflexivity.
Qed.

(** A text that does not begin with white space. *)
Lemma trimStart_fixed s :
  match s with String c _ => Str.is_space c = false | EmptyString => True end ->
  Str.trimStart s = s.
Proof. destruct s as [| c r]; [reflexivity |]. cbn. now intros ->. Qed.

Lemma trimStart_head s :
  match Str.trimStart s with
  | String c _ => Str.is_space c = false
  | EmptyString => True
  end.
Proof.
  induction s as [| c r IH]; [exact I |].
  cbn [Str.trimStart]. destruct (Str.is_space c) eqn:Sp; [exact IH | exact Sp].
Qed.

Lemma trimEnd_head s :
  match s with String c _ => Str.is_space c = false | EmptyString => True end ->
  match Str.trimEnd s with
  | String c _ => Str.is_space c = false
  | EmptyString => True
  end.
Proof.
  destruct s as [| c r]; [trivial |]. intros Sp. cbn [Str.trimEnd].
  destruct (Str.trimEnd r); [rewrite Sp |]; exact Sp.
Qed.

Lemma trim_idem s : Str.trim (Str.trim s) = Str.trim s.
Proof.
  unfold Str.trim.
  rewrite (trimStart_fixed (Str.trimEnd (Str.trimStart s))).
  - apply trimEnd_idem.
  - apply trimEnd_head, trimStart_head.
Qed.

Lemma normalize_idem s :
  Str.trim (Str.toLowerCase (Str.trim (Str.toLowerCase s)))
  = Str.trim (Str.toLowerCase s).
Proof.
  unfold Str.trim at 2.
  rewrite toLowerCase_trimEnd, toLowerCase_trimStart, toLowerCase_idem.
  apply trim_idem.
Qed.

(** X3.  [parseDateRange] reads its phrase only through the lower-cased
    and trimmed form: the phrase and its normal form give the same
    result, be it a range or a throw, in every host zone. *)
Theorem parseDateRange_normal_form (tz : Zone) (now : Z) (dateRange : string) :
  parseDateRange tz now (Str.trim (Str.toLowerCase dateRange))
  = parseDateRange tz now dateRange.
Proof. unfold parseDateRange. now rewrite normalize_idem. Qed.

(** *** What every returned range satisfies *)

Lemma ranges_closures k f :
  Ranges.ranges k = Some f ->
  In k Table.recognized
  /\ (f = Ranges.r_today \/ f = Ranges.r_yesterday \/ f = Ranges.r_this_week
      \/ f = Ranges.r_last_week \/ f = Ranges.r_this_month
      \/ f = Ranges.r_last_month \/ f = Ranges.r_last_7_days
      \/ f = Ranges.r_last_30_days).
Proof.
  unfold Ranges.ranges.
  repeat match goal with
         | |- context [(k =? ?s)%string] =>
             destruct (String.eqb_spec k s) as [-> | _];
             [intros [= <-]; split; [cbn; tauto | tauto] |]
         end.
  discriminate.
Qed.

Lemma day_begin_le_now now d : d <= Day now -> Table.day_begin d <= now.
Proof.
  intros H. pose proof (Day_decompose now) as E.
  pose proof (TimeWithinDay_range now).
  unfold Table.day_begin, MakeDate, msPerDay in *. lia.
Qed.

Lemma now_le_day_end now : now <= Table.day_end (Day now).
Proof.
  pose proof (Day_decompose now) as E.
  pose proof (TimeWithinDay_range now).
  unfold Table.day_end. rewrite MakeTime_last.
  unfold MakeDate, msPerDay in *. lia.
Qed.

(** A range from the start of one day to the end of a later one, none
    after today, in a zone that has been [c] ahead of UTC since day [a]. *)
Lemma whole_days_ok tz c a N ds de ttl :
  Zones.steady tz c a (Day N) ->
  a <= ds -> ds <= de -> de <= Day N ->
  let r := mkRange (Table.day_begin ds - c) (Table.day_end de - c) ttl in
  start r <= end_ r /\ start r <= N - c
  /\ TimeWithinDay (LocalTime tz (end_ r)) = 86399999
  /\ Day (LocalTime tz (end_ r)) <= Day (LocalTime tz (N - c)).
Proof.
  intros St H0 H1 H2 r. cbn [r start end_].
  rewrite (LocalTime_steady _ _ _ _ St (Table.day_end de))
    by (rewrite Day_day_end; lia).
  rewrite (LocalTime_steady _ _ _ _ St N) by lia.
  repeat split.
  - pose proof (day_order _ _ H1). lia.
  - pose proof (day_begin_le_now N ds ltac:(lia)). lia.
  - apply TimeWithinDay_day_end.
  - now rewrite Day_day_end.
Qed.

(** X1.  In a host zone whose offset from UTC has not changed since the
    first day of last month on the local calendar, nor in the last 30
    local days, and does not change before the end of today, whatever
    the phrase, a range that [parseDateRange] returns is well formed: it
    does not end before it starts, it starts no later than the current
    instant, and on the local clock it ends on the last millisecond of a
    day that is not after today. *)
Theorem parseDateRange_well_formed (tz : Zone) (c now : Z) (dateRange : string)
  (r : DateRange) :
  Zones.steady tz c
    (Z.min (Day (now + c) - 30)
       (Table.first_of_month (Table.prev_month_year (now + c))
          (Table.prev_month (now + c))))
    (Day (now + c)) ->
  parseDateRange tz now dateRange = Ok r ->
  start r <= end_ r
  /\ start r <= now
  /\ TimeWithinDay (LocalTime tz (end_ r)) = 86399999
  /\ Day (LocalTime tz (end_ r)) <= Day (LocalTime tz now).
Proof.
  set (N := now + c). replace now with (N - c) by (unfold N; lia).
  set (a := Z.min _ _). intros St.
  assert (A30 : a <= Day N - 30) by apply Z.le_min_l.
  assert (Apm : a <= Table.first_of_month (Table.prev_month_year N)
                       (Table.prev_month N)) by apply Z.le_min_r.
  clearbody a.
  unfold parseDateRange, Obj.get.
  pose proof (WeekDay_range N) as W. pose proof (DateFromTime_pos N) as D.
  pose proof (prev_month_before N) as B. pose proof (first_of_month_now N) as F.
  destruct (Ranges.ranges _) as [f |] eqn:R.
  - destruct (ranges_closures _ _ R) as [_ C].
    intros [= <-].
    destruct C as [-> | [-> | [-> | [-> | [-> | [-> | [-> | ->]]]]]]].
    + rewrite (run_today _ _ _ _ St) by lia.
      apply (whole_days_ok _ _ _ _ _ _ _ St); lia.
    + rewrite (run_yesterday _ _ _ _ St) by lia.
      apply (whole_days_ok _ _ _ _ _ _ _ St); lia.
    + rewrite (run_this_week _ _ _ _ St) by lia.
      apply (whole_days_ok _ _ _ _ _ _ _ St); lia.
    + rewrite (run_last_week _ _ _ _ St) by lia.
      apply (whole_days_ok _ _ _ _ _ _ _ St); lia.
    + rewrite (run_this_month _ _ _ _ St) by lia.
      apply (whole_days_ok _ _ _ _ _ _ _ St); lia.
    + rewrite (run_last_month _ _ _ _ St) by lia.
      apply (whole_days_ok _ _ _ _ _ _ _ St); lia.
    + rewrite (run_last_7 _ _ _ _ St) by lia.
      apply (whole_days_ok _ _ _ _ _ _ _ St); lia.
    + rewrite (run_last_30 _ _ _ _ St) by lia.
      apply (whole_days_ok _ _ _ _ _ _ _ St); lia.
  - destruct (Obj.Object_prototype _) as [m |].
    + destruct (Obj.call_inherited _ m); [discriminate |].
      intros [= <-]. unfold Ranges.init; cbn [start end_].
      rewrite (last_ms_steady _ _ _ _ St) by lia.
      rewrite (LocalTime_steady _ _ _ _ St (Table.day_end (Day N)))
        by (rewrite Day_day_end; lia).
      rewrite (LocalTime_steady _ _ _ _ St N) by lia.
      pose proof (now_le_day_end N). repeat split.
      * lia.
      * lia.
      * apply TimeWithinDay_day_end.
      * rewrite Day_day_end. lia.
    + intros [= <-].
      rewrite (run_default _ _ _ _ St) by lia.
      apply (whole_days_ok _ _ _ _ _ _ _ St); lia.
Qed.

Lemma parseDateRange_well_formed_witness :
  parseDateRange Zones.cairo_2024 (civil 2024 6 15 7 30 0 0) "LAST 30 DAYS"
  = Ok (mkRange (civil 2024 5 15 21 0 0 0) (civil 2024 6 15 20 59 59 999)
          "Last 30 Days Journal")
  /\ civil 2024 5 15 21 0 0 0 <= civil 2024 6 15 20 59 59 999
  /\ civil 2024 5 15 21 0 0 0 <= civil 2024 6 15 7 30 0 0
  /\ TimeWithinDay (LocalTime Zones.cairo_2024 (civil 2024 6 15 20 59 59 999))
     = 86399999
  /\ Day (LocalTime Zones.cairo_2024 (civil 2024 6 15 20 59 59 999))
     <= Day (LocalTime Zones.cairo_2024 (civil 2024 6 15 7 30 0 0)).
Proof.
  split; [reflexivity |].
  refine (parseDateRange_well_formed Zones.cairo_2024 10800000
            (civil 2024 6 15 7 30 0 0) "LAST 30 DAYS"
            (mkRange (civil 2024 5 15 21 0 0 0) (civil 2024 6 15 20 59 59 999)
               "Last 30 Days Journal")
            _ eq_refl).
  apply steady_cairo. reflexivity.
Defined.

(** X2.  [parseDateRange] throws on exactly the phrases whose normal
    form is [__proto__], among them [__proto__] followed by a no-break
    space.  On every other phrase it returns a range.  That is so in
    every host zone. *)
Theorem parseDateRange_throws_only_on_proto (tz : Zone) (now : Z)
  (dateRange : string) :
  returns (parseDateRange tz now dateRange)
  = negb (Str.trim (Str.toLowerCase dateRange) =? "__proto__")%string.
Proof.
  unfold parseDateRange, Obj.get.
  pose proof (normalized_no_upper dateRange) as U.
  set (n := Str.trim (Str.toLowerCase dateRange)) in *.
  destruct (String.eqb_spec n "__proto__") as [E | NE].
  - rewrite E. reflexivity.
  - destruct (Ranges.ranges n); [reflexivity |].
    destruct (String.eqb_spec n "constructor") as [-> | NC]; [reflexivity |].
    now rewrite (Object_prototype_lower n U NC NE).
Qed.

(** No-break spaces around a phrase are trimmed like spaces, and the
    capital letters of Latin-1 are lower-cased like those of ASCII. *)
Example no_break_space_is_trimmed :
  Str.trim (Str.nbsp ++ " today" ++ Str.nbsp) = "today"
  /\ parseDateRange Zones.utc (civil 2025 3 14 9 0 0 0)
       (Str.nbsp ++ "Today" ++ Str.nbsp)
     = Ok (mkRange (civil 2025 3 14 0 0 0 0) (civil 2025 3 14 23 59 59 999)
             "Today's Journal")
  /\ returns (parseDateRange Zones.utc 0 ("__proto__" ++ Str.nbsp)) = false.
Proof. repeat split; reflexivity. Qed.

Example latin1_is_lower_cased :
  Str.toLowerCase (String (ascii_of_nat 201) "COLE")
  = String (ascii_of_nat 233) "cole"
  /\ Str.toLowerCase (String (ascii_of_nat 215) "") = String (ascii_of_nat 215) ""
  /\ Str.toLowerCase (String (ascii_of_nat 223) "") = String (ascii_of_nat 223) "".
Proof. repeat split; reflexivity. Qed.

End MoreRangeFacts.

(* ================================================================== *)
(** ** Journal days and journal names *)
(* ================================================================== *)

Module JournalFacts.

Import JsDate DateFacts.

Lemma journal_day_fields t :
  0 <= YearFromTime t ->
  journal_day t / 10000 = YearFromTime t
  /\ Z.rem (journal_day t) 10000 / 100 - 1 = MonthFromTime t
  /\ Z.rem (journal_day t) 100 = DateFromTime t.
Proof.
  intros Y. unfold journal_day, getFullYear, getMonth, getDate.
  pose proof (MonthFromTime_range t). pose proof (DateFromTime_pos t).
  pose proof (DateFromTime_le_31 t).
  set (y := YearFromTime t) in *. set (m := MonthFromTime t) in *.
  set (d := DateFromTime t) in *.
  rewrite !Z.rem_mod_nonneg by lia.
  repeat split; Z.to_euclidean_division_equations; lia.
Qed.

(** X4.  The filter of the journals mode decodes a journal day
    YYYYMMDD back to the day it was written for: a row whose journal day
    is that of a local time [t] (of a year from 100 on) is kept exactly
    when the instant at which the host zone begins the day of [t] lies
    in the range, both ends included. *)
Theorem journal_day_in_range (P : Platform) (tz : Zone)
  (range_start range_end t : Z) (fields : list (string * JSValue)) :
  100 <= YearFromTime t ->
  JS.assoc "block/journal-day" fields = JNum (journal_day t) ->
  Query.in_range P tz range_start range_end (JArr [JObj fields])
  = Ok ((range_start <=? UTC tz (Table.day_begin (Day t)))
        && (UTC tz (Table.day_begin (Day t)) <=? range_end)).
Proof.
  intros Y F. destruct (journal_day_fields t ltac:(lia)) as (Ey & Em & Ed).
  assert (N : journal_day t <> 0).
  { unfold journal_day.
    pose proof (MonthFromTime_range t). pose proof (DateFromTime_pos t). lia. }
  assert (T : JS.truthy (JNum (journal_day t)) = true).
  { cbn [JS.truthy]. now destruct (Z.eqb_spec (journal_day t) 0). }
  assert (D : newDate tz (YearFromTime t) (MonthFromTime t) (DateFromTime t)
              = UTC tz (Table.day_begin (Day t))).
  { unfold newDate, Table.day_begin.
    replace ((0 <=? YearFromTime t) && (YearFromTime t <=? 99)) with false
      by (symmetry; apply andb_false_iff; right; apply Z.leb_gt; lia).
    pose proof (MakeDay_shift t 0) as S. rewrite !Z.add_0_r in S. now rewrite S. }
  unfold Query.in_range. cbn [JS.get0 obind].
  change (JS.or_ (JObj fields) (JArr [JObj fields])) with (JObj fields).
  cbn [JS.get obind]. rewrite F. unfold JS.or_. rewrite T.
  cbn [to_number]. rewrite T. cbn [negb]. now rewrite Ey, Em, Ed, D.
Qed.

Lemma journal_day_in_range_witness :
  Query.in_range bare_platform Zones.utc
    (civil 2025 3 9 0 0 0 0) (civil 2025 3 14 23 59 59 999)
    (JArr [JObj [("block/name", JStr "mar 12th, 2025");
                 ("block/journal-day", JNum 20250312)]])
  = Ok true.
Proof.
  exact (journal_day_in_range bare_platform Zones.utc (civil 2025 3 9 0 0 0 0)
           (civil 2025 3 14 23 59 59 999) (civil 2025 3 12 8 0 0 0)
           [("block/name", JStr "mar 12th, 2025");
            ("block/journal-day", JNum 20250312)]
           ltac:(vm_compute; discriminate) eq_refl).
Defined.

(** X5.  When the offset of the host zone is the same now and for the
    local time one day earlier, the journal page of "yesterday" is named
    for the instant exactly 24 hours before now, across the ends of
    months and years as well. *)
Theorem journalPageName_yesterday (P : Platform) (clock : Clock) (c : Z) :
  LocalTZA clock (Date_now clock) true = c ->
  LocalTZA clock (Date_now clock + c - msPerDay) false = c ->
  Write.journalPageName P clock "yesterday"
  = formatJournalDate (LocalTZA clock) (Date_now clock - msPerDay).
Proof.
  intros H1 H2. unfold Write.journalPageName, new_Date.
  cbn [String.eqb Ascii.eqb Bool.eqb]. f_equal.
  set (tz := LocalTZA clock) in *. set (now := Date_now clock) in *.
  unfold setDate, getDate.
  assert (L : LocalTime tz now = now + c) by (unfold LocalTime; now rewrite H1).
  rewrite L.
  replace (DateFromTime (now + c) - 1) with (DateFromTime (now + c) + -1) by lia.
  rewrite with_date_shift by reflexivity.
  assert (E : MakeDate (Day (now + c) + -1) (TimeWithinDay (now + c))
              = now + c - msPerDay).
  { pose proof (Day_decompose (now + c)) as E. unfold MakeDate in *. lia. }
  rewrite E. unfold UTC. rewrite H2. lia.
Qed.

Lemma journalPageName_yesterday_witness :
  Write.journalPageName bare_platform
    (mkClock (civil 2024 5 1 7 30 0 0) Zones.cairo_2024) "yesterday"
  = "apr 30th, 2024".
Proof.
  rewrite (journalPageName_yesterday bare_platform
             (mkClock (civil 2024 5 1 7 30 0 0) Zones.cairo_2024) 10800000
             eq_refl eq_refl).
  reflexivity.
Defined.

(** Where the zone skips the hour before a midnight, as America/Nuuk
    does on the last Saturday of March since 2024, and now is half an
    hour before the next midnight, the local time one day earlier does
    not exist: it is moved forward into today, and the page of
    "yesterday" is the page of today. *)
Example yesterday_in_a_skipped_hour :
  let nuuk := Zones.spring_forward (civil 2024 3 31 1 0 0 0) (-7200000) (-3600000) in
  let clock := mkClock (civil 2024 4 1 0 30 0 0) nuuk in
  LocalTime nuuk (Date_now clock) = civil 2024 3 31 23 30 0 0
  /\ Write.journalPageName bare_platform clock "yesterday" = "mar 31st, 2024"
  /\ Write.journalPageName bare_platform clock "today" = "mar 31st, 2024".
Proof. repeat split. Qed.

End JournalFacts.

(* ================================================================== *)
(** ** buildDatalogQuery and custom queries *)
(* ================================================================== *)

Module BuildFacts.

(** X6.  For a key of the catalog [buildDatalogQuery] returns the
    template of the key, a non-empty text, whatever [custom] holds: a
    [custom] query never overrides a catalog key. *)
Theorem catalog_key_ignores_custom (nowMs : Z) (k : string)
  (property value text tag page : option string) (days : option Z)
  (custom : option string) :
  In k Queries.catalog ->
  exists s,
    buildDatalogQuery nowMs k (mkParams property value text tag page days custom)
    = QText s
    /\ Str.truthy s = true
    /\ buildDatalogQuery nowMs k (mkParams property value text tag page days None)
       = QText s.
Proof.
  intros H. unfold Queries.catalog in H. cbn [In] in H.
  destruct H as [H | [H | [H | [H | [H | [H | [H | [H | [H | [H | []]]]]]]]]]];
    subst k; eexists; (split; [reflexivity | split; reflexivity]).
Qed.

Lemma catalog_key_ignores_custom_witness :
  buildDatalogQuery 0 "journals"
    (mkParams None None None None None None (Some "[:find ?x]"))
  = QText Queries.q_journals.
Proof.
  destruct (catalog_key_ignores_custom 0 "journals" None None None None None None
              (Some "[:find ?x]")) as (s & E & _ & E').
  - cbn. tauto.
  - rewrite E, <- E'. reflexivity.
Defined.

(** X7.  For a key that is neither in the catalog nor a member of
    [Object.prototype], a non-empty [custom] text is returned as it
    is. *)
Theorem custom_for_unknown_key (nowMs : Z) (k c : string) (params : Params) :
  ~ In k Queries.catalog ->
  Obj.Object_prototype k = None ->
  p_custom params = Some c ->
  Str.truthy c = true ->
  buildDatalogQuery nowMs k params = QText c.
Proof.
  intros N O C T. unfold buildDatalogQuery, Obj.get at 1.
  rewrite (QueryFacts.queries_outside_catalog _ _ _ N), O.
  unfold Queries.custom_value. rewrite C.
  unfold Queries.or_else. cbn [Queries.read Queries.truthy]. now rewrite T.
Qed.

Lemma custom_for_unknown_key_witness :
  buildDatalogQuery 0 "my_query"
    (mkParams None None None None None None (Some "[:find ?x]"))
  = QText "[:find ?x]".
Proof.
  apply (custom_for_unknown_key 0 "my_query" "[:find ?x]"); try reflexivity.
  cbn. intros H. repeat (destruct H as [H | H]; [discriminate H |]). exact H.
Defined.

End BuildFacts.

(* ================================================================== *)
(** ** logseq_query at its edges *)
(* ================================================================== *)

Module QueryEdgeFacts.

Import ApiFacts.

(** *** Calls that fail *)

Lemma run_call_failed {S} (respond : S -> Request -> S * FetchResult)
  env method args s s1 res e :
  respond s (request env method args) = (s1, res) ->
  thrown_by env res = Some e ->
  run respond (callLogseqApi env method args) s
  = ([request env method args], s1, Throw e).
Proof.
  intros R T. unfold callLogseqApi. cbn [run]. rewrite R.
  destruct res as [x | status statusText [b |] | status statusText message];
    cbn [thrown_by] in T.
  - now injection T as <-.
  - destruct (negb (response_ok status)); [| discriminate].
    destruct (status =? 401); now injection T as <-.
  - destruct (negb (response_ok status)).
    + destruct (status =? 401); now injection T as <-.
    + now injection T as <-.
  - destruct (negb (response_ok status)).
    + destruct (status =? 401); now injection T as <-.
    + now injection T as <-.
Qed.

Lemma answer_or_thrown env res :
  (exists v, answer res = Some v /\ thrown_by env res = None)
  \/ (exists e, answer res = None /\ thrown_by env res = Some e).
Proof.
  destruct res as [x | status statusText [b |] | status statusText message];
    cbn [answer thrown_by].
  - right. eauto.
  - destruct (response_ok status); cbn [negb]; [left; eauto |].
    right. destruct (status =? 401); eauto.
  - right. destruct (response_ok status); cbn [negb]; [eauto |].
    destruct (status =? 401); eauto.
  - right. destruct (response_ok status); cbn [negb]; [eauto |].
    destruct (status =? 401); eauto.
Qed.

(** *** Requests that are never made *)

(** X8.  The modes backlinks, search and datalog need a query text:
    without one the handler makes no request to the remote and returns
    the message of the mode. *)
Theorem query_text_required {S : Type} (respond : S -> Request -> S * FetchResult)
  (pf : Platform) (env : Env) (clock : Clock) (q : option string)
  (filters : option Filters) (output : option Output.t) (s : S) :
  Query.given q = false ->
  run respond (logseq_query pf env clock
                 (mkQueryArgs Mode.backlinks q filters output)) s
  = ([], s, Ok "Error: backlinks mode requires a page name in the query parameter")
  /\ run respond (logseq_query pf env clock
                    (mkQueryArgs Mode.search q filters output)) s
     = ([], s, Ok "Error: search mode requires a query")
  /\ run respond (logseq_query pf env clock
                    (mkQueryArgs Mode.datalog q filters output)) s
     = ([], s, Ok "Error: datalog mode requires a Datalog query string").
Proof.
  intros G. unfold logseq_query. rewrite !run_tool.
  unfold Query.body, Query.gather. cbn [q_mode q_query]. rewrite G.
  cbn [negb bind run]. repeat split.
Qed.

Lemma query_text_required_witness :
  run unauthorized
    (logseq_query bare_platform default_env (mkClock 0 Zones.utc)
       (mkQueryArgs Mode.search (Some "") None None)) tt
  = ([], tt, Ok "Error: search mode requires a query").
Proof.
  exact (proj1 (proj2 (query_text_required unauthorized bare_platform default_env
                         (mkClock 0 Zones.utc) (Some "") None None tt eq_refl))).
Defined.

Lemma apply_limit_nil pf filters :
  Query.apply_limit pf filters (JArr []) = Ok (JArr []).
Proof.
  unfold Query.apply_limit. destruct (Query.limit_of filters) as [limit |];
    [| reflexivity].
  cbn [Query.length_of obind].
  destruct (Query.greater pf _ limit); [| reflexivity].
  unfold JS.slice0. now rewrite firstn_nil.
Qed.

(** X9.  In blocks mode with neither a query text nor a tag filter
    the handler makes no request and formats an empty list: the summary
    reports zero results and the names output is empty. *)
Theorem blocks_mode_without_criteria {S : Type}
  (respond : S -> Request -> S * FetchResult) (pf : Platform) (env : Env)
  (clock : Clock) (q : option string) (filters : option Filters)
  (output : option Output.t) (s : S) :
  Query.given q = false ->
  Query.given (Query.filter_field f_tag filters) = false ->
  run respond (logseq_query pf env clock
                 (mkQueryArgs Mode.blocks q filters output)) s
  = ([], s,
     Ok (match output with
         | Some Output.names => ""
         | Some Output.full => JSON_stringify pf (JArr [])
         | _ => "Found 0 results:" ++ Str.nl ++ Str.nl
         end)).
Proof.
  intros G T. unfold logseq_query. rewrite run_tool.
  unfold Query.body, Query.gather. cbn [q_mode q_query q_filters]. rewrite G, T.
  cbn [bind]. rewrite apply_limit_nil. cbn [lift bind].
  destruct output as [[| |] |]; reflexivity.
Qed.

Lemma blocks_mode_without_criteria_witness :
  run unauthorized
    (logseq_query bare_platform default_env (mkClock 0 Zones.utc)
       (mkQueryArgs Mode.blocks None None None)) tt
  = ([], tt, Ok ("Found 0 results:" ++ Str.nl ++ Str.nl)).
Proof.
  exact (blocks_mode_without_criteria unauthorized bare_platform default_env
           (mkClock 0 Zones.utc) None None None tt eq_refl eq_refl).
Defined.

(** *** The limit at its edges *)

(** X11.  A negative limit is truthy and below every length: it drops
    the last [-limit] rows instead of keeping the first ones. *)
Theorem negative_limit_drops_tail (pf : Platform) (fl : Filters)
  (rows : list JSValue) (limit : Z) :
  f_limit fl = Some limit ->
  limit < 0 ->
  Query.apply_limit pf (Some fl) (JArr rows)
  = Ok (JArr (firstn (List.length rows - Z.to_nat (- limit)) rows)).
Proof.
  intros L N. unfold Query.apply_limit, Query.limit_of, Query.filter_field.
  rewrite L. destruct (Z.eqb_spec limit 0) as [E | _]; [lia |].
  cbn [Query.length_of obind]. unfold Query.greater. cbn [to_number].
  destruct (Z.ltb_spec limit (Z.of_nat (List.length rows))) as [_ | G]; [| lia].
  unfold JS.slice0, JS.slice_count.
  destruct (Z.ltb_spec limit 0) as [_ | G]; [| lia].
  do 3 f_equal. lia.
Qed.

Lemma negative_limit_drops_tail_witness :
  Query.apply_limit bare_platform
    (Some (mkFilters None None None None None (Some (-2)))) (JArr Rows.sample9)
  = Ok (JArr (firstn 7 Rows.sample9)).
Proof.
  exact (negative_limit_drops_tail bare_platform
           (mkFilters None None None None None (Some (-2))) Rows.sample9 (-2)
           eq_refl eq_refl).
Defined.

(** X12.  The limit truncates nothing when it is absent, when it is
    zero (zero is falsy), and when it is not below the number of
    rows. *)
Theorem limit_without_effect (pf : Platform) (filters : option Filters)
  (rows : list JSValue) :
  Query.filter_field f_limit filters = None
  \/ Query.filter_field f_limit filters = Some 0
  \/ (exists limit, Query.filter_field f_limit filters = Some limit
                    /\ Z.of_nat (List.length rows) <= limit) ->
  Query.apply_limit pf filters (JArr rows) = Ok (JArr rows).
Proof.
  intros H. unfold Query.apply_limit, Query.limit_of.
  destruct H as [-> | [-> | (limit & -> & B)]]; try reflexivity.
  destruct (limit =? 0); [reflexivity |].
  cbn [Query.length_of obind]. unfold Query.greater. cbn [to_number].
  destruct (Z.ltb_spec limit (Z.of_nat (List.length rows))); [lia | reflexivity].
Qed.

Lemma limit_without_effect_witness :
  Query.apply_limit bare_platform
    (Some (mkFilters None None None None None (Some 0))) (JArr Rows.sample9)
  = Ok (JArr Rows.sample9).
Proof.
  exact (limit_without_effect bare_platform
           (Some (mkFilters None None None None None (Some 0))) Rows.sample9
           (or_intror (or_introl eq_refl))).
Defined.

(** *** Recovery and failure *)

(** X10.  In backlinks mode a failure of the linked-references call is
    not an error: the handler then asks the Datalog backlinks query for
    the page and formats its answer.  Two requests are made, in that
    order. *)
Theorem backlinks_fallback {S : Type} (respond : S -> Request -> S * FetchResult)
  (pf : Platform) (env : Env) (clock : Clock) (q : string)
  (output : option Output.t) (s s1 s2 : S) (res1 res2 : FetchResult)
  (e : Thrown) (results : JSValue) :
  Str.truthy q = true ->
  respond s (request env "logseq.Editor.getPageLinkedReferences" [JStr q])
  = (s1, res1) ->
  thrown_by env res1 = Some e ->
  respond s1 (request env "logseq.DB.datascriptQuery"
                [JStr (Queries.q_backlinks
                         (mkParams None None None None (Some q) None None))])
  = (s2, res2) ->
  answer res2 = Some results ->
  let a := mkQueryArgs Mode.backlinks (Some q) None output in
  run respond (logseq_query pf env clock a) s
  = ([request env "logseq.Editor.getPageLinkedReferences" [JStr q];
      request env "logseq.DB.datascriptQuery"
        [JStr (Queries.q_backlinks
                 (mkParams None None None None (Some q) None None))]],
     s2,
     Ok (text_of_outcome "Query error: "
           (Query.format pf (Query.output_of a) results))).
Proof.
  intros Hq R1 T1 R2 A2 a.
  unfold logseq_query. rewrite run_tool. unfold Query.body.
  rewrite run_bind. unfold Query.gather. cbn [q_mode q_query a].
  unfold Query.given. rewrite Hq. cbn [negb Query.text_of].
  rewrite run_bind, run_catch, run_bind.
  rewrite (run_call_failed _ _ _ _ _ _ _ _ R1 T1).
  unfold Query.datascriptQuery.
  change (Query.query_arg
            (buildDatalogQuery (Date_now clock) "backlinks"
               (mkParams None None None None (Some q) None None)))
    with (JStr (Queries.q_backlinks
                  (mkParams None None None None (Some q) None None))).
  rewrite (run_call_answered _ _ _ _ _ _ _ _ R2 A2). cbn [run app].
  rewrite run_bind, run_lift. cbn [q_filters a Query.apply_limit Query.limit_of
    Query.filter_field].
  rewrite run_lift. reflexivity.
Qed.

Lemma backlinks_fallback_witness :
  outcome_of
    (run Script.respond
       (logseq_query bare_platform default_env (mkClock 0 Zones.utc)
          (mkQueryArgs Mode.backlinks (Some "Notes") None (Some Output.names)))
       [Responded 500 "Internal Server Error" None;
        Script.ok (JArr [Rows.page_row "index"])])
  = Ok "index".
Proof.
  pose proof (backlinks_fallback Script.respond bare_platform default_env
                (mkClock 0 Zones.utc) "Notes" (Some Output.names)
                [Responded 500 "Internal Server Error" None;
                 Script.ok (JArr [Rows.page_row "index"])]
                [Script.ok (JArr [Rows.page_row "index"])] []
                (Responded 500 "Internal Server Error" None)
                (Script.ok (JArr [Rows.page_row "index"]))
                (Error "Logseq API error: 500 Internal Server Error")
                (JArr [Rows.page_row "index"])
                eq_refl eq_refl eq_refl eq_refl eq_refl) as E.
  cbv zeta in E. rewrite E. reflexivity.
Defined.

Lemma format_non_array pf (out : Output.t) (v : JSValue) :
  not_array v = true -> out <> Output.full ->
  exists e, Query.format pf out v = Throw e.
Proof.
  intros N F. destruct out; [contradiction | |];
    destruct v; try discriminate; cbn; eauto.
Qed.

(** X13.  When the remote answers a raw query with a value that is not
    an array, the names and the summary output list nothing: the handler
    returns a text that starts with "Query error: ". *)
Theorem non_array_answer_is_an_error {S : Type}
  (respond : S -> Request -> S * FetchResult) (pf : Platform) (env : Env)
  (clock : Clock) (q : string) (output : option Output.t) (s s1 : S)
  (res : FetchResult) (v : JSValue) :
  Str.truthy q = true ->
  respond s (request env "logseq.DB.datascriptQuery" [JStr q]) = (s1, res) ->
  answer res = Some v ->
  not_array v = true ->
  output <> Some Output.full ->
  exists msg,
    run respond (logseq_query pf env clock
                   (mkQueryArgs Mode.datalog (Some q) None output)) s
    = ([request env "logseq.DB.datascriptQuery" [JStr q]], s1,
       Ok ("Query error: " ++ msg)).
Proof.
  intros Hq R A N F.
  destruct (format_non_array pf
              (Query.output_of (mkQueryArgs Mode.datalog (Some q) None output)) v N)
    as (e & E).
  { unfold Query.output_of. cbn [q_output]. destruct output as [[| |] |];
      congruence. }
  exists (message_of e).
  unfold logseq_query. rewrite run_tool. unfold Query.body.
  rewrite run_bind. unfold Query.gather. cbn [q_mode q_query].
  unfold Query.given. rewrite Hq. cbn [negb Query.text_of].
  rewrite run_bind, (run_call_answered _ _ _ _ _ _ _ _ R A). cbn [run app].
  rewrite run_bind, run_lift.
  cbn [q_filters Query.apply_limit Query.limit_of Query.filter_field].
  rewrite run_lift, E. reflexivity.
Qed.

Lemma non_array_answer_is_an_error_witness :
  exists msg,
    outcome_of
      (run (answering JNull)
         (logseq_query bare_platform default_env (mkClock 0 Zones.utc)
            (mkQueryArgs Mode.datalog (Some "[:find ?x]") None None)) tt)
    = Ok ("Query error: " ++ msg).
Proof.
  destruct (non_array_answer_is_an_error (answering JNull) bare_platform
              default_env (mkClock 0 Zones.utc) "[:find ?x]" None tt tt
              (Responded 200 "OK" (Some JNull)) JNull
              eq_refl eq_refl eq_refl eq_refl ltac:(discriminate)) as (msg & E).
  exists msg. now rewrite E.
Defined.

(** *** A remote that fails in one way *)

Section Failing.

Context {S : Type} (respond : S -> Request -> S * FetchResult).
Context (env : Env) (err : Thrown).
Hypothesis all_fail : fails_all_with env err respond.

Lemma fails_call method args :
  always_fails err respond (callLogseqApi env method args).
Proof.
  intros s. pose proof (all_fail s (request env method args)) as T.
  destruct (respond s (request env method args)) as [s1 res] eqn:R.
  now rewrite (run_call_failed _ _ _ _ _ _ _ _ R T).
Qed.

Lemma fails_bind {A B} (m : Api A) (f : A -> Api B) :
  always_fails err respond m -> always_fails err respond (bind m f).
Proof.
  intros H s. specialize (H s). rewrite run_bind.
  destruct (run respond m s) as [[t1 s1] [a | e]];
    cbn [outcome_of trace_of state_of fst snd] in *; [discriminate |].
  now injection H as ->.
Qed.

Lemma under_of_fails {A} (m : Api A) :
  always_fails err respond m -> closed_under err respond m.
Proof. intros H s. right. apply H. Qed.

Lemma under_ret {A} (a : A) : closed_under err respond (Ret a).
Proof. intros s. left. split; reflexivity. Qed.

Lemma under_raise {A} (e : Thrown) : closed_under err respond (@Raise A e).
Proof. intros s. left. split; reflexivity. Qed.

Lemma under_lift {A} (o : Outcome A) : closed_under err respond (lift o).
Proof. destruct o; [apply under_ret | apply under_raise]. Qed.

Lemma under_bind {A B} (m : Api A) (f : A -> Api B) :
  closed_under err respond m ->
  (forall a, closed_under err respond (f a)) ->
  closed_under err respond (bind m f).
Proof.
  intros Hm Hf s. specialize (Hm s). unfold quiet_or_failed in *.
  rewrite run_bind.
  destruct (run respond m s) as [[t1 s1] [a | e]];
    cbn [outcome_of trace_of state_of fst snd] in *.
  - destruct Hm as [[-> ->] | Hm]; [| discriminate].
    specialize (Hf a s).
    destruct (run respond (f a) s) as [[t2 s2] o]. exact Hf.
  - destruct Hm as [[-> ->] | Hm]; [left; split; reflexivity |].
    right. now injection Hm as ->.
Qed.

Lemma under_catch {A} (m : Api A) (h : Thrown -> Api A) :
  closed_under err respond m ->
  (forall e, always_fails err respond (h e)) ->
  closed_under err respond (catch m h).
Proof.
  intros Hm Hh s. specialize (Hm s). unfold quiet_or_failed in *.
  rewrite run_catch.
  destruct (run respond m s) as [[t1 s1] [a | e]];
    cbn [outcome_of trace_of state_of fst snd] in *.
  - destruct Hm as [Hm | Hm]; [left; exact Hm | discriminate].
  - right. specialize (Hh e s1).
    destruct (run respond (h e) s1) as [[t2 s2] o]. exact Hh.
Qed.

Lemma under_body (pf : Platform) (clock : Clock) (a : QueryArgs) :
  closed_under err respond (Query.body pf env clock a).
Proof.
  unfold Query.body. apply under_bind.
  - unfold Query.gather, Query.datascriptQuery.
    destruct (q_mode a);
      repeat first
        [ apply under_ret
        | apply under_lift
        | apply under_of_fails, fails_bind, fails_call
        | apply under_of_fails, fails_call
        | apply under_catch; [| intros; apply fails_call]
        | apply under_bind; [| intros]
        | match goal with
          | |- closed_under _ _ (if ?c then _ else _) => destruct c
          | |- closed_under _ _ (match ?x with _ => _ end) => destruct x
          end ].
  - intros [text | results]; [apply under_ret |].
    apply under_bind; [apply under_lift | intros; apply under_lift].
Qed.

End Failing.

(** X14.  Against a remote on which every call fails in one way (an
    HTTP status outside 200..299, a rejected [fetch], a body that is not
    JSON), a query that makes a request returns "Query error: " followed
    by the message of that failure; for a status other than 401 the
    message is "Logseq API error: ", the status and the status text. *)
Theorem query_remote_failure {S : Type} (respond : S -> Request -> S * FetchResult)
  (pf : Platform) (env : Env) (clock : Clock) (a : QueryArgs) (s : S)
  (err : Thrown) :
  fails_all_with env err respond ->
  trace_of (run respond (logseq_query pf env clock a) s) <> [] ->
  outcome_of (run respond (logseq_query pf env clock a) s)
  = Ok ("Query error: " ++ message_of err)
  /\ (forall status statusText body,
        response_ok status = false -> status <> 401 ->
        thrown_by env (Responded status statusText body)
        = Some (Error ("Logseq API error: " ++ Str.ofZ status ++ " " ++ statusText))).
Proof.
  intros H T. split.
  - unfold logseq_query in *. rewrite run_tool in *.
    pose proof (under_body respond env err H pf clock a s) as B.
    unfold quiet_or_failed, outcome_of, trace_of, state_of in *.
    cbn [fst snd] in *.
    destruct B as [[E _] | R]; [contradiction |]. now rewrite R.
  - intros status statusText body O N. cbn [thrown_by]. rewrite O. cbn [negb].
    now destruct (Z.eqb_spec status 401).
Qed.

Lemma query_remote_failure_witness :
  outcome_of
    (run (status_only 503 "Service Unavailable")
       (logseq_query bare_platform default_env (mkClock 0 Zones.utc)
          (mkQueryArgs Mode.journals None None None)) tt)
  = Ok "Query error: Logseq API error: 503 Service Unavailable".
Proof.
  refine (proj1 (query_remote_failure (status_only 503 "Service Unavailable")
                   bare_platform default_env (mkClock 0 Zones.utc)
                   (mkQueryArgs Mode.journals None None None) tt
                   (Error "Logseq API error: 503 Service Unavailable") _ _)).
  - intros s r. reflexivity.
  - vm_compute. discriminate.
Defined.

(** A body that is not JSON: the message is the parser's. *)
Example query_remote_not_json :
  outcome_of
    (run (text_only html_message)
       (logseq_query bare_platform default_env (mkClock 0 Zones.utc)
          (mkQueryArgs Mode.journals None None None)) tt)
  = Ok ("Query error: Unexpected token '<', " ++ Str.dq ++ "<html><bod" ++ Str.dq
        ++ "... is not valid JSON")
  /\ outcome_of
       (run (status_only 200 "OK")
          (logseq_query bare_platform default_env (mkClock 0 Zones.utc)
             (mkQueryArgs Mode.journals None None None)) tt)
     = Ok "Query error: Unexpected end of JSON input".
Proof. split; reflexivity. Qed.

End QueryEdgeFacts.

(* ================================================================== *)
(** ** processBlocks on JSON *)
(* ================================================================== *)

Module JsonBlockFacts.

Import StrFacts.

(** The loop carries its text along: it ends in the text it started
    with followed by what the blocks add. *)
Lemma loop_from P indent bs : forall text,
  BlocksJ.loop P indent bs text
  = let? r := BlocksJ.loop P indent bs "" in Ok (text ++ r).
Proof.
  induction bs as [| b more IH]; intros text; cbn [BlocksJ.loop obind].
  - now rewrite app_nil_r.
  - destruct (BlocksJ.processBlock P indent b) as [piece | e]; cbn [obind];
      [| reflexivity].
    rewrite (IH (text ++ piece)), (IH ("" ++ piece)).
    destruct (BlocksJ.loop P indent more "") as [r | e]; cbn [obind];
      [| reflexivity].
    cbn [String.append]. now rewrite app_assoc.
Qed.

Lemma loop_app P indent a b text :
  BlocksJ.loop P indent (a ++ b) text
  = let? x := BlocksJ.loop P indent a text in BlocksJ.loop P indent b x.
Proof.
  revert text. induction a as [| x r IH]; intros text; cbn [List.app BlocksJ.loop obind];
    [reflexivity |].
  destruct (BlocksJ.processBlock P indent x) as [piece | e]; cbn [obind];
    [apply IH | reflexivity].
Qed.

(** X15.  Rendering two arrays of blocks one after the other: the text
    of the concatenation is the two texts in order, and a block of the
    first array that makes the rendering throw keeps the second from
    being rendered. *)
Theorem processBlocks_app (P : Platform) (a b : list JSValue) (indent : nat) :
  BlocksJ.processBlocks P (JArr (a ++ b)) indent
  = let? x := BlocksJ.processBlocks P (JArr a) indent in
    let? y := BlocksJ.processBlocks P (JArr b) indent in
    Ok (x ++ y).
Proof.
  cbn [BlocksJ.processBlocks]. rewrite loop_app.
  destruct (BlocksJ.loop P indent a "") as [x | e]; cbn [obind]; [| reflexivity].
  apply loop_from.
Qed.

Lemma encode_children (ch : list Block) :
  (fix all (l : list Block) : list JSValue :=
     match l with
     | [] => []
     | x :: rest => BlocksJ.encode x :: all rest
     end) ch
  = map BlocksJ.encode ch.
Proof. induction ch as [| b r IH]; cbn [map]; [reflexivity | now rewrite IH]. Qed.

Lemma inner_loop P indent (l : list JSValue) : forall text,
  (fix loop (bs : list JSValue) (text : string) : Outcome string :=
     match bs with
     | [] => Ok text
     | b :: more =>
         let? piece := BlocksJ.processBlock P (S indent) b in
         loop more (text ++ piece)
     end) l text
  = BlocksJ.loop P (S indent) l text.
Proof.
  induction l as [| b more IH]; intros text; cbn [BlocksJ.loop]; [reflexivity |].
  destruct (BlocksJ.processBlock P (S indent) b); cbn [obind];
    [apply IH | reflexivity].
Qed.

(** A block with its children in an array. *)
(** *** Blocks as the remote sends them *)

Lemma is_block_obj (fields : list (string * JSValue)) :
  BlocksJ.is_block (JObj fields)
  = Rows.text_or_absent (JS.assoc "content" fields)
    && match JS.assoc "children" fields with
       | JArr l => forallb BlocksJ.is_block l
       | JUndefined | JNull => true
       | _ => false
       end.
Proof.
  cbn [BlocksJ.is_block]. f_equal.
  induction fields as [| [k v] rest IH]; [reflexivity |].
  cbn [JS.assoc]. destruct ("children" =? k)%string; [| exact IH].
  destruct v; reflexivity.
Qed.

Lemma decode_obj (fields : list (string * JSValue)) :
  BlocksJ.decode (JObj fields)
  = mkBlock (Rows.text (JS.assoc "content" fields))
      match JS.assoc "children" fields with
      | JArr l => map BlocksJ.decode l
      | _ => []
      end.
Proof.
  cbn [BlocksJ.decode]. f_equal.
  induction fields as [| [k v] rest IH]; [reflexivity |].
  cbn [JS.assoc]. destruct ("children" =? k)%string; [| exact IH].
  destruct v; reflexivity.
Qed.

(** One turn of the loop on an object. *)
Lemma processBlock_obj P indent (fields : list (string * JSValue)) :
  BlocksJ.processBlock P indent (JObj fields)
  = if JS.truthy (JS.assoc "content" fields) then
      let? sub :=
        match JS.assoc "children" fields with
        | JArr l => BlocksJ.loop P (S indent) l ""
        | JObj f =>
            if Query.greater P (JS.assoc "length" f) 0
            then Throw BlocksJ.not_iterable else Ok ""
        | _ => Ok ""
        end in
      Ok (bullet indent (JS.toStr (JS.assoc "content" fields)) ++ sub)
    else Ok "".
Proof.
  cbn [BlocksJ.processBlock].
  destruct (JS.truthy (JS.assoc "content" fields)); [| reflexivity].
  f_equal.
  induction fields as [| [k v] rest IH]; [reflexivity |].
  cbn [JS.assoc]. destruct ("children" =? k)%string; [| exact IH].
  destruct v as [| | b | n | s | l | f]; try reflexivity.
  apply inner_loop.
Qed.

Lemma assoc_field (R : JSValue -> Prop) k (fields : list (string * JSValue)) :
  R JUndefined -> Forall (fun kv => R (snd kv)) fields -> R (JS.assoc k fields).
Proof.
  intros U H. induction H as [| [k' v] rest Hv _ IH]; [exact U |].
  cbn [JS.assoc]. destruct (k =? k')%string; [exact Hv | exact IH].
Qed.

Lemma loop_decoded P indent (l : list JSValue) :
  Forall (fun v => BlocksJ.is_block v = true ->
                   forall n, BlocksJ.processBlock P n v
                             = Ok (processBlock n (BlocksJ.decode v))) l ->
  forallb BlocksJ.is_block l = true ->
  BlocksJ.loop P indent l "" = Ok (processBlocks (map BlocksJ.decode l) indent).
Proof.
  intros H B. rewrite BlockFacts.processBlocks_concat.
  induction H as [| v r Hv _ IH]; cbn [map BlocksJ.loop]; [reflexivity |].
  cbn [forallb] in B. apply andb_true_iff in B as [Bv Br].
  rewrite (Hv Bv). cbn [obind]. rewrite loop_from, (IH Br).
  cbn [obind String.append]. reflexivity.
Qed.

Lemma processBlock_decode P (v : JSValue) :
  BlocksJ.is_block v = true ->
  forall indent,
    BlocksJ.processBlock P indent v = Ok (processBlock indent (BlocksJ.decode v)).
Proof.
  set (Pred := fun v => BlocksJ.is_block v = true ->
                 forall n, BlocksJ.processBlock P n v
                           = Ok (processBlock n (BlocksJ.decode v))).
  enough (G : Pred v /\ match v with JArr l => Forall Pred l | _ => True end)
    by exact (proj1 G).
  induction v as [| | b | n | s | l IH | fields IH] using JSValue_forall_ind;
    try (split; [discriminate | exact I]).
  - split; [discriminate |].
    eapply Forall_impl; [| exact IH]. intros x Hx. exact (proj1 Hx).
  - split; [| exact I]. intros B indent.
    rewrite is_block_obj in B. apply andb_true_iff in B as [C K].
    rewrite processBlock_obj, decode_obj, BlockFacts.processBlock_eq.
    rewrite (FormatFacts.text_truthy _ C).
    destruct (Str.truthy (Rows.text (JS.assoc "content" fields))) eqn:T;
      [| reflexivity].
    assert (E : JS.toStr (JS.assoc "content" fields)
                = Rows.text (JS.assoc "content" fields)).
    { destruct (JS.assoc "content" fields); try discriminate; reflexivity. }
    rewrite E.
    assert (U : Pred JUndefined /\ True) by (split; [discriminate | exact I]).
    pose proof (assoc_field
                  (fun v => Pred v
                            /\ match v with JArr l => Forall Pred l | _ => True end)
                  "children" fields U IH) as [_ Ch].
    destruct (JS.assoc "children" fields) as [| | b | n | s | l | f];
      try discriminate; try reflexivity.
    now rewrite (loop_decoded P (S indent) l Ch K).
Qed.

Lemma processBlocks_decoded P (l : list JSValue) (indent : nat) :
  forallb BlocksJ.is_block l = true ->
  BlocksJ.processBlocks P (JArr l) indent
  = Ok (processBlocks (map BlocksJ.decode l) indent).
Proof.
  intros B. cbn [BlocksJ.processBlocks]. apply loop_decoded; [| exact B].
  apply Forall_forall. intros v _. apply processBlock_decode.
Qed.

(** Every tree of blocks is the tree of some JSON value. *)
Lemma decode_encode (b : Block) :
  BlocksJ.is_block (BlocksJ.encode b) = true
  /\ BlocksJ.decode (BlocksJ.encode b) = b.
Proof.
  induction b as [c ch IH] using Block_forall_ind.
  cbn [BlocksJ.encode]. rewrite encode_children, is_block_obj, decode_obj.
  cbn [JS.assoc String.eqb Ascii.eqb Bool.eqb Rows.text_or_absent Rows.text andb].
  induction IH as [| b r [Hb Db] _ [IHb IHd]]; [split; reflexivity |].
  cbn [map forallb]. rewrite Hb, Db. cbn [andb]. split; [exact IHb |].
  now injection IHd as ->.
Qed.

(** X16.  On blocks as the remote sends them, objects whose [content]
    is text and whose [children] are an array of such blocks, with
    whatever other fields ([uuid], [marker], [properties]), the function
    on JSON values returns, without throwing, the text that the function
    on trees gives for the trees of contents and children. *)
Theorem processBlocks_decode (P : Platform) (l : list JSValue) (indent : nat) :
  forallb BlocksJ.is_block l = true ->
  BlocksJ.processBlocks P (JArr l) indent
  = Ok (processBlocks (map BlocksJ.decode l) indent).
Proof. apply processBlocks_decoded. Qed.

Lemma processBlocks_decode_witness :
  BlocksJ.processBlocks bare_platform (JArr BlocksJ.sample_blocks) 0
  = Ok ("- TODO plan" ++ Str.nl ++ "  - first step" ++ Str.nl ++ "- notes" ++ Str.nl).
Proof.
  exact (processBlocks_decode bare_platform BlocksJ.sample_blocks 0 eq_refl).
Defined.

End JsonBlockFacts.

(* ================================================================== *)
(** ** logseq_write *)
(* ================================================================== *)

Module WriteFacts.

Import ApiFacts QueryEdgeFacts.

(** *** Sequencing *)

Section Sequencing.

Context {S : Type} (respond : S -> Request -> S * FetchResult).

Lemma bind_ok_parts {A B} (m : Api A) (f : A -> Api B) (s : S) (a : A) :
  outcome_of (run respond m s) = Ok a ->
  trace_of (run respond (bind m f) s)
  = (trace_of (run respond m s)
     ++ trace_of (run respond (f a) (state_of (run respond m s))))%list
  /\ state_of (run respond (bind m f) s)
     = state_of (run respond (f a) (state_of (run respond m s)))
  /\ outcome_of (run respond (bind m f) s)
     = outcome_of (run respond (f a) (state_of (run respond m s))).
Proof.
  intros O. rewrite run_bind.
  destruct (run respond m s) as [[t1 s1] o].
  cbn [outcome_of trace_of state_of fst snd] in *. subst o.
  destruct (run respond (f a) s1) as [[t2 s2] o2]. repeat split.
Qed.

Lemma bind_throw_parts {A B} (m : Api A) (f : A -> Api B) (s : S) (e : Thrown) :
  outcome_of (run respond m s) = Throw e ->
  run respond (bind m f) s
  = (trace_of (run respond m s), state_of (run respond m s), Throw e).
Proof.
  intros O. rewrite run_bind.
  destruct (run respond m s) as [[t1 s1] o].
  cbn [outcome_of trace_of state_of fst snd] in *. now subst o.
Qed.

Lemma run_bind_assoc {A B C} (m : Api A) (g : A -> Api B) (k : B -> Api C) (s : S) :
  run respond (bind (bind m g) k) s
  = run respond (bind m (fun x => bind (g x) k)) s.
Proof.
  rewrite !run_bind.
  destruct (run respond m s) as [[t1 s1] [a | e]]; [| reflexivity].
  rewrite run_bind.
  destruct (run respond (g a) s1) as [[t2 s2] [b | e]]; [| reflexivity].
  destruct (run respond (k b) s2) as [[t3 s3] o].
  now rewrite List.app_assoc.
Qed.

End Sequencing.

(** *** Every call succeeds *)

Section Answered.

Context {S : Type} (respond : S -> Request -> S * FetchResult).
Context (env : Env).
Hypothesis all_ok : answers_all respond.

Lemma run_call_ok method args (s : S) :
  exists v,
    answer (snd (respond s (request env method args))) = Some v
    /\ run respond (callLogseqApi env method args) s
       = ([request env method args],
          fst (respond s (request env method args)), Ok v).
Proof.
  pose proof (all_ok s (request env method args)) as A0.
  destruct (respond s (request env method args)) as [s1 res] eqn:R.
  cbn [snd fst] in *.
  destruct (answer res) as [v |] eqn:Av; [| contradiction].
  exists v. split; [reflexivity |].
  exact (run_call_answered _ _ _ _ _ _ _ _ R Av).
Qed.

Lemma run_call_dropped method args (s : S) :
  run respond (WriteOps.call_ env method args) s
  = ([request env method args],
     fst (respond s (request env method args)), Ok tt).
Proof.
  unfold WriteOps.call_. rewrite run_bind.
  destruct (run_call_ok method args s) as (v & _ & ->). reflexivity.
Qed.

(** A loop of calls makes one request per element, in order. *)
Lemma run_for_each_calls {X} (m : X -> string) (a : X -> list JSValue)
  (l : list X) : forall s,
  trace_of (run respond (for_each l (fun x => WriteOps.call_ env (m x) (a x))) s)
  = map (fun x => request env (m x) (a x)) l
  /\ outcome_of (run respond (for_each l (fun x => WriteOps.call_ env (m x) (a x))) s)
     = Ok tt.
Proof.
  induction l as [| x rest IH]; intros s; cbn [for_each map]; [split; reflexivity |].
  rewrite run_bind, run_call_dropped.
  specialize (IH (fst (respond s (request env (m x) (a x))))).
  destruct (run respond (for_each rest _) _) as [[t2 s2] o2].
  cbn [trace_of outcome_of fst snd app] in *.
  destruct IH as [-> ->]. split; reflexivity.
Qed.

Lemma run_dropped_then {A} method args (k : unit -> Api A) (s : S) :
  run respond (bind (WriteOps.call_ env method args) k) s
  = (request env method args
       :: trace_of (run respond (k tt) (fst (respond s (request env method args)))),
     state_of (run respond (k tt) (fst (respond s (request env method args)))),
     outcome_of (run respond (k tt) (fst (respond s (request env method args))))).
Proof.
  rewrite run_bind, run_call_dropped.
  destruct (run respond (k tt) _) as [[t2 s2] o]. reflexivity.
Qed.

Lemma run_loop_then {X A} (m : X -> string) (a : X -> list JSValue)
  (l : list X) (k : unit -> Api A) : forall s,
  exists s',
    run respond (bind (for_each l (fun x => WriteOps.call_ env (m x) (a x))) k) s
    = ((map (fun x => request env (m x) (a x)) l
        ++ trace_of (run respond (k tt) s'))%list,
       state_of (run respond (k tt) s'), outcome_of (run respond (k tt) s')).
Proof.
  induction l as [| x rest IH]; intros s; cbn [for_each map].
  - exists s. cbn [bind]. destruct (run respond (k tt) s) as [[t2 s2] o].
    reflexivity.
  - rewrite run_bind_assoc, run_dropped_then.
    destruct (IH (fst (respond s (request env (m x) (a x))))) as (s' & ->).
    exists s'. reflexivity.
Qed.

End Answered.

Lemma falsy_text (s : string) : Str.truthy s = false -> s = "".
Proof.
  unfold Str.truthy. intros H. apply negb_false_iff in H.
  now apply String.eqb_eq in H.
Qed.

Lemma no_content_no_lines (content : option string) :
  Query.given content = false -> Write.lines_of (Query.text_of content) = [].
Proof.
  destruct content as [c |]; cbn [Query.given Query.text_of]; [| reflexivity].
  intros H. now rewrite (falsy_text _ H).
Qed.

Lemma store_answers : answers_all Store.respond.
Proof.
  intros s r. unfold Store.respond.
  repeat match goal with
         | |- context [if ?c then _ else _] => destruct c
         | |- context [match ?x with _ => _ end] => destruct x
         end; cbn; discriminate.
Qed.

(** *** Arguments that are refused before any request *)

(** X17.  The operations create_block, update_block, append_to_page and
    append_to_journal need a content: when it is absent or the empty
    text, the handler makes no request and returns "Error: content is
    required for " followed by the name of the operation. *)
Theorem write_without_content {S : Type}
  (respond : S -> Request -> S * FetchResult) (pf : Platform) (env : Env)
  (clock : Clock) (a : WriteArgs) (s : S) :
  In (w_operation a)
     [Op.create_block; Op.update_block; Op.append_to_page; Op.append_to_journal] ->
  Query.given (w_content a) = false ->
  run respond (logseq_write pf env clock a) s
  = ([], s, Ok ("Error: content is required for " ++ operation_name (w_operation a))).
Proof.
  intros I G. unfold logseq_write. rewrite run_tool.
  unfold WriteOps.body.
  destruct (w_operation a); cbn [In] in I;
    repeat (destruct I as [I | I]; try discriminate I); try contradiction;
    unfold WriteOps.create_block, WriteOps.update_block, WriteOps.append_to_page,
      Write.append_to_journal;
    rewrite G; reflexivity.
Qed.

Lemma write_without_content_witness :
  run Store.respond
    (logseq_write bare_platform default_env (mkClock 0 Zones.utc)
       (mkWriteArgs Op.append_to_page "Inbox" (Some "") None None)) []
  = ([], [], Ok "Error: content is required for append_to_page").
Proof.
  exact (write_without_content Store.respond bare_platform default_env
           (mkClock 0 Zones.utc) (mkWriteArgs Op.append_to_page "Inbox" (Some "") None None)
           [] (or_intror (or_intror (or_introl eq_refl))) eq_refl).
Defined.

(** X18.  The operations set_property and remove_property need at
    least one property: when [properties] is absent or has no key, the
    handler makes no request and returns a text that starts with
    "Error: properties required". *)
Theorem write_without_properties {S : Type}
  (respond : S -> Request -> S * FetchResult) (pf : Platform) (env : Env)
  (clock : Clock) (a : WriteArgs) (s : S) :
  In (w_operation a) [Op.set_property; Op.remove_property] ->
  WriteOps.no_properties (w_properties a) = true ->
  exists rest,
    run respond (logseq_write pf env clock a) s
    = ([], s, Ok ("Error: properties required" ++ rest)).
Proof.
  intros I N. unfold logseq_write. rewrite run_tool.
  unfold WriteOps.body.
  destruct (w_operation a); cbn [In] in I;
    repeat (destruct I as [I | I]; try discriminate I); try contradiction;
    unfold WriteOps.set_property, WriteOps.remove_property; rewrite N;
    eexists; cbn [run trace_of state_of outcome_of fst snd text_of_outcome].
  - instantiate (1 := " for set_property"). reflexivity.
  - instantiate (1 := " (specify keys to remove)"). reflexivity.
Qed.

Lemma write_without_properties_witness :
  exists rest,
    run Store.respond
      (logseq_write bare_platform default_env (mkClock 0 Zones.utc)
         (mkWriteArgs Op.remove_property "Inbox" None (Some []) None)) []
    = ([], [], Ok ("Error: properties required" ++ rest)).
Proof.
  exact (write_without_properties Store.respond bare_platform default_env
           (mkClock 0 Zones.utc) (mkWriteArgs Op.remove_property "Inbox" None (Some []) None)
           [] (or_intror (or_introl eq_refl)) eq_refl).
Defined.

(** *** Creating a page *)

(** X19.  create_page on a name for which the remote answers a page
    makes that one request and nothing else: no page is created and no
    block is appended, whatever the content and the properties, and the
    text says that the page already exists. *)
Theorem create_page_existing {S : Type}
  (respond : S -> Request -> S * FetchResult) (pf : Platform) (env : Env)
  (clock : Clock) (a : WriteArgs) (s s1 : S) (res : FetchResult)
  (existing : JSValue) :
  w_operation a = Op.create_page ->
  respond s (request env "logseq.Editor.getPage" [JStr (w_target a)]) = (s1, res) ->
  answer res = Some existing ->
  JS.truthy existing = true ->
  run respond (logseq_write pf env clock a) s
  = ([request env "logseq.Editor.getPage" [JStr (w_target a)]], s1,
     Ok ("Page " ++ Str.dq ++ w_target a ++ Str.dq
         ++ " already exists. Use append_to_page to add content.")).
Proof.
  intros O R A T. unfold logseq_write. rewrite run_tool.
  unfold WriteOps.body. rewrite O. unfold WriteOps.create_page.
  rewrite run_bind, (run_call_answered _ _ _ _ _ _ _ _ R A), T. reflexivity.
Qed.

Lemma create_page_existing_witness :
  run Store.respond
    (logseq_write bare_platform default_env (mkClock 0 Zones.utc)
       (mkWriteArgs Op.create_page "Inbox" (Some "first line")
          (Some [("type", JStr "note")]) None))
    [Store.mkPage "Inbox" (JObj []) ["kept"]]
  = ([request default_env "logseq.Editor.getPage" [JStr "Inbox"]],
     [Store.mkPage "Inbox" (JObj []) ["kept"]],
     Ok ("Page " ++ Str.dq ++ "Inbox" ++ Str.dq
         ++ " already exists. Use append_to_page to add content.")).
Proof.
  exact (create_page_existing Store.respond bare_platform default_env
           (mkClock 0 Zones.utc)
           (mkWriteArgs Op.create_page "Inbox" (Some "first line")
              (Some [("type", JStr "note")]) None)
           [Store.mkPage "Inbox" (JObj []) ["kept"]]
           [Store.mkPage "Inbox" (JObj []) ["kept"]]
           (Responded 200 "OK" (Some (JObj [("name", JStr "Inbox")])))
           (JObj [("name", JStr "Inbox")]) eq_refl eq_refl eq_refl eq_refl).
Defined.

(** X20.  create_page on a name for which the remote answers no page,
    every call succeeding: the handler asks for the page, creates it
    with the given properties, to which [journal?] is added as true
    when [options.asJournal] is set, and appends each line of the
    content that is not blank, in order, with one call each. *)
Theorem create_page_absent {S : Type}
  (respond : S -> Request -> S * FetchResult) (pf : Platform) (env : Env)
  (clock : Clock) (a : WriteArgs) (s : S) (existing : JSValue) :
  answers_all respond ->
  w_operation a = Op.create_page ->
  answer (snd (respond s (request env "logseq.Editor.getPage" [JStr (w_target a)])))
  = Some existing ->
  JS.truthy existing = false ->
  let props := WriteOps.entries_of (w_properties a) in
  let pageProps :=
    match WriteOps.option_field o_asJournal (w_options a) with
    | Some true => WriteOps.set_entry "journal?" (JBool true) props
    | _ => props
    end in
  let res := run respond (logseq_write pf env clock a) s in
  trace_of res
  = request env "logseq.Editor.getPage" [JStr (w_target a)]
    :: request env "logseq.Editor.createPage" [JStr (w_target a); JObj pageProps]
    :: map (fun line => request env "logseq.Editor.appendBlockInPage"
                          [JStr (w_target a); JStr line])
         (Write.lines_of (Query.text_of (w_content a)))
  /\ outcome_of res
     = Ok ("Page " ++ Str.dq ++ w_target a ++ Str.dq ++ " created successfully.").
Proof.
  intros Hok O A F props pageProps res. subst res.
  unfold logseq_write. rewrite run_tool.
  cbn [trace_of outcome_of fst snd].
  unfold WriteOps.body. rewrite O. unfold WriteOps.create_page.
  fold props. fold pageProps.
  match goal with
  | |- context [run respond (bind (callLogseqApi env ?m ?x) ?k) s] =>
      destruct (run_call_then respond env Hok m x k s) as (s1 & v & Av & _ & ->)
  end.
  rewrite A in Av. injection Av as <-. rewrite F. cbn iota.
  rewrite (run_dropped_then respond env Hok).
  set (s2 := fst (respond s1 _)). clearbody s2.
  cbn [trace_of state_of outcome_of fst snd].
  destruct (Query.given (w_content a)) eqn:G.
  - unfold WriteOps.append_lines.
    destruct (run_loop_then respond env Hok
                (fun _ => "logseq.Editor.appendBlockInPage")
                (fun line => [JStr (w_target a); JStr line])
                (Write.lines_of (Query.text_of (w_content a)))
                (fun _ => Ret ("Page " ++ Str.dq ++ w_target a ++ Str.dq
                               ++ " created successfully.")) s2) as (s3 & ->).
    cbn [run trace_of state_of outcome_of fst snd].
    rewrite List.app_nil_r. split; reflexivity.
  - rewrite (no_content_no_lines _ G). split; reflexivity.
Qed.

Lemma create_page_absent_witness :
  trace_of
    (run Store.respond
       (logseq_write bare_platform default_env (mkClock 0 Zones.utc)
          (mkWriteArgs Op.create_page "Trip" (Some ("pack" ++ Str.nl ++ Str.nl ++ "go"))
             (Some [("type", JStr "note")])
             (Some (mkWriteOptions (Some true) None None)))) [])
  = [request default_env "logseq.Editor.getPage" [JStr "Trip"];
     request default_env "logseq.Editor.createPage"
       [JStr "Trip"; JObj [("type", JStr "note"); ("journal?", JBool true)]];
     request default_env "logseq.Editor.appendBlockInPage" [JStr "Trip"; JStr "pack"];
     request default_env "logseq.Editor.appendBlockInPage" [JStr "Trip"; JStr "go"]].
Proof.
  exact (proj1 (create_page_absent Store.respond bare_platform default_env
                  (mkClock 0 Zones.utc)
                  (mkWriteArgs Op.create_page "Trip"
                     (Some ("pack" ++ Str.nl ++ Str.nl ++ "go"))
                     (Some [("type", JStr "note")])
                     (Some (mkWriteOptions (Some true) None None)))
                  [] JNull store_answers eq_refl eq_refl eq_refl)).
Defined.

(** *** Appending to a page *)

(** X21.  append_to_page with a content, every call succeeding: the
    handler asks for the page, creates it with no properties only when
    the remote answers none, then appends each line of the content that
    is not blank, in order, with one call each, and reports their
    number. *)
Theorem append_to_page_lines {S : Type}
  (respond : S -> Request -> S * FetchResult) (pf : Platform) (env : Env)
  (clock : Clock) (a : WriteArgs) (s : S) (page : JSValue) :
  answers_all respond ->
  w_operation a = Op.append_to_page ->
  Query.given (w_content a) = true ->
  answer (snd (respond s (request env "logseq.Editor.getPage" [JStr (w_target a)])))
  = Some page ->
  let lines := Write.lines_of (Query.text_of (w_content a)) in
  let res := run respond (logseq_write pf env clock a) s in
  trace_of res
  = (request env "logseq.Editor.getPage" [JStr (w_target a)]
     :: (if JS.truthy page then []
         else [request env "logseq.Editor.createPage" [JStr (w_target a); JObj []]])
     ++ map (fun line => request env "logseq.Editor.appendBlockInPage"
                           [JStr (w_target a); JStr line]) lines)%list
  /\ outcome_of res
     = Ok ("Added " ++ Str.ofZ (Z.of_nat (List.length lines)) ++ " block(s) to "
           ++ Str.dq ++ w_target a ++ Str.dq ++ ".").
Proof.
  intros Hok O G A lines res. subst res.
  unfold logseq_write. rewrite run_tool.
  cbn [trace_of outcome_of fst snd].
  unfold WriteOps.body. rewrite O. unfold WriteOps.append_to_page.
  rewrite G. cbn [negb]. fold lines.
  match goal with
  | |- context [run respond (bind (callLogseqApi env ?m ?x) ?k) s] =>
      destruct (run_call_then respond env Hok m x k s) as (s1 & v & Av & _ & ->)
  end.
  rewrite A in Av. injection Av as <-.
  cbn [trace_of state_of outcome_of fst snd].
  unfold WriteOps.append_lines.
  destruct (JS.truthy page); cbn [negb].
  - cbn [bind].
    destruct (run_loop_then respond env Hok
                (fun _ => "logseq.Editor.appendBlockInPage")
                (fun line => [JStr (w_target a); JStr line]) lines
                (fun _ => Ret ("Added " ++ Str.ofZ (Z.of_nat (List.length lines))
                               ++ " block(s) to " ++ Str.dq ++ w_target a ++ Str.dq
                               ++ ".")) s1) as (s3 & ->).
    cbn [run trace_of state_of outcome_of fst snd app].
    rewrite List.app_nil_r. split; reflexivity.
  - rewrite (run_dropped_then respond env Hok).
    set (s2 := fst (respond s1 _)). clearbody s2.
    cbn [trace_of state_of outcome_of fst snd].
    destruct (run_loop_then respond env Hok
                (fun _ => "logseq.Editor.appendBlockInPage")
                (fun line => [JStr (w_target a); JStr line]) lines
                (fun _ => Ret ("Added " ++ Str.ofZ (Z.of_nat (List.length lines))
                               ++ " block(s) to " ++ Str.dq ++ w_target a ++ Str.dq
                               ++ ".")) s2) as (s3 & ->).
    cbn [run trace_of state_of outcome_of fst snd app].
    rewrite List.app_nil_r. split; reflexivity.
Qed.

Lemma append_to_page_lines_witness :
  outcome_of
    (run Store.respond
       (logseq_write bare_platform default_env (mkClock 0 Zones.utc)
          (mkWriteArgs Op.append_to_page "Inbox"
             (Some ("one" ++ Str.nl ++ "  " ++ Str.nl ++ "two")) None None))
       [Store.mkPage "Inbox" (JObj []) []])
  = Ok ("Added 2 block(s) to " ++ Str.dq ++ "Inbox" ++ Str.dq ++ ".").
Proof.
  exact (proj2 (append_to_page_lines Store.respond bare_platform default_env
                  (mkClock 0 Zones.utc)
                  (mkWriteArgs Op.append_to_page "Inbox"
                     (Some ("one" ++ Str.nl ++ "  " ++ Str.nl ++ "two")) None None)
                  [Store.mkPage "Inbox" (JObj []) []]
                  (JObj [("name", JStr "Inbox")])
                  store_answers eq_refl eq_refl eq_refl)).
Defined.

(** *** A failure in the middle of a loop *)

Lemma run_script_loop {X} env (m : X -> string) (a : X -> list JSValue)
  (oks : list FetchResult) (failing : FetchResult) (rest : list FetchResult)
  (e : Thrown) :
  Forall answered oks ->
  thrown_by env failing = Some e ->
  forall l : list X,
    (List.length oks < List.length l)%nat ->
    run Script.respond (for_each l (fun x => WriteOps.call_ env (m x) (a x)))
      (oks ++ failing :: rest)%list
    = (map (fun x => request env (m x) (a x)) (firstn (S (List.length oks)) l),
       rest, Throw e).
Proof.
  intros Hoks T. induction Hoks as [| r oks Hr _ IH]; intros l L.
  - destruct l as [| x l]; [cbn in L; lia |].
    cbn [for_each List.app List.length firstn map].
    rewrite run_bind. unfold WriteOps.call_. rewrite run_bind.
    rewrite (run_call_failed Script.respond env (m x) (a x)
               (failing :: rest) rest failing e eq_refl T).
    now destruct l.
  - destruct l as [| x l]; [cbn in L; lia |].
    cbn [for_each List.app List.length firstn map].
    rewrite run_bind. unfold WriteOps.call_ at 1. rewrite run_bind.
    unfold answered in Hr. destruct (answer r) as [v |] eqn:Av; [| contradiction].
    rewrite (run_call_answered Script.respond env (m x) (a x)
               (r :: oks ++ failing :: rest)%list (oks ++ failing :: rest)%list
               r v eq_refl Av).
    cbn [run app]. rewrite IH by (cbn in L; lia). reflexivity.
Qed.

(** X22.  A call that fails in the middle of append_to_page ends the
    loop: with the page present, when the remote answers the first [k]
    appends and fails on the next one, the handler has made the page
    lookup and [k + 1] appends, makes no further request, and returns
    "Write error: " with the message of the failure.  The lines already
    appended stay appended. *)
Theorem append_stops_at_failure (pf : Platform) (env : Env) (clock : Clock)
  (target content : string) (page : JSValue) (oks rest : list FetchResult)
  (failing : FetchResult) (e : Thrown) :
  Str.truthy content = true ->
  JS.truthy page = true ->
  Forall answered oks ->
  (List.length oks < List.length (Write.lines_of content))%nat ->
  thrown_by env failing = Some e ->
  run Script.respond
    (logseq_write pf env clock
       (mkWriteArgs Op.append_to_page target (Some content) None None))
    (Script.ok page :: oks ++ failing :: rest)%list
  = (request env "logseq.Editor.getPage" [JStr target]
     :: map (fun line => request env "logseq.Editor.appendBlockInPage"
                           [JStr target; JStr line])
          (firstn (S (List.length oks)) (Write.lines_of content)),
     rest, Ok ("Write error: " ++ message_of e)).
Proof.
  intros C P Hoks L T. unfold logseq_write. rewrite run_tool.
  unfold WriteOps.body. cbn [w_operation]. unfold WriteOps.append_to_page.
  cbn [w_content w_target Query.given Query.text_of]. rewrite C. cbn [negb].
  rewrite run_bind.
  rewrite (run_call_answered Script.respond env "logseq.Editor.getPage"
             [JStr target] (Script.ok page :: oks ++ failing :: rest)%list
             (oks ++ failing :: rest)%list (Script.ok page) page eq_refl eq_refl).
  rewrite P. cbn [negb bind]. rewrite run_bind.
  unfold WriteOps.append_lines.
  rewrite (run_script_loop env (fun _ => "logseq.Editor.appendBlockInPage")
             (fun line => [JStr target; JStr line]) oks failing rest e Hoks T _ L).
  reflexivity.
Qed.

Lemma append_stops_at_failure_witness :
  run Script.respond
    (logseq_write bare_platform default_env (mkClock 0 Zones.utc)
       (mkWriteArgs Op.append_to_page "Inbox"
          (Some ("one" ++ Str.nl ++ "two" ++ Str.nl ++ "three")) None None))
    [Script.ok (JObj [("name", JStr "Inbox")]); Script.ok JNull;
     Responded 500 "Internal Server Error" None; Script.ok JNull]
  = ([request default_env "logseq.Editor.getPage" [JStr "Inbox"];
      request default_env "logseq.Editor.appendBlockInPage" [JStr "Inbox"; JStr "one"];
      request default_env "logseq.Editor.appendBlockInPage" [JStr "Inbox"; JStr "two"]],
     [Script.ok JNull],
     Ok "Write error: Logseq API error: 500 Internal Server Error").
Proof.
  refine (append_stops_at_failure bare_platform default_env (mkClock 0 Zones.utc)
            "Inbox" ("one" ++ Str.nl ++ "two" ++ Str.nl ++ "three")
            (JObj [("name", JStr "Inbox")]) [Script.ok JNull] [Script.ok JNull]
            (Responded 500 "Internal Server Error" None)
            (Error "Logseq API error: 500 Internal Server Error")
            eq_refl eq_refl _ _ eq_refl).
  - constructor; [discriminate | constructor].
  - vm_compute. lia.
Defined.

(** *** Block references *)

Lemma drop_app (a b : string) : Ref.drop (String.length a) (a ++ b) = b.
Proof. induction a as [| c r IH]; cbn; [reflexivity | exact IH]. Qed.

Lemma length_app (a b : string) :
  String.length (a ++ b) = (String.length a + String.length b)%nat.
Proof. induction a as [| c r IH]; cbn; [reflexivity | now rewrite IH]. Qed.

Lemma substring_app (a b : string) :
  substring 0 (String.length a) (a ++ b) = a.
Proof. induction a as [| c r IH]; cbn; [now destruct b | now rewrite IH]. Qed.

(** X23.  Cleaning a block reference: for every id, the reference
    "((id))" is cleaned to the id itself. *)
Theorem strip_reference (id : string) : Ref.strip ("((" ++ id ++ "))") = id.
Proof.
  unfold Ref.strip.
  assert (Pf : prefix "((" ("((" ++ id ++ "))") = true)
    by (cbn; now destruct (id ++ "))")).
  rewrite Pf.
  change (Ref.drop 2 ("((" ++ id ++ "))")) with (id ++ "))").
  assert (E : Ref.ends_with "))" (id ++ "))") = true).
  { unfold Ref.ends_with. rewrite length_app. cbn [String.length].
    apply andb_true_iff. split; [apply Nat.leb_le; lia |].
    replace (String.length id + 2 - 2)%nat with (String.length id) by lia.
    rewrite drop_app. reflexivity. }
  rewrite E, length_app. cbn [String.length].
  replace (String.length id + 2 - 2)%nat with (String.length id) by lia.
  apply substring_app.
Qed.

(** *** Properties *)

(** X24.  set_property on a target that, cleaned of its parentheses, is
    made of eight or more hexadecimal digits and dashes is taken for a
    block: every call succeeding, the handler makes no page lookup and
    sets each property on that id, in the order of the entries, with
    one call each.  A page named by a date such as 2025-03-14 is such a
    target. *)
Theorem set_property_on_block_id {S : Type}
  (respond : S -> Request -> S * FetchResult) (pf : Platform) (env : Env)
  (clock : Clock) (a : WriteArgs) (s : S) :
  answers_all respond ->
  w_operation a = Op.set_property ->
  WriteOps.no_properties (w_properties a) = false ->
  Ref.isBlockId (Ref.strip (w_target a)) = true ->
  let res := run respond (logseq_write pf env clock a) s in
  trace_of res
  = map (fun kv => request env "logseq.Editor.upsertBlockProperty"
                     [JStr (Ref.strip (w_target a)); JStr (fst kv); snd kv])
      (WriteOps.entries_of (w_properties a))
  /\ outcome_of res
     = Ok ("Set " ++ Str.ofZ (Z.of_nat (List.length (WriteOps.entries_of (w_properties a))))
           ++ " property(ies) on block.").
Proof.
  intros Hok O N B res. subst res.
  unfold logseq_write. rewrite run_tool.
  cbn [trace_of outcome_of fst snd].
  unfold WriteOps.body. rewrite O. unfold WriteOps.set_property.
  rewrite N, B. unfold WriteOps.upsert_all.
  destruct (run_loop_then respond env Hok
              (fun _ => "logseq.Editor.upsertBlockProperty")
              (fun kv => [JStr (Ref.strip (w_target a)); JStr (fst kv); snd kv])
              (WriteOps.entries_of (w_properties a))
              (fun _ => Ret ("Set " ++ WriteOps.count_of (w_properties a)
                             ++ " property(ies) on block.")) s) as (s3 & ->).
  cbn [run trace_of state_of outcome_of fst snd app].
  rewrite List.app_nil_r. split; reflexivity.
Qed.

Lemma set_property_on_block_id_witness :
  trace_of
    (run (answering JNull)
       (logseq_write bare_platform default_env (mkClock 0 Zones.utc)
          (mkWriteArgs Op.set_property "2025-03-14" None
             (Some [("mood", JStr "good"); ("rating", JNum 4)]) None)) tt)
  = [request default_env "logseq.Editor.upsertBlockProperty"
       [JStr "2025-03-14"; JStr "mood"; JStr "good"];
     request default_env "logseq.Editor.upsertBlockProperty"
       [JStr "2025-03-14"; JStr "rating"; JNum 4]].
Proof.
  refine (proj1 (set_property_on_block_id (answering JNull) bare_platform
                   default_env (mkClock 0 Zones.utc)
                   (mkWriteArgs Op.set_property "2025-03-14" None
                      (Some [("mood", JStr "good"); ("rating", JNum 4)]) None)
                   tt _ eq_refl eq_refl eq_refl)).
  intros s r. cbn. discriminate.
Defined.

(** X25.  set_property and remove_property on a page, a target that is
    not taken for a block id: the handler asks for the blocks of the
    page, and when the answer has no first block with a [uuid] it makes
    no other request, changes nothing, and says that the page has no
    blocks. *)
Theorem property_on_page_without_blocks {S : Type}
  (respond : S -> Request -> S * FetchResult) (pf : Platform) (env : Env)
  (clock : Clock) (a : WriteArgs) (s s1 : S) (res : FetchResult)
  (blocks : JSValue) :
  In (w_operation a) [Op.set_property; Op.remove_property] ->
  WriteOps.no_properties (w_properties a) = false ->
  Ref.isBlockId (Ref.strip (w_target a)) = false ->
  respond s (request env "logseq.Editor.getPageBlocksTree" [JStr (w_target a)])
  = (s1, res) ->
  answer res = Some blocks ->
  JS.truthy (WriteOps.first_uuid blocks) = false ->
  exists rest,
    run respond (logseq_write pf env clock a) s
    = ([request env "logseq.Editor.getPageBlocksTree" [JStr (w_target a)]], s1,
       Ok ("Page " ++ Str.dq ++ w_target a ++ Str.dq ++ " has no blocks" ++ rest)).
Proof.
  intros I N B R A U. unfold logseq_write. rewrite run_tool.
  unfold WriteOps.body.
  destruct (w_operation a); cbn [In] in I;
    repeat (destruct I as [I | I]; try discriminate I); try contradiction;
    unfold WriteOps.set_property, WriteOps.remove_property; rewrite N, B;
    rewrite run_bind, (run_call_answered _ _ _ _ _ _ _ _ R A), U;
    eexists; cbn [run app trace_of state_of outcome_of fst snd text_of_outcome].
  - instantiate (1 := " to set properties on."). reflexivity.
  - instantiate (1 := "."). reflexivity.
Qed.

Lemma property_on_page_without_blocks_witness :
  exists rest,
    run (answering (JArr []))
      (logseq_write bare_platform default_env (mkClock 0 Zones.utc)
         (mkWriteArgs Op.set_property "Inbox" None (Some [("mood", JStr "good")])
            None)) tt
    = ([request default_env "logseq.Editor.getPageBlocksTree" [JStr "Inbox"]], tt,
       Ok ("Page " ++ Str.dq ++ "Inbox" ++ Str.dq ++ " has no blocks" ++ rest)).
Proof.
  exact (property_on_page_without_blocks (answering (JArr [])) bare_platform
           default_env (mkClock 0 Zones.utc)
           (mkWriteArgs Op.set_property "Inbox" None (Some [("mood", JStr "good")])
              None)
           tt tt (Responded 200 "OK" (Some (JArr []))) (JArr [])
           (or_introl eq_refl) eq_refl eq_refl eq_refl eq_refl eq_refl).
Defined.

(** A line of no-break spaces is blank, and is not appended. *)
Example no_break_line_is_blank :
  Write.lines_of ("one" ++ Str.nl ++ Str.nbsp ++ " " ++ Str.nbsp ++ Str.nl ++ "two")
  = ["one"; "two"].
Proof. reflexivity. Qed.

(** A failure of the parser in the middle of a write. *)
Example write_remote_not_json :
  run Script.respond
    (logseq_write bare_platform default_env (mkClock 0 Zones.utc)
       (mkWriteArgs Op.append_to_page "Inbox"
          (Some ("one" ++ Str.nl ++ "two" ++ Str.nl ++ "three")) None None))
    [Script.ok (JObj [("name", JStr "Inbox")]); Script.ok JNull;
     Unparsed 200 "OK" html_message; Script.ok JNull]
  = ([request default_env "logseq.Editor.getPage" [JStr "Inbox"];
      request default_env "logseq.Editor.appendBlockInPage" [JStr "Inbox"; JStr "one"];
      request default_env "logseq.Editor.appendBlockInPage" [JStr "Inbox"; JStr "two"]],
     [Script.ok JNull],
     Ok ("Write error: " ++ html_message)).
Proof. reflexivity. Qed.

End WriteFacts.

(* ================================================================== *)
(** ** logseq_read *)
(* ================================================================== *)

Module ReadFacts.

Import StrFacts ApiFacts QueryEdgeFacts.

(** X26.  Reading a page for which the remote answers none: the handler
    makes that one request and returns the text that the page was not
    found; neither the blocks nor the backlinks are asked for, whatever
    the options. *)
Theorem read_page_not_found {S : Type}
  (respond : S -> Request -> S * FetchResult) (pf : Platform) (env : Env)
  (identifier : string) (o : ReadOptions) (s s1 : S) (res : FetchResult)
  (page : JSValue) :
  respond s (request env "logseq.Editor.getPage" [JStr identifier]) = (s1, res) ->
  answer res = Some page ->
  JS.truthy page = false ->
  run respond (logseq_read_page pf env identifier o) s
  = ([request env "logseq.Editor.getPage" [JStr identifier]], s1,
     Ok ("Page " ++ Str.dq ++ identifier ++ Str.dq ++ " not found.")).
Proof.
  intros R A F. unfold logseq_read_page. rewrite run_tool.
  unfold Read.page. rewrite run_bind. unfold Read.page_main.
  rewrite run_bind, (run_call_answered _ _ _ _ _ _ _ _ R A), F. reflexivity.
Qed.

Lemma read_page_not_found_witness :
  run (answering JNull)
    (logseq_read_page bare_platform default_env "Nowhere"
       (mkReadOptions None (Some true) None None)) tt
  = ([request default_env "logseq.Editor.getPage" [JStr "Nowhere"]], tt,
     Ok ("Page " ++ Str.dq ++ "Nowhere" ++ Str.dq ++ " not found.")).
Proof.
  exact (read_page_not_found (answering JNull) bare_platform default_env
           "Nowhere" (mkReadOptions None (Some true) None None) tt tt
           (Responded 200 "OK" (Some JNull)) JNull eq_refl eq_refl eq_refl).
Defined.

(** *** Backlinks *)

(** X27.  A failure of the backlinks call does not fail the reading of
    the page: the text built so far is returned, followed by the
    section that says that the backlinks could not be fetched. *)
Theorem backlinks_failure_tolerated {S : Type}
  (respond : S -> Request -> S * FetchResult) (pf : Platform) (env : Env)
  (identifier : string) (o : ReadOptions) (s s1 s2 : S) (t1 : list Request)
  (output : string) (res : FetchResult) (e : Thrown) :
  Read.includeBacklinks o = true ->
  run respond (Read.page_main pf env identifier o) s = (t1, s1, Ok (inr output)) ->
  respond s1 (request env "logseq.Editor.getPageLinkedReferences" [JStr identifier])
  = (s2, res) ->
  thrown_by env res = Some e ->
  run respond (logseq_read_page pf env identifier o) s
  = ((t1 ++ [request env "logseq.Editor.getPageLinkedReferences" [JStr identifier]])%list,
     s2,
     Ok (output ++ Str.nl ++ "## Backlinks" ++ Str.nl ++ Str.nl
         ++ "Could not fetch backlinks." ++ Str.nl)).
Proof.
  intros B M R T. unfold logseq_read_page. rewrite run_tool.
  unfold Read.page. rewrite run_bind, M, B. unfold Read.backlinks, Read.attempt.
  rewrite run_bind, run_catch, run_bind.
  rewrite (run_call_failed _ _ _ _ _ _ _ _ R T). reflexivity.
Qed.

Lemma backlinks_failure_tolerated_witness :
  outcome_of
    (run Script.respond
       (logseq_read_page bare_platform default_env "Inbox"
          (mkReadOptions (Some false) (Some true) None None))
       [Script.ok (JObj [("name", JStr "inbox")]);
        Responded 500 "Internal Server Error" None])
  = Ok ("# inbox" ++ Str.nl ++ Str.nl ++ Str.nl ++ "## Backlinks" ++ Str.nl ++ Str.nl
        ++ "Could not fetch backlinks." ++ Str.nl).
Proof.
  rewrite (backlinks_failure_tolerated Script.respond bare_platform default_env
             "Inbox" (mkReadOptions (Some false) (Some true) None None)
             [Script.ok (JObj [("name", JStr "inbox")]);
              Responded 500 "Internal Server Error" None]
             [Responded 500 "Internal Server Error" None] []
             [request default_env "logseq.Editor.getPage" [JStr "Inbox"]]
             ("# inbox" ++ Str.nl ++ Str.nl)
             (Responded 500 "Internal Server Error" None)
             (Error "Logseq API error: 500 Internal Server Error")
             eq_refl eq_refl eq_refl eq_refl).
  reflexivity.
Defined.

Lemma backlink_loop_lines (refs : list JSValue) : forall lines output,
  Query.map_outcome Read.backlink_line refs = Ok lines ->
  Read.backlink_loop refs output = (output ++ Str.concat_all lines, None).
Proof.
  induction refs as [| ref rest IH]; intros lines output H;
    cbn [Query.map_outcome Read.backlink_loop] in *.
  - injection H as <-. cbn. now rewrite app_nil_r.
  - destruct (Read.backlink_line ref) as [line | e]; cbn [obind] in H;
      [| discriminate].
    destruct (Query.map_outcome Read.backlink_line rest) as [ls | e];
      cbn [obind] in H; [| discriminate].
    injection H as <-. rewrite (IH ls (output ++ line) eq_refl).
    change (Str.concat_all (line :: ls)) with (line ++ Str.concat_all ls).
    now rewrite app_assoc.
Qed.

Lemma map_outcome_length {X Y} (f : X -> Outcome Y) (l : list X) : forall ys,
  Query.map_outcome f l = Ok ys -> List.length ys = List.length l.
Proof.
  induction l as [| x r IH]; intros ys H; cbn [Query.map_outcome] in H.
  - now injection H as <-.
  - destruct (f x); cbn [obind] in H; [| discriminate].
    destruct (Query.map_outcome f r) as [zs |]; cbn [obind] in H; [| discriminate].
    injection H as <-. cbn [List.length]. now rewrite (IH zs eq_refl).
Qed.

Lemma slice0_length {A} (l : list A) (n : Z) :
  0 <= n -> Z.of_nat (List.length (JS.slice0 l n)) <= n.
Proof.
  intros H. unfold JS.slice0, JS.slice_count.
  destruct (Z.ltb_spec n 0); [lia |]. rewrite length_firstn. lia.
Qed.

(** X28.  The backlinks section lists at most twenty references: when
    the remote answers a non-empty array of references, the section has
    the total number in its heading, one line for each of the first
    twenty, and, when there are more, a last line with the number of
    those left out. *)
Theorem backlinks_capped {S : Type}
  (respond : S -> Request -> S * FetchResult) (pf : Platform) (env : Env)
  (identifier : string) (o : ReadOptions) (s s1 s2 : S) (t1 : list Request)
  (output : string) (res : FetchResult) (refs : list JSValue)
  (lines : list string) :
  Read.includeBacklinks o = true ->
  run respond (Read.page_main pf env identifier o) s = (t1, s1, Ok (inr output)) ->
  respond s1 (request env "logseq.Editor.getPageLinkedReferences" [JStr identifier])
  = (s2, res) ->
  answer res = Some (JArr refs) ->
  refs <> [] ->
  Query.map_outcome Read.backlink_line (firstn 20 refs) = Ok lines ->
  let n := Z.of_nat (List.length refs) in
  run respond (logseq_read_page pf env identifier o) s
  = ((t1 ++ [request env "logseq.Editor.getPageLinkedReferences" [JStr identifier]])%list,
     s2,
     Ok (output ++ Str.nl ++ "## Backlinks (" ++ Str.ofZ n ++ ")" ++ Str.nl ++ Str.nl
         ++ Str.concat_all lines
         ++ (if 20 <? n then "- ... and " ++ Str.ofZ (n - 20) ++ " more" ++ Str.nl
             else "")))
  /\ (List.length lines <= 20)%nat.
Proof.
  intros B M R A N L n. split.
  - unfold logseq_read_page. rewrite run_tool.
    unfold Read.page. rewrite run_bind, M, B. unfold Read.backlinks, Read.attempt.
    rewrite run_bind, run_catch, run_bind.
    rewrite (run_call_answered _ _ _ _ _ _ _ _ R A). cbn [run app].
    unfold Read.backlinks_try. cbn [BlocksJ.has_length].
    destruct (Z.ltb_spec 0 (Z.of_nat (List.length refs))) as [_ | Z0];
      [| destruct refs; [contradiction | cbn [List.length] in Z0; lia]].
    assert (E : JS.slice0 refs 20 = firstn 20 refs).
    { unfold JS.slice0, JS.slice_count. cbn [Z.ltb Z.compare].
      destruct (Z.min_spec 20 (Z.of_nat (List.length refs))) as [[_ ->] | [G ->]];
        [reflexivity |].
      rewrite Nat2Z.id, !firstn_all2 by lia. reflexivity. }
    rewrite E, (backlink_loop_lines _ _ _ L). fold n.
    cbn [run app trace_of state_of outcome_of fst snd text_of_outcome].
    f_equal. f_equal.
    destruct (20 <? n).
    + now rewrite !app_assoc.
    + now rewrite !app_assoc, app_nil_r.
  - rewrite (map_outcome_length _ _ _ L), length_firstn. lia.
Qed.

Lemma backlinks_capped_witness :
  outcome_of
    (run Script.respond
       (logseq_read_page bare_platform default_env "Inbox"
          (mkReadOptions (Some false) (Some true) None None))
       [Script.ok (JObj [("name", JStr "inbox")]);
        Script.ok (JArr [JArr [JObj [("block/name", JStr "index")]]])])
  = Ok ("# inbox" ++ Str.nl ++ Str.nl ++ Str.nl ++ "## Backlinks (1)" ++ Str.nl
        ++ Str.nl ++ "- [[index]]" ++ Str.nl).
Proof.
  refine (f_equal outcome_of
            (proj1 (backlinks_capped Script.respond bare_platform default_env
                      "Inbox" (mkReadOptions (Some false) (Some true) None None)
                      [Script.ok (JObj [("name", JStr "inbox")]);
                       Script.ok (JArr [JArr [JObj [("block/name", JStr "index")]]])]
                      [Script.ok (JArr [JArr [JObj [("block/name", JStr "index")]]])]
                      []
                      [request default_env "logseq.Editor.getPage" [JStr "Inbox"]]
                      ("# inbox" ++ Str.nl ++ Str.nl)
                      (Script.ok (JArr [JArr [JObj [("block/name", JStr "index")]]]))
                      [JArr [JObj [("block/name", JStr "index")]]]
                      ["- [[index]]" ++ Str.nl]
                      eq_refl eq_refl eq_refl eq_refl _ eq_refl))).
  discriminate.
Defined.

(** *** The content of a page *)

(** X29.  Reading a page that has no properties, with the content and
    without the backlinks: when the remote answers a non-empty array of
    blocks, objects whose [content] is text and whose [children] are an
    array of such blocks, with whatever other fields, the text is the
    title of the page, the heading of the content, and the trees of
    contents and children rendered by [processBlocks] from depth 0. *)
Theorem read_page_content {S : Type}
  (respond : S -> Request -> S * FetchResult) (pf : Platform) (env : Env)
  (identifier : string) (o : ReadOptions) (s s1 s2 : S) (res1 res2 : FetchResult)
  (fields : list (string * JSValue)) (blocks : list JSValue) :
  Read.includeContent o = true ->
  Read.includeBacklinks o = false ->
  respond s (request env "logseq.Editor.getPage" [JStr identifier]) = (s1, res1) ->
  answer res1 = Some (JObj fields) ->
  JS.truthy (JS.assoc "properties" fields) = false ->
  respond s1 (request env "logseq.Editor.getPageBlocksTree" [JStr identifier])
  = (s2, res2) ->
  answer res2 = Some (JArr blocks) ->
  forallb BlocksJ.is_block blocks = true ->
  blocks <> [] ->
  run respond (logseq_read_page pf env identifier o) s
  = ([request env "logseq.Editor.getPage" [JStr identifier];
      request env "logseq.Editor.getPageBlocksTree" [JStr identifier]],
     s2,
     Ok ("# " ++ JS.toStr (JS.or_ (JS.assoc "originalName" fields)
                                  (JS.assoc "name" fields))
         ++ Str.nl ++ Str.nl ++ "## Content" ++ Str.nl ++ Str.nl
         ++ processBlocks (map BlocksJ.decode blocks) 0)).
Proof.
  intros C B R1 A1 Pr R2 A2 Bl N. unfold logseq_read_page. rewrite run_tool.
  unfold Read.page. rewrite run_bind. unfold Read.page_main.
  rewrite run_bind, (run_call_answered _ _ _ _ _ _ _ _ R1 A1).
  cbn [JS.truthy negb JS.get lift bind]. rewrite Pr, andb_false_r, C.
  cbn [bind]. rewrite !run_bind, (run_call_answered _ _ _ _ _ _ _ _ R2 A2).
  cbn [BlocksJ.has_length].
  destruct (Z.ltb_spec 0 (Z.of_nat (List.length blocks))) as [_ | Z0];
    [| destruct blocks; [contradiction | cbn [List.length] in Z0; lia]].
  rewrite (JsonBlockFacts.processBlocks_decoded _ _ _ Bl). cbn [lift bind run app].
  rewrite B. cbn [run app trace_of state_of outcome_of fst snd text_of_outcome].
  now rewrite !app_assoc.
Qed.

Lemma read_page_content_witness :
  outcome_of
    (run Script.respond
       (logseq_read_page bare_platform default_env "Inbox" no_read_options)
       [Script.ok (JObj [("name", JStr "inbox"); ("originalName", JStr "Inbox")]);
        Script.ok (JArr BlocksJ.sample_blocks)])
  = Ok ("# Inbox" ++ Str.nl ++ Str.nl ++ "## Content" ++ Str.nl ++ Str.nl
        ++ "- TODO plan" ++ Str.nl ++ "  - first step" ++ Str.nl
        ++ "- notes" ++ Str.nl).
Proof.
  refine (f_equal outcome_of
            (read_page_content Script.respond bare_platform default_env "Inbox"
               no_read_options
               [Script.ok (JObj [("name", JStr "inbox"); ("originalName", JStr "Inbox")]);
                Script.ok (JArr BlocksJ.sample_blocks)]
               [Script.ok (JArr BlocksJ.sample_blocks)] []
               (Script.ok (JObj [("name", JStr "inbox"); ("originalName", JStr "Inbox")]))
               (Script.ok (JArr BlocksJ.sample_blocks))
               [("name", JStr "inbox"); ("originalName", JStr "Inbox")]
               BlocksJ.sample_blocks
               eq_refl eq_refl eq_refl eq_refl eq_refl eq_refl eq_refl eq_refl _)).
  discriminate.
Defined.

End ReadFacts.

(* ================================================================== *)
(** ** logseq_analyze *)
(* ================================================================== *)

Module AnalyzeFacts.

Import ApiFacts.

Lemma filter_list_kept (pred : JSValue -> Outcome bool) (l : list JSValue) :
  forall kept, Query.filter_list pred l = Ok kept ->
               Forall (fun x => pred x = Ok true) kept.
Proof.
  induction l as [| x r IH]; intros kept H; cbn [Query.filter_list] in H.
  - injection H as <-. constructor.
  - destruct (pred x) as [keep | e] eqn:Px; cbn [obind] in H; [| discriminate].
    destruct (Query.filter_list pred r) as [rest |]; cbn [obind] in H;
      [| discriminate].
    injection H as <-. specialize (IH rest eq_refl).
    destruct keep; [constructor; assumption | exact IH].
Qed.

Lemma Forall_firstn {A} (P : A -> Prop) (l : list A) (n : nat) :
  Forall P l -> Forall P (firstn n l).
Proof.
  intros H. revert n. induction H as [| x r Hx _ IH]; intros [| n]; cbn [firstn];
    constructor; auto.
Qed.

(** X30.  The analysis of orphan pages asks the remote the catalog
    query for orphan pages and reports on the pages it lists.  No page
    flagged as a journal is listed, and, for a limit that is not
    negative, at most [limit] pages are; without a limit in the options
    the limit is 20. *)
Theorem orphan_pages_listed {S : Type}
  (respond : S -> Request -> S * FetchResult) (env : Env) (clock : Clock)
  (limit : option Z) (s s1 : S) (res : FetchResult) (orphans : JSValue)
  (listed : list JSValue) :
  let n := match limit with Some n => n | None => 20 end in
  let req := request env "logseq.DB.datascriptQuery"
               [Query.query_arg (buildDatalogQuery (Date_now clock) "orphan_pages"
                                   no_params)] in
  respond s req = (s1, res) ->
  answer res = Some orphans ->
  Analyze.orphan_list n orphans = Ok listed ->
  run respond (logseq_analyze_orphan_pages env clock limit) s
  = ([req], s1, Ok (text_of_outcome "Analysis error: " (Analyze.orphan_report listed)))
  /\ Forall (fun p => exists j, JS.get p "block/journal?" = Ok j /\ JS.truthy j = false)
       listed
  /\ (0 <= n -> Z.of_nat (List.length listed) <= n).
Proof.
  intros n req R A L. split; [| split].
  - unfold logseq_analyze_orphan_pages. rewrite run_tool.
    unfold Analyze.orphan_pages. fold n. fold req.
    rewrite run_bind, (run_call_answered _ _ _ _ _ _ _ _ R A).
    rewrite run_bind, L. cbn [lift run app].
    destruct (Analyze.orphan_report listed); reflexivity.
  - destruct orphans as [| | | | | l |]; cbn [Analyze.orphan_list] in L;
      try discriminate.
    destruct (Query.map_outcome JS.get0 l) as [firsts |]; cbn [obind] in L;
      [| discriminate].
    destruct (Query.filter_list Analyze.not_journal firsts) as [kept |] eqn:K;
      cbn [obind] in L; [| discriminate].
    injection L as <-. unfold JS.slice0. apply Forall_firstn.
    eapply Forall_impl; [| exact (filter_list_kept _ _ _ K)].
    intros p Hp. unfold Analyze.not_journal in Hp.
    destruct (JS.get p "block/journal?") as [j |]; cbn [obind] in Hp;
      [| discriminate].
    exists j. split; [reflexivity |].
    injection Hp as Hp. now apply negb_true_iff in Hp.
  - intros Hn.
    destruct orphans as [| | | | | l |]; cbn [Analyze.orphan_list] in L;
      try discriminate.
    destruct (Query.map_outcome JS.get0 l) as [firsts |]; cbn [obind] in L;
      [| discriminate].
    destruct (Query.filter_list Analyze.not_journal firsts) as [kept |];
      cbn [obind] in L; [| discriminate].
    injection L as <-. now apply ReadFacts.slice0_length.
Qed.

Lemma orphan_pages_listed_witness :
  outcome_of
    (run (answering (JArr [JArr [JObj [("block/name", JStr "mar 14th, 2025");
                                       ("block/journal?", JBool true)]];
                           JArr [JObj [("block/name", JStr "draft")]];
                           JArr [JObj [("block/name", JStr "old");
                                       ("block/original-name", JStr "Old")]]]))
       (logseq_analyze_orphan_pages default_env (mkClock 0 Zones.utc) (Some 1)) tt)
  = Ok ("# Orphan Pages" ++ Str.nl ++ Str.nl
        ++ "*Pages with no incoming links from other pages*" ++ Str.nl ++ Str.nl
        ++ "Found 1 orphan page(s):" ++ Str.nl ++ Str.nl
        ++ "- [[draft]]" ++ Str.nl).
Proof.
  refine (f_equal outcome_of
            (proj1 (orphan_pages_listed
                      (answering (JArr [JArr [JObj [("block/name", JStr "mar 14th, 2025");
                                                    ("block/journal?", JBool true)]];
                                        JArr [JObj [("block/name", JStr "draft")]];
                                        JArr [JObj [("block/name", JStr "old");
                                                    ("block/original-name", JStr "Old")]]]))
                      default_env (mkClock 0 Zones.utc) (Some 1) tt tt
                      (Responded 200 "OK" (Some _)) _
                      [JObj [("block/name", JStr "draft")]]
                      eq_refl eq_refl eq_refl))).
Defined.

End AnalyzeFacts.
